(** * Mac <-> Android file transfer: services and transfer endpoints

    A shallow embedding of [services/adb_service.py],
    [services/file_service.py] and the transfer endpoints of
    [api/files.py], with the properties of the specification stated
    over it.

    Text is modelled as [string]: sequences of characters with code
    points below 256.  The Python string methods the program uses are
    written out for that range.  The operating system and the device
    bridge (adbutils) are not part of the repository: they are the
    fields of a [Host] record, and every call the program makes to them
    is recorded in the trace of the computation. *)

From Stdlib Require Import String Ascii List ZArith NArith Bool Lia.
From Stdlib Require Import Sorting.Sorted Sorting.Permutation.
From Stdlib Require Import Structures.OrdersEx Classes.RelationClasses.
From Stdlib Require Import Strings.Byte.
Import ListNotations.
Local Open Scope string_scope.
Local Open Scope list_scope.

(** ** Python [str] methods *)

Module Str.

(** [c.isspace()] for one character: TAB..CR, FS..US, SPACE, NEL, NBSP. *)
Definition isspace (c : ascii) : bool :=
  let n := N_of_ascii c in
  (((9 <=? n) && (n <=? 13)) || ((28 <=? n) && (n <=? 32))
   || (n =? 133) || (n =? 160))%N.

Definition is_empty (s : string) : bool :=
  match s with EmptyString => true | String _ _ => false end.

(** [s.lstrip()], [s.rstrip()], [s.strip()] *)
Fixpoint lstrip (s : string) : string :=
  match s with
  | EmptyString => EmptyString
  | String c r => if isspace c then lstrip r else s
  end.

Fixpoint rstrip (s : string) : string :=
  match s with
  | EmptyString => EmptyString
  | String c r =>
      let r' := rstrip r in
      if isspace c && is_empty r' then EmptyString else String c r'
  end.

Definition strip (s : string) : string := rstrip (lstrip s).

(** [s.split()]: maximal runs of non-whitespace characters. *)
Fixpoint split_go (tok s : string) : list string :=
  match s with
  | EmptyString => if is_empty tok then [] else [tok]
  | String c r =>
      if isspace c
      then (if is_empty tok then split_go "" r else tok :: split_go "" r)
      else split_go (tok ++ String c "") r
  end.

Definition split (s : string) : list string := split_go "" s.

(** [s.split(sep)] for a one-character separator: empty fields are kept. *)
Fixpoint split_sep_go (sep : ascii) (cur s : string) : list string :=
  match s with
  | EmptyString => [cur]
  | String c r =>
      if Ascii.eqb c sep then cur :: split_sep_go sep "" r
      else split_sep_go sep (cur ++ String c "") r
  end.

Definition split_sep (sep : ascii) (s : string) : list string :=
  split_sep_go sep "" s.

(** [sep.join(parts)] *)
Definition join (sep : string) (parts : list string) : string :=
  String.concat sep parts.

(** [s.startswith(p)] *)
Definition startswith (s p : string) : bool := String.prefix p s.

(** [s.endswith(p)] for a one-character [p] *)
Fixpoint endswith_char (s : string) (c : ascii) : bool :=
  match s with
  | EmptyString => false
  | String a EmptyString => Ascii.eqb a c
  | String _ r => endswith_char r c
  end.

(** [sub in s] *)
Fixpoint contains (sub s : string) : bool :=
  String.prefix sub s
  || match s with
     | EmptyString => false
     | String _ r => contains sub r
     end.

(** [c.isdigit()]: the decimal digits and the superscripts two, three
    and one, which have the Unicode digit property. *)
Definition is_decimal_char (c : ascii) : bool :=
  let n := N_of_ascii c in ((48 <=? n) && (n <=? 57))%N.

Definition isdigit_char (c : ascii) : bool :=
  let n := N_of_ascii c in
  (is_decimal_char c || (n =? 178) || (n =? 179) || (n =? 185))%N.

Fixpoint all_chars (p : ascii -> bool) (s : string) : bool :=
  match s with
  | EmptyString => true
  | String c r => p c && all_chars p r
  end.

(** [s.isdigit()]: false on the empty string. *)
Definition isdigit (s : string) : bool :=
  negb (is_empty s) && all_chars isdigit_char s.

(** [s.lower()]: A..Z and the accented capitals of Latin-1. *)
Definition lower_char (c : ascii) : ascii :=
  let n := N_of_ascii c in
  if (((65 <=? n) && (n <=? 90))
      || ((192 <=? n) && (n <=? 222) && negb (n =? 215)))%N
  then ascii_of_N (n + 32) else c.

Fixpoint lower (s : string) : string :=
  match s with
  | EmptyString => EmptyString
  | String c r => String (lower_char c) (lower r)
  end.

(** Value of a run of decimal digits, most significant first. *)
Fixpoint decimal_value (acc : Z) (s : string) : Z :=
  match s with
  | EmptyString => acc
  | String c r => decimal_value (10 * acc + (Z.of_N (N_of_ascii c) - 48)) r
  end.

(** The line feed. *)
Definition nl : string := String "010" "".

(** [s1 < s2] and [s1 <= s2]: lexicographic on code points. *)
Definition ltb (s1 s2 : string) : bool := String.ltb s1 s2.
Definition leb (s1 s2 : string) : bool := String.leb s1 s2.

End Str.

(** ** [posixpath] *)

Module posixpath.

(** [(p[:i], p[i:])] with [i = p.rfind('/') + 1]. *)
Fixpoint cut_last_sep (p : string) : string * string :=
  match p with
  | EmptyString => (EmptyString, EmptyString)
  | String c r =>
      let (h, t) := cut_last_sep r in
      if negb (Str.is_empty h) then (String c h, t)
      else if Ascii.eqb c "/" then ("/", r)
      else (EmptyString, String c r)
  end.

Definition is_sep (c : ascii) : bool := Ascii.eqb c "/".

(** [head.rstrip('/')] *)
Fixpoint rstrip_sep (s : string) : string :=
  match s with
  | EmptyString => EmptyString
  | String c r =>
      let r' := rstrip_sep r in
      if is_sep c && Str.is_empty r' then EmptyString else String c r'
  end.

(** [if head and head != sep*len(head): head = head.rstrip(sep)] *)
Definition trim_head (head : string) : string :=
  if negb (Str.is_empty head) && negb (Str.all_chars is_sep head)
  then rstrip_sep head else head.

Definition split (p : string) : string * string :=
  let (head, tail) := cut_last_sep p in (trim_head head, tail).

Definition dirname (p : string) : string :=
  trim_head (fst (cut_last_sep p)).

(** [os.path.join(a, b)] *)
Definition join (a b : string) : string :=
  if Str.startswith b "/" then b
  else if Str.is_empty a || Str.endswith_char a "/" then a ++ b
  else a ++ "/" ++ b.

(** [os.path.basename(p)]: [p[i:]] with [i = p.rfind('/') + 1]. *)
Definition basename (p : string) : string := snd (cut_last_sep p).

End posixpath.

(** ** Exceptions, results and the trace of external calls *)

(** The [errno] of an [OSError], as far as the program can tell them apart. *)
Inductive errno := ENOENT | EEXIST | EACCES | ENOTDIR | EISDIR | EIO.

(** Exceptions deriving from [Exception].  [FileNotFoundError],
    [FileExistsError] and [PermissionError] are [OSError] with errno
    [ENOENT], [EEXIST] and [EACCES]; [IOError] is [OSError] itself. *)
Inductive exn :=
| ValueError (msg : string)
| OSError (code : errno) (msg : string)
| AdbError (msg : string)
| HTTPException (status_code : Z) (detail : string)
| OtherError (msg : string).

(** [str(e)] *)
Definition exn_str (e : exn) : string :=
  match e with
  | ValueError m | OSError _ m | AdbError m | OtherError m => m
  | HTTPException _ d => d
  end.

Definition is_OSError (e : exn) : bool :=
  match e with OSError _ _ => true | _ => false end.

Definition is_FileExistsError (e : exn) : bool :=
  match e with OSError EEXIST _ => true | _ => false end.

Definition is_HTTPException (e : exn) : bool :=
  match e with HTTPException _ _ => true | _ => false end.

Inductive result (A : Type) :=
| Ok (a : A)
| Raise (e : exn).
Arguments Ok {A} a.
Arguments Raise {A} e.

(** One entry per call that leaves the program. *)
Inductive event :=
| EValidate (raw : string)                  (* FileService.validate_path(raw) entered *)
| EOsExists (p : string)                    (* os.path.exists(p) *)
| EOsIsdir (p : string)                     (* os.path.isdir(p) *)
| EOsListdir (p : string)                   (* os.listdir(p) *)
| EOsStat (p : string)                      (* os.stat(p) *)
| EOsMkdir (p : string)                     (* os.mkdir(p) *)
| EOsWrite (p : string)                     (* open(p, 'wb') and f.write *)
| EAdbDeviceList                            (* adb.device_list() *)
| EAdbDevice (serial : string)              (* adb.device(serial=serial) *)
| EAdbProp (serial key : string)            (* device.prop... *)
| EAdbShell (serial cmd : string)           (* device.shell(cmd) *)
| EAdbPull (serial remote local_ : string)  (* device.sync.pull(remote, local) *)
| EAdbPush (serial local_ remote : string). (* device.sync.push(local, remote) *)

(** Calls on the sync channel of a device. *)
Definition is_transport (ev : event) : bool :=
  match ev with EAdbPull _ _ _ | EAdbPush _ _ _ => true | _ => false end.



(** [os.stat_result], the two fields the program reads; [st_mtime] is
    kept as the integer [int(st_mtime)]. *)
Record stat_result := { st_size : Z; st_mtime : Z }.

(** ** The host: operating system and device bridge

    [W] is the state of the world (the local disk, the attached
    devices), [Dev] the type of [AdbDevice] handles.  Lookups read the
    world; the others may change it. *)
Record Host (W Dev : Type) := {
  os_expanduser : W -> string -> string;
  os_abspath    : W -> string -> string;
  os_exists     : W -> string -> bool;
  os_isdir      : W -> string -> bool;
  os_listdir    : W -> string -> result (list string);
  os_stat       : W -> string -> result stat_result;
  os_mkdir      : string -> W -> result unit * W;
  os_write      : string -> list byte -> W -> result unit * W;
  adb_device_list : W -> result (list Dev);
  adb_device      : W -> string -> result Dev;
  dev_serial      : Dev -> string;
  (* device.prop.model *)
  dev_prop_model  : Dev -> W -> result string;
  (* device.prop.get(key, arg) *)
  dev_prop_get    : Dev -> string -> string -> W -> result string;
  dev_shell       : Dev -> string -> W -> result string * W;
  dev_sync_pull   : Dev -> string -> string -> W -> result unit * W;
  dev_sync_push   : Dev -> string -> string -> W -> result unit * W
}.
Arguments os_expanduser {W Dev} _ _ _.
Arguments os_abspath {W Dev} _ _ _.
Arguments os_exists {W Dev} _ _ _.
Arguments os_isdir {W Dev} _ _ _.
Arguments os_listdir {W Dev} _ _ _.
Arguments os_stat {W Dev} _ _ _.
Arguments os_mkdir {W Dev} _ _ _.
Arguments os_write {W Dev} _ _ _ _.
Arguments adb_device_list {W Dev} _ _.
Arguments adb_device {W Dev} _ _ _.
Arguments dev_serial {W Dev} _ _.
Arguments dev_prop_model {W Dev} _ _ _.
Arguments dev_prop_get {W Dev} _ _ _ _ _.
Arguments dev_shell {W Dev} _ _ _ _.
Arguments dev_sync_pull {W Dev} _ _ _ _ _.
Arguments dev_sync_push {W Dev} _ _ _ _ _.

(** ** Computations: world passing, exceptions, trace *)

(** The outcome of running a computation: its result, the world it
    leaves and the calls it made, oldest first. *)
Record outcome (W A : Type) := Outcome {
  res   : result A;
  final : W;
  trace : list event
}.
Arguments Outcome {W A} _ _ _.
Arguments res {W A} _.
Arguments final {W A} _.
Arguments trace {W A} _.

Definition M (W A : Type) : Type := W -> outcome W A.

Definition ret {W A} (a : A) : M W A := fun w => Outcome (Ok a) w [].

Definition raise {W A} (e : exn) : M W A := fun w => Outcome (Raise e) w [].

Definition bind {W A B} (m : M W A) (k : A -> M W B) : M W B :=
  fun w =>
    let o := m w in
    match res o with
    | Ok a => let o' := k a (final o) in
              Outcome (res o') (final o') (trace o ++ trace o')
    | Raise e => Outcome (Raise e) (final o) (trace o)
    end.

(** [try: m  except Exception as e: h e] *)
Definition try_except {W A} (m : M W A) (h : exn -> M W A) : M W A :=
  fun w =>
    let o := m w in
    match res o with
    | Ok a => o
    | Raise e => let o' := h e (final o) in
                 Outcome (res o') (final o') (trace o ++ trace o')
    end.

(** A call that reads the world. *)
Definition lookup {W A} (ev : event) (f : W -> A) : M W A :=
  fun w => Outcome (Ok (f w)) w [ev].

(** A call that reads the world and may raise. *)
Definition lookup_result {W A} (ev : event) (f : W -> result A) : M W A :=
  fun w => Outcome (f w) w [ev].

(** A call that may change the world and may raise. *)
Definition perform {W A} (ev : event) (f : W -> result A * W) : M W A :=
  fun w => let (r, w') := f w in Outcome r w' [ev].

(** A value computed from the environment without a call worth a trace
    entry ([os.path.abspath], [os.path.expanduser]). *)
Definition ask {W A} (f : W -> A) : M W A :=
  fun w => Outcome (Ok (f w)) w [].

Declare Scope py_scope.
Delimit Scope py_scope with py.
Notation "x <- m ;; k" := (bind m (fun x => k))
  (at level 61, m at next level, right associativity) : py_scope.
Notation "m ;;; k" := (bind m (fun _ => k))
  (at level 61, right associativity) : py_scope.
Local Open Scope py_scope.

(** [for x in xs: acc = body acc x], with the exceptions of the body
    leaving the loop. *)
Fixpoint for_each {W A X} (xs : list X) (body : A -> X -> M W A) (acc : A)
  : M W A :=
  match xs with
  | [] => ret acc
  | x :: rest => acc' <- body acc x ;; for_each rest body acc'
  end.

(** ** Built-ins: [int], [sorted] *)

Module Builtins.

(** [sys.get_int_max_str_digits()], the interpreter's default. *)
Definition int_max_str_digits : N := 4300.

(** [int(s)] on the texts that reach it in this program: those for
    which [s.isdigit()] holds, and the literal ['0'].  A digit that is
    not a decimal digit makes [int] raise [ValueError], and so does a
    text of more digits than the interpreter converts. *)
Definition int (s : string) : result Z :=
  if negb (Str.is_empty s) && Str.all_chars Str.is_decimal_char s
  then
    if (N.of_nat (String.length s) <=? int_max_str_digits)%N
    then Ok (Str.decimal_value 0 s)
    else Raise (ValueError
                  "Exceeds the limit (4300 digits) for integer string conversion")
  else Raise (ValueError ("invalid literal for int() with base 10: '" ++ s ++ "'")).

Section Sorted.
Context {A K : Type} (key : A -> K) (lt : K -> K -> bool).

(** [x] goes before the first element whose key is not below its
    own: elements with equal keys keep their order. *)
Fixpoint insert (x : A) (l : list A) : list A :=
  match l with
  | [] => [x]
  | y :: r => if lt (key y) (key x) then y :: insert x r else x :: y :: r
  end.

(** [sorted(l, key=key)]: the stable sort of [l]. *)
Fixpoint sorted (l : list A) : list A :=
  match l with
  | [] => []
  | x :: r => insert x (sorted r)
  end.
End Sorted.

(** [<] on tuples [(bool, str)]: [False < True], then the strings. *)
Definition tuple_lt (k1 k2 : bool * string) : bool :=
  let (b1, s1) := k1 in
  let (b2, s2) := k2 in
  if Bool.eqb b1 b2 then Str.ltb s1 s2 else negb b1 && b2.

End Builtins.

(** ** Data model *)

(** The dictionary describing one listing entry.  A local entry has
    ['modified'] and no ['permissions']; a remote one the converse. *)
Record file_info := {
  fi_name : string;
  fi_path : string;
  fi_is_directory : bool;
  fi_size : Z;
  fi_modified : option Z;
  fi_permissions : option string;
  fi_type : string
}.

(** [lambda x: (not x['is_directory'], x['name'].lower())] *)
Definition listing_key (x : file_info) : bool * string :=
  (negb (fi_is_directory x), Str.lower (fi_name x)).

Definition sort_listing (files : list file_info) : list file_info :=
  Builtins.sorted listing_key Builtins.tuple_lt files.

(** The dictionary describing one device. *)
Record device_info := {
  di_serial : string;
  di_model : string;
  di_manufacturer : string;
  di_android_version : string;
  di_state : string
}.

(** Values of the dictionaries the endpoints return. *)
Inductive pyval :=
| PBool (b : bool)
| PStr (s : string).

Definition pydict := list (string * pyval).

(** [api/files.py], [class TransferRequest] *)
Record TransferRequest := {
  source_path : string;
  destination_path : string;
  device_serial : option string
}.

(** [not s] for an optional string: [None] and [''] are falsy. *)
Definition falsy (s : option string) : bool :=
  match s with
  | None => true
  | Some t => Str.is_empty t
  end.

(** ** [os]: the calls the program makes, and [os.makedirs] *)

Module os.
Section WithHost.
Context {W Dev : Type} (host : Host W Dev).

Definition path_exists (p : string) : M W bool :=
  lookup (EOsExists p) (fun w => os_exists host w p).

Definition path_isdir (p : string) : M W bool :=
  lookup (EOsIsdir p) (fun w => os_isdir host w p).

Definition listdir (p : string) : M W (list string) :=
  lookup_result (EOsListdir p) (fun w => os_listdir host w p).

Definition stat (p : string) : M W stat_result :=
  lookup_result (EOsStat p) (fun w => os_stat host w p).

Definition mkdir (p : string) : M W unit :=
  perform (EOsMkdir p) (os_mkdir host p).

(** [with open(p, 'wb') as f: f.write(content)] *)
Definition write_binary (p : string) (content : list byte) : M W unit :=
  perform (EOsWrite p) (os_write host p content).

(** [os.path.abspath(os.path.expanduser(p))] *)
Definition abspath_expanduser (p : string) : M W string :=
  ask (fun w => os_abspath host w (os_expanduser host w p)).

(** [os.makedirs(name, exist_ok=True)], after the standard library:
    the parents are created first, then [name]; an [OSError] of the
    last [mkdir] is dropped when [name] is a directory.  Each
    recursive call is on a strictly shorter path, so [fuel] above
    the length of [name] is never used up. *)
Fixpoint makedirs_fuel (fuel : nat) (name : string) : M W unit :=
  match fuel with
  | O => raise (OtherError "maximum recursion depth exceeded")
  | S fuel' =>
      let (head0, tail0) := posixpath.split name in
      let (head, tail) :=
        if Str.is_empty tail0 then posixpath.split head0 else (head0, tail0) in
      proceed <-
        (if negb (Str.is_empty head) && negb (Str.is_empty tail) then
           present <- path_exists head ;;
           if negb present then
             try_except (makedirs_fuel fuel' head)
               (fun e => if is_FileExistsError e then ret tt else raise e) ;;;
             ret (negb (String.eqb tail "."))
           else ret true
         else ret true) ;;
      if proceed : bool then
        try_except (mkdir name)
          (fun e =>
             if is_OSError e then
               isd <- path_isdir name ;;
               if negb isd then raise e else ret tt
             else raise e)
      else ret tt
  end.

Definition makedirs (name : string) : M W unit :=
  makedirs_fuel (S (String.length name)) name.

End WithHost.
End os.

(** ** [services/adb_service.py] *)

Module ADBService.

(** The body of the loop of [list_files] for one line of the listing:
    [Ok None] where the loop continues without an entry. *)
Definition entry_of_line (path line : string) : result (option file_info) :=
  if Str.is_empty line || Str.startswith line "total" then Ok None
  else
    let parts := Str.split line in
    if (List.length parts <? 8)%nat then Ok None
    else
      let permissions := nth 0 parts "" in
      let size := if Str.isdigit (nth 4 parts "") then nth 4 parts "" else "0" in
      let name := Str.join " " (skipn 7 parts) in
      if String.eqb name "." || String.eqb name ".." then Ok None
      else
        let is_directory := Str.startswith permissions "d" in
        match (if negb is_directory then Builtins.int size else Ok 0%Z) with
        | Raise e => Raise e
        | Ok size_value =>
            Ok (Some {| fi_name := name;
                        fi_path := posixpath.join path name;
                        fi_is_directory := is_directory;
                        fi_size := size_value;
                        fi_modified := None;
                        fi_permissions := Some permissions;
                        fi_type := if is_directory then "directory" else "file" |})
        end.

(** The loop over the lines, from [files = []] to the last [append]. *)
Fixpoint collect (path : string) (lines : list string) (files : list file_info)
  : result (list file_info) :=
  match lines with
  | [] => Ok files
  | line :: rest =>
      match entry_of_line path line with
      | Raise e => Raise e
      | Ok None => collect path rest files
      | Ok (Some fi) => collect path rest (files ++ [fi])
      end
  end.

(** What [list_files] makes of the text [output] of the listing command. *)
Definition parse_listing (path output : string) : result (list file_info) :=
  match collect path (Str.split_sep "010" (Str.strip output)) [] with
  | Raise e => Raise e
  | Ok files => Ok (sort_listing files)
  end.

Definition unknown_device (serial : string) : device_info :=
  {| di_serial := serial; di_model := "Unknown"; di_manufacturer := "Unknown";
     di_android_version := "Unknown"; di_state := "device" |}.

(** The shell commands of [list_files] and [file_exists]. *)
Definition ls_command (path : string) : string := "ls -la '" ++ path ++ "'".

Definition test_command (path : string) : string :=
  "test -e '" ++ path ++ "' && echo 'exists' || echo 'not_exists'".

Section WithHost.
Context {W Dev : Type} (host : Host W Dev).

Definition prop_model (d : Dev) : M W string :=
  lookup_result (EAdbProp (dev_serial host d) "ro.product.model")
    (dev_prop_model host d).

Definition prop_get (d : Dev) (key arg : string) : M W string :=
  lookup_result (EAdbProp (dev_serial host d) key) (dev_prop_get host d key arg).

Definition shell (d : Dev) (cmd : string) : M W string :=
  perform (EAdbShell (dev_serial host d) cmd) (dev_shell host d cmd).

Definition sync_pull (d : Dev) (remote local_ : string) : M W unit :=
  perform (EAdbPull (dev_serial host d) remote local_)
    (dev_sync_pull host d remote local_).

Definition sync_push (d : Dev) (local_ remote : string) : M W unit :=
  perform (EAdbPush (dev_serial host d) local_ remote)
    (dev_sync_push host d local_ remote).

(** The dictionary built in the inner [try] of [get_devices]. *)
Definition read_device_info (d : Dev) : M W device_info :=
  model <- prop_model d ;;
  manufacturer <- prop_get d "ro.product.manufacturer" "Unknown" ;;
  android_version <- prop_get d "ro.build.version.release" "Unknown" ;;
  ret {| di_serial := dev_serial host d;
         di_model := if Str.is_empty model then "Unknown" else model;
         di_manufacturer := manufacturer;
         di_android_version := android_version;
         di_state := "device" |}.

Definition get_devices : M W (list device_info) :=
  try_except
    (ds <- lookup_result EAdbDeviceList (adb_device_list host) ;;
     for_each ds
       (fun devices d =>
          try_except
            (info <- read_device_info d ;; ret (devices ++ [info]))
            (fun _ => ret (devices ++ [unknown_device (dev_serial host d)])))
       [])
    (fun _ => ret []).

Definition get_device (serial : string) : M W (option Dev) :=
  try_except
    (d <- lookup_result (EAdbDevice serial) (fun w => adb_device host w serial) ;;
     ret (Some d))
    (fun _ => ret None).

Definition device_not_found {A} (serial : string) : M W A :=
  raise (ValueError ("Device " ++ serial ++ " not found")).

Definition list_files (serial path : string) : M W (list file_info) :=
  device <- get_device serial ;;
  match device with
  | None => device_not_found serial
  | Some d =>
      try_except
        (output <- shell d (ls_command path) ;;
         match parse_listing path output with
         | Ok files => ret files
         | Raise e => raise e
         end)
        (fun e => raise e)
  end.

Definition pull_file (serial remote_path local_path : string) : M W bool :=
  device <- get_device serial ;;
  match device with
  | None => device_not_found serial
  | Some d =>
      try_except
        (os.makedirs host (posixpath.dirname local_path) ;;;
         sync_pull d remote_path local_path ;;;
         ret true)
        (fun e => raise e)
  end.

Definition push_file (serial local_path remote_path : string) : M W bool :=
  device <- get_device serial ;;
  match device with
  | None => device_not_found serial
  | Some d =>
      try_except
        (sync_push d local_path remote_path ;;; ret true)
        (fun e => raise e)
  end.

Definition file_exists (serial path : string) : M W bool :=
  device <- get_device serial ;;
  match device with
  | None => ret false
  | Some d =>
      try_except
        (result <- shell d (test_command path) ;;
         ret (Str.contains "exists" (Str.strip result)))
        (fun _ => ret false)
  end.

End WithHost.
End ADBService.

(** ** [services/file_service.py] *)

Module FileService.

(** The instance: [self.home_dir = str(Path.home())]. *)
Record Self := { home_dir : string }.

Definition path_not_found (path : string) : exn :=
  ValueError ("Path does not exist: " ++ path).

Section WithHost.
Context {W Dev : Type} (host : Host W Dev) (self : Self).

Definition validate_path (path : string) : M W string :=
  lookup (EValidate path) (fun _ => tt) ;;;
  if Str.is_empty path || String.eqb path "/" then ret (home_dir self)
  else
    abs_path <- os.abspath_expanduser host path ;;
    present <- os.path_exists host abs_path ;;
    if negb present then raise (path_not_found path)
    else ret abs_path.

(** The body of the loop of [list_files] for one directory item. *)
Definition list_item (validated_path : string) (files : list file_info)
  (item : string) : M W (list file_info) :=
  let item_path := posixpath.join validated_path item in
  if Str.startswith item "." then ret files
  else
    try_except
      (stat_info <- os.stat host item_path ;;
       is_directory <- os.path_isdir host item_path ;;
       ret (files ++
            [{| fi_name := item;
                fi_path := item_path;
                fi_is_directory := is_directory;
                fi_size := if negb is_directory then st_size stat_info else 0%Z;
                fi_modified := Some (st_mtime stat_info);
                fi_permissions := None;
                fi_type := if is_directory then "directory" else "file" |}]))
      (fun e => if is_OSError e then ret files else raise e).

Definition list_files (path : option string) : M W (list file_info) :=
  let path := match path with None => home_dir self | Some p => p end in
  try_except
    (validated_path <- validate_path path ;;
     items <- os.listdir host validated_path ;;
     files <- for_each items (list_item validated_path) [] ;;
     ret (sort_listing files))
    (fun e => raise e).

Definition write_file (path : string) (content : list byte) : M W bool :=
  try_except
    (os.makedirs host (posixpath.dirname path) ;;;
     os.write_binary host path content ;;;
     ret true)
    (fun e => raise e).

Definition get_parent_directory (path : string) : M W string :=
  validated_path <- validate_path path ;;
  let parent := posixpath.dirname validated_path in
  ret (if negb (String.eqb parent validated_path) then parent else validated_path).

Definition get_file_info (path : string) : M W file_info :=
  try_except
    (validated_path <- validate_path path ;;
     stat_info <- os.stat host validated_path ;;
     is_directory <- os.path_isdir host validated_path ;;
     ret {| fi_name := posixpath.basename validated_path;
            fi_path := validated_path;
            fi_is_directory := is_directory;
            fi_size := if negb is_directory then st_size stat_info else 0%Z;
            fi_modified := Some (st_mtime stat_info);
            fi_permissions := None;
            fi_type := if is_directory then "directory" else "file" |})
    (fun e => raise e).

End WithHost.
End FileService.

(** ** [api/files.py]: the two transfer endpoints *)

Module Api.

Definition missing_device_serial : exn :=
  HTTPException 400 "Device serial is required".

Definition source_not_found (source : string) : exn :=
  HTTPException 404 ("Source file not found: " ++ source).

Definition source_not_found_on_device (source : string) : exn :=
  HTTPException 404 ("Source file not found on device: " ++ source).

Definition directory_not_supported : exn :=
  HTTPException 400 "Directory transfer not supported yet".

Definition transferred (destination : string) : pydict :=
  [("success", PBool true);
   ("message", PStr ("File transferred successfully to " ++ destination))].

Definition serial_of (request : TransferRequest) : string :=
  match device_serial request with Some s => s | None => "" end.

Section WithHost.
Context {W Dev : Type} (host : Host W Dev).

(** [except HTTPException: raise] then [except Exception as e: ...500...] *)
Definition transfer_errors {A} (e : exn) : M W A :=
  if is_HTTPException e then raise e
  else raise (HTTPException 500 ("Error transferring file: " ++ exn_str e)).

Definition transfer_mac_to_android (request : TransferRequest) : M W pydict :=
  try_except
    (if falsy (device_serial request) then raise missing_device_serial
     else
       present <- os.path_exists host (source_path request) ;;
       if negb present then raise (source_not_found (source_path request))
       else
         isd <- os.path_isdir host (source_path request) ;;
         if isd then raise directory_not_supported
         else
           ADBService.push_file host (serial_of request)
             (source_path request) (destination_path request) ;;;
           ret (transferred (destination_path request)))
    transfer_errors.

Definition transfer_android_to_mac (request : TransferRequest) : M W pydict :=
  try_except
    (if falsy (device_serial request) then raise missing_device_serial
     else
       present <- ADBService.file_exists host (serial_of request)
                    (source_path request) ;;
       if negb present
       then raise (source_not_found_on_device (source_path request))
       else
         ADBService.pull_file host (serial_of request)
           (source_path request) (destination_path request) ;;;
         ret (transferred (destination_path request)))
    transfer_errors.

End WithHost.
(** The dictionary returned by the two listing endpoints. *)
Record listing_response := {
  current_path : string;
  parent_path : string;
  files : list file_info
}.

Definition is_ValueError (e : exn) : bool :=
  match e with ValueError _ => true | _ => false end.

Definition uploaded (file_path : string) : pydict :=
  [("success", PBool true);
   ("message", PStr "File uploaded successfully");
   ("path", PStr file_path)].

Definition destination_not_directory : exn :=
  HTTPException 400 "Destination must be a directory".

(** [s] as a condition, for an optional string: [None] and [''] are falsy. *)
Definition truthy (s : option string) : bool := negb (falsy s).

Section Browsing.
Context {W Dev : Type} (host : Host W Dev) (self : FileService.Self).

(** [str(e)] for an [HTTPException] is the business of the web
    framework: it is the parameter [http_str]. *)
Variable http_str : Z -> string -> string.

Definition str (e : exn) : string :=
  match e with
  | HTTPException c d => http_str c d
  | _ => exn_str e
  end.

(** [except ValueError as e: ...status...] then
    [except Exception as e: ...500...] *)
Definition browse_errors {A} (status : Z) (prefix : string) (e : exn) : M W A :=
  if is_ValueError e then raise (HTTPException status (str e))
  else raise (HTTPException 500 (prefix ++ str e)).

Definition list_mac_files (path : option string) : M W listing_response :=
  try_except
    (files <- FileService.list_files host self path ;;
     current_path <-
       (if truthy path
        then FileService.validate_path host self
               (match path with Some p => p | None => "" end)
        else ret (FileService.home_dir self)) ;;
     parent_path <- FileService.get_parent_directory host self current_path ;;
     ret {| current_path := current_path;
            parent_path := parent_path;
            files := files |})
    (browse_errors 400 "Error listing Mac files: ").

Definition list_android_files (serial path : string) : M W listing_response :=
  try_except
    (files <- ADBService.list_files host serial path ;;
     let parent_path :=
       if negb (String.eqb path "/") then posixpath.dirname path else "/" in
     ret {| current_path := path;
            parent_path := parent_path;
            files := files |})
    (browse_errors 404 "Error listing Android files: ").

(** [upload_to_mac]: [filename] is [file.filename] and [content] what
    [await file.read()] returned. *)
Definition upload_to_mac (filename : string) (content : list byte)
    (destination_path : string) : M W pydict :=
  try_except
    (validated_path <- FileService.validate_path host self destination_path ;;
     isd <- os.path_isdir host validated_path ;;
     if negb isd then raise destination_not_directory
     else
       let file_path := posixpath.join validated_path filename in
       FileService.write_file host file_path content ;;;
       ret (uploaded file_path))
    (browse_errors 400 "Error uploading file: ").

End Browsing.
End Api.

(** ** [api/devices.py] *)

Module DevicesApi.

Definition device_not_found (serial : string) : exn :=
  HTTPException 404 ("Device " ++ serial ++ " not found").

Section WithHost.
Context {W Dev : Type} (host : Host W Dev).
Variable http_str : Z -> string -> string.

Definition list_devices : M W (list device_info) :=
  try_except
    (devices <- ADBService.get_devices host ;; ret devices)
    (fun e => raise (HTTPException 500
                       ("Error listing devices: " ++ Api.str http_str e))).

(** [next((d for d in devices if d['serial'] == serial), None)] *)
Definition first_with_serial (serial : string) (devices : list device_info)
  : option device_info :=
  List.find (fun d => String.eqb (di_serial d) serial) devices.

Definition get_device_info (serial : string) : M W device_info :=
  try_except
    (devices <- ADBService.get_devices host ;;
     match first_with_serial serial devices with
     | None => raise (device_not_found serial)
     | Some device => ret device
     end)
    (fun e =>
       if is_HTTPException e then raise e
       else raise (HTTPException 500
                     ("Error getting device info: " ++ Api.str http_str e))).

End WithHost.
End DevicesApi.

(** ** [main.py]: the connection manager *)

Module ConnectionManager.

(** A [WebSocket] object, known by its identity. *)
Definition WebSocket := nat.

(** [self.active_connections] *)
Definition Self := list WebSocket.

(** [connect]: [accepted] is the outcome of [await websocket.accept()]. *)
Definition connect (accepted : result unit) (websocket : WebSocket)
    (self : Self) : result Self :=
  match accepted with
  | Raise e => Raise e
  | Ok _ => Ok (self ++ [websocket])
  end.

(** [list.remove(x)]: the first occurrence goes; [None] when there is none. *)
Fixpoint list_remove (x : WebSocket) (l : list WebSocket) : option (list WebSocket) :=
  match l with
  | [] => None
  | y :: r =>
      if Nat.eqb y x then Some r
      else match list_remove x r with
           | Some r' => Some (y :: r')
           | None => None
           end
  end.

Definition disconnect (websocket : WebSocket) (self : Self) : result Self :=
  match list_remove websocket self with
  | Some l => Ok l
  | None => Raise (ValueError "list.remove(x): x not in list")
  end.

End ConnectionManager.

(** ** A small concrete host

    A disk keyed by absolute path, with regular files, directories and
    dangling symbolic links, and devices with a set of remote files.  It
    is the host at which the general statements below are instantiated
    and evaluated. *)

Module Toy.

Inductive node :=
| File (content : list byte) (mtime : Z)
| Dir (mtime : Z)
| Dangling.

Record device := {
  serial : string;
  (* model, manufacturer, release; [None]: reading a property fails *)
  props : option (string * string * string);
  files : list (string * list byte);
  ls_output : string
}.

Record world := {
  disk : list (string * node);
  home : string;
  cwd : string;
  (* [None]: the bridge cannot be reached *)
  devices : option (list device)
}.

Fixpoint find {A} (k : string) (l : list (string * A)) : option A :=
  match l with
  | [] => None
  | (k', v) :: r => if String.eqb k k' then Some v else find k r
  end.

Fixpoint set {A} (k : string) (v : A) (l : list (string * A)) : list (string * A) :=
  match l with
  | [] => [(k, v)]
  | (k', v') :: r => if String.eqb k k' then (k, v) :: r else (k', v') :: set k v r
  end.

(** The empty path names nothing; a relative path is taken from [cwd]. *)
Definition resolve (w : world) (p : string) : option string :=
  if Str.is_empty p then None
  else if Str.startswith p "/" then Some p
  else Some (posixpath.join (cwd w) p).

Definition node_at (w : world) (p : string) : option node :=
  match resolve w p with
  | None => None
  | Some q => find q (disk w)
  end.

Definition no_entry {A} : result A :=
  Raise (OSError ENOENT "[Errno 2] No such file or directory").

Definition expanduser (w : world) (p : string) : string :=
  if String.eqb p "~" then home w
  else if Str.startswith p "~/" then (home w ++ String.substring 1 (String.length p - 1) p)%string
  else p.

Definition abspath (w : world) (p : string) : string :=
  if Str.startswith p "/" then p
  else if Str.is_empty p then cwd w
  else posixpath.join (cwd w) p.

Definition path_exists (w : world) (p : string) : bool :=
  match node_at w p with
  | Some (File _ _) | Some (Dir _) => true
  | _ => false
  end.

Definition isdir (w : world) (p : string) : bool :=
  match node_at w p with
  | Some (Dir _) => true
  | _ => false
  end.

Definition child_of (q : string) (entry : string * node) : option string :=
  let (head, tail) := posixpath.split (fst entry) in
  if String.eqb head q && negb (Str.is_empty tail) then Some tail else None.

Fixpoint children (q : string) (l : list (string * node)) : list string :=
  match l with
  | [] => []
  | e :: r => match child_of q e with
              | Some n => n :: children q r
              | None => children q r
              end
  end.

Definition listdir (w : world) (p : string) : result (list string) :=
  match resolve w p with
  | None => no_entry
  | Some q =>
      match find q (disk w) with
      | Some (Dir _) => Ok (children q (disk w))
      | Some (File _ _) => Raise (OSError ENOTDIR "[Errno 20] Not a directory")
      | _ => no_entry
      end
  end.

Definition stat (w : world) (p : string) : result stat_result :=
  match node_at w p with
  | Some (File c m) => Ok {| st_size := Z.of_nat (List.length c); st_mtime := m |}
  | Some (Dir m) => Ok {| st_size := 4096; st_mtime := m |}
  | _ => no_entry
  end.

Definition parent_is_dir (w : world) (q : string) : bool :=
  match find (posixpath.dirname q) (disk w) with
  | Some (Dir _) => true
  | _ => false
  end.

Definition with_disk (w : world) (d : list (string * node)) : world :=
  {| disk := d; home := home w; cwd := cwd w; devices := devices w |}.

Definition mkdir (p : string) (w : world) : result unit * world :=
  match resolve w p with
  | None => (no_entry, w)
  | Some q =>
      match find q (disk w) with
      | Some _ => (Raise (OSError EEXIST "[Errno 17] File exists"), w)
      | None =>
          if parent_is_dir w q then (Ok tt, with_disk w (disk w ++ [(q, Dir 0)]))
          else (no_entry, w)
      end
  end.

Definition write (p : string) (content : list byte) (w : world)
  : result unit * world :=
  match resolve w p with
  | None => (no_entry, w)
  | Some q =>
      match find q (disk w) with
      | Some (Dir _) => (Raise (OSError EISDIR "[Errno 21] Is a directory"), w)
      | _ =>
          if parent_is_dir w q
          then (Ok tt, with_disk w (set q (File content 0) (disk w)))
          else (no_entry, w)
      end
  end.

Definition unreachable {A} : result A :=
  Raise (AdbError "adb server is not reachable").

Fixpoint find_device (s : string) (ds : list device) : option device :=
  match ds with
  | [] => None
  | d :: r => if String.eqb s (serial d) then Some d else find_device s r
  end.

Definition the_device (w : world) (s : string) : result device :=
  match devices w with
  | None => unreachable
  | Some ds =>
      match find_device s ds with
      | Some d => Ok d
      | None => Raise (AdbError ("device '" ++ s ++ "' not found"))
      end
  end.

Definition device_list (w : world) : result (list string) :=
  match devices w with
  | None => unreachable
  | Some ds => Ok (map serial ds)
  end.

Definition device_handle (w : world) (s : string) : result string :=
  match the_device w s with
  | Ok _ => Ok s
  | Raise e => Raise e
  end.

Definition prop_failure {A} : result A :=
  Raise (AdbError "getprop failed").

Definition prop_model (s : string) (w : world) : result string :=
  match the_device w s with
  | Raise e => Raise e
  | Ok d => match props d with
            | Some (m, _, _) => Ok m
            | None => prop_failure
            end
  end.

Definition prop_get (s key arg : string) (w : world) : result string :=
  match the_device w s with
  | Raise e => Raise e
  | Ok d => match props d with
            | Some (_, manufacturer, release) =>
                if String.eqb key "ro.product.manufacturer" then Ok manufacturer
                else if String.eqb key "ro.build.version.release" then Ok release
                else Ok ""
            | None => prop_failure
            end
  end.

Definition nl : string := Str.nl.

Fixpoint until_quote (s : string) : string :=
  match s with
  | EmptyString => EmptyString
  | String c r => if Ascii.eqb c "'" then EmptyString else String c (until_quote r)
  end.

Fixpoint after_quote (s : string) : string :=
  match s with
  | EmptyString => EmptyString
  | String c r => if Ascii.eqb c "'" then r else after_quote r
  end.

(** The first single-quoted word of a command. *)
Definition quoted (cmd : string) : string := until_quote (after_quote cmd).

(** The device shell, for the two commands the program sends:
    [test -e 'p' && echo 'exists' || echo 'not_exists'] prints one of
    the two words, [ls -la 'p'] prints the listing. *)
Definition shell (s cmd : string) (w : world) : result string * world :=
  match the_device w s with
  | Raise e => (Raise e, w)
  | Ok d =>
      if Str.startswith cmd "test -e '" then
        match find (quoted cmd) (files d) with
        | Some _ => (Ok ("exists" ++ nl)%string, w)
        | None => (Ok ("not_exists" ++ nl)%string, w)
        end
      else if Str.startswith cmd "ls -la '" then (Ok (ls_output d), w)
      else (Ok "", w)
  end.

Definition sync_pull (s remote local_ : string) (w : world) : result unit * world :=
  match the_device w s with
  | Raise e => (Raise e, w)
  | Ok d =>
      match find remote (files d) with
      | Some content => write local_ content w
      | None => (Raise (AdbError "remote object does not exist"), w)
      end
  end.

Definition store (s remote : string) (content : list byte) (d : device) : device :=
  if String.eqb s (serial d)
  then {| serial := serial d; props := props d;
          files := set remote content (files d); ls_output := ls_output d |}
  else d.

Definition sync_push (s local_ remote : string) (w : world) : result unit * world :=
  match the_device w s with
  | Raise e => (Raise e, w)
  | Ok _ =>
      match node_at w local_ with
      | Some (File content _) =>
          (Ok tt,
           {| disk := disk w; home := home w; cwd := cwd w;
              devices := option_map (map (store s remote content)) (devices w) |})
      | _ => (no_entry, w)
      end
  end.

Definition host : Host world string := {|
  os_expanduser := expanduser;
  os_abspath := abspath;
  os_exists := path_exists;
  os_isdir := isdir;
  os_listdir := listdir;
  os_stat := stat;
  os_mkdir := mkdir;
  os_write := write;
  adb_device_list := device_list;
  adb_device := device_handle;
  dev_serial := fun s => s;
  dev_prop_model := prop_model;
  dev_prop_get := prop_get;
  dev_shell := shell;
  dev_sync_pull := sync_pull;
  dev_sync_push := sync_push
|}.

Definition self : FileService.Self := {| FileService.home_dir := "/home/u" |}.

Definition pixel : device := {|
  serial := "S1";
  props := Some ("Pixel 8", "Google", "14");
  files := [("/sdcard/a.txt", ["h"%byte; "i"%byte])];
  ls_output := (
    "total 48" ++ nl ++
    "drwxrwx--x 5 root sdcard_rw 4096 2024-01-01 00:00 ." ++ nl ++
    "drwx--x--x 4 root sdcard_rw 4096 2024-01-01 00:00 .." ++ nl ++
    "-rw-rw---- 1 root sdcard_rw 2 2024-03-05 10:12 a.txt" ++ nl ++
    "drwxrwx--x 2 root sdcard_rw 4096 2024-02-02 08:30 Pictures" ++ nl ++
    "drwxrwx--x 2 root sdcard_rw 4096 2024-02-02 08:30 DCIM" ++ nl)%string
|}.

Definition locked : device := {|
  serial := "S2"; props := None; files := []; ls_output := ""
|}.

Definition w0 : world := {|
  disk := [("/", Dir 0); ("/home", Dir 0); ("/home/u", Dir 1);
           ("/home/u/notes.txt", File ["n"%byte] 7);
           ("/home/u/Music", Dir 5);
           ("/home/u/.profile", File [] 2);
           ("/home/u/stale", Dangling);
           ("/home/u/apps", Dir 3);
           ("/home/u/Budget.xls", File ["1"%byte; "2"%byte; "3"%byte] 9)];
  home := "/home/u";
  cwd := "/home/u";
  devices := Some [pixel; locked]
|}.

(** The same machine with the bridge down. *)
Definition w_down : world :=
  {| disk := disk w0; home := home w0; cwd := cwd w0; devices := None |}.

End Toy.

(** * Vocabulary of the properties *)

(** [x] may stand before [y] in a list sorted by [key]: the key of [y]
    is not below that of [x]. *)
Definition not_after {A K} (key : A -> K) (lt : K -> K -> bool) (x y : A) : Prop :=
  lt (key y) (key x) = false.

(** [a] may stand before [b] in a listing: a directory before a file,
    or two entries of the same kind with the lower-cased name of [a] at
    most that of [b]. *)
Definition precedes (a b : file_info) : Prop :=
  (fi_is_directory a = true /\ fi_is_directory b = false)
  \/ (fi_is_directory a = fi_is_directory b
      /\ Str.leb (Str.lower (fi_name a)) (Str.lower (fi_name b)) = true).

(** Some field of the dictionary holds exactly the text [v]. *)
Definition has_field_holding (d : pydict) (v : string) : Prop :=
  exists k, In (k, PStr v) d.

(** A path without a directory component. *)
Definition bare (name : string) : bool :=
  Str.all_chars (fun c => negb (posixpath.is_sep c)) name.

(** Reading one of the three properties of [d] raises. *)
Definition props_fail {W Dev} (host : Host W Dev) (w : W) (d : Dev) : Prop :=
  (exists e, dev_prop_model host d w = Raise e)
  \/ (exists e, dev_prop_get host d "ro.product.manufacturer" "Unknown" w = Raise e)
  \/ (exists e, dev_prop_get host d "ro.build.version.release" "Unknown" w = Raise e).

(** The entry of [d] in the result of [get_devices]. *)
Definition describes {W Dev} (host : Host W Dev) (w : W) (d : Dev)
    (info : device_info) : Prop :=
  di_serial info = dev_serial host d
  /\ (props_fail host w d ->
      info = {| di_serial := dev_serial host d;
                di_model := "Unknown";
                di_manufacturer := "Unknown";
                di_android_version := "Unknown";
                di_state := "device" |})
  /\ (forall m f r,
        dev_prop_model host d w = Ok m ->
        dev_prop_get host d "ro.product.manufacturer" "Unknown" w = Ok f ->
        dev_prop_get host d "ro.build.version.release" "Unknown" w = Ok r ->
        info = {| di_serial := dev_serial host d;
                  di_model := if Str.is_empty m then "Unknown" else m;
                  di_manufacturer := f;
                  di_android_version := r;
                  di_state := "device" |}).




Definition stat_ok {W Dev} (host : Host W Dev) (w : W) (p : string) : bool :=
  match os_stat host w p with Ok _ => true | Raise _ => false end.

(** The children of [dir] that a local listing shows: not hidden, and
    [os.stat] succeeds on them. *)
Definition visible {W Dev} (host : Host W Dev) (w : W) (dir item : string) : bool :=
  negb (Str.startswith item ".") && stat_ok host w (posixpath.join dir item).

Definition hidden (item : string) : bool := Str.startswith item ".".

Definition local_entry {W Dev} (host : Host W Dev) (w : W) (dir item : string)
  : file_info :=
  let item_path := posixpath.join dir item in
  let is_directory := os_isdir host w item_path in
  let stat_info := match os_stat host w item_path with
                   | Ok s => s
                   | Raise _ => {| st_size := 0; st_mtime := 0 |}
                   end in
  {| fi_name := item;
     fi_path := item_path;
     fi_is_directory := is_directory;
     fi_size := if negb is_directory then st_size stat_info else 0%Z;
     fi_modified := Some (st_mtime stat_info);
     fi_permissions := None;
     fi_type := if is_directory then "directory" else "file" |}.

(** [os.stat] fails with an [OSError] or not at all. *)
Definition stat_raises_OSError {W Dev} (host : Host W Dev) (w : W)
    (dir : string) (items : list string) : Prop :=
  forall item e,
    In item items -> os_stat host w (posixpath.join dir item) = Raise e ->
    is_OSError e = true.

Definition remote_entry (path name permissions : string) (is_directory : bool)
    (size : Z) : file_info :=
  {| fi_name := name;
     fi_path := posixpath.join path name;
     fi_is_directory := is_directory;
     fi_size := size;
     fi_modified := None;
     fi_permissions := Some permissions;
     fi_type := if is_directory then "directory" else "file" |}.

Definition not_dot (x : file_info) : Prop :=
  fi_name x <> "." /\ fi_name x <> "..".

(** Every call of the computation is of the kind [P]. *)
Definition emits (P : event -> bool) {W A} (m : M W A) : Prop :=
  forall w, Forall (fun ev => P ev = true) (trace (m w)).

(** Calls to the local disk made by [os.makedirs]. *)
Definition is_makedirs_call (ev : event) : bool :=
  match ev with
  | EOsExists _ | EOsMkdir _ | EOsIsdir _ => true
  | _ => false
  end.

(** Calls that create or write something on the local disk. *)
Definition is_write (ev : event) : bool :=
  match ev with
  | EOsMkdir _ | EOsWrite _ | EAdbPull _ _ _ => true
  | _ => false
  end.

(** Calls to the device bridge. *)
Definition is_adb (ev : event) : bool :=
  match ev with
  | EAdbDeviceList | EAdbDevice _ | EAdbProp _ _ | EAdbShell _ _
  | EAdbPull _ _ _ | EAdbPush _ _ _ => true
  | _ => false
  end.

(** [q] is an initial segment of [p]. *)
Definition is_prefix (q p : string) : Prop := exists rest, p = (q ++ rest)%string.

(** A directory path as [validate_path] returns them: not empty, and
    without a trailing separator unless it consists of separators only. *)
Definition tidy_dir (dir : string) : bool :=
  negb (Str.is_empty dir)
  && (Str.all_chars posixpath.is_sep dir || negb (Str.endswith_char dir "/")).

(** A name as [os.listdir] returns them: not empty, no separator. *)
Definition plain_name (item : string) : bool :=
  negb (Str.is_empty item) && bare item.

(** All characters are ASCII. *)
Definition ascii_only (s : string) : bool :=
  Str.all_chars (fun c => (N_of_ascii c <? 128)%N) s.

(** The parent and the last component that [os.makedirs] works out for
    [name]: [os.path.split], applied once more when [name] ends with a
    separator. *)
Definition makedirs_split (name : string) : string * string :=
  let (head0, tail0) := posixpath.split name in
  if Str.is_empty tail0 then posixpath.split head0 else (head0, tail0).

(** The lines [list_files] goes through: [output.strip().split('\n')]. *)
Definition listing_lines (output : string) : list string :=
  Str.split_sep "010" (Str.strip output).

(** The fifth field of the line, where the size stands, has no more
    characters than [int] converts. *)
Definition size_field_short (line : string) : bool :=
  (N.of_nat (String.length (nth 4 (Str.split line) ""))
   <=? Builtins.int_max_str_digits)%N.



(** * Properties *)

(** ** The order on strings and on sort keys *)

Lemma string_compare_OT (s1 s2 : string) :
  String.compare s1 s2 = String_as_OT.compare s1 s2.
Proof.
  revert s2. induction s1 as [|c1 r1 IH]; intros [|c2 r2]; simpl; reflexivity.
Qed.

Lemma str_ltb_irrefl (s : string) : Str.ltb s s = false.
Proof.
  unfold Str.ltb, String.ltb.
  destruct (String.compare s s) eqn:E; try reflexivity.
  exfalso. rewrite string_compare_OT in E.
  exact (StrictOrder_Irreflexive (R := String_as_OT.lt) s E).
Qed.

Lemma str_ltb_trans (a b c : string) :
  Str.ltb a b = true -> Str.ltb b c = true -> Str.ltb a c = true.
Proof.
  unfold Str.ltb, String.ltb.
  destruct (String.compare a b) eqn:E1; intros H1; try discriminate H1.
  destruct (String.compare b c) eqn:E2; intros H2; try discriminate H2.
  rewrite string_compare_OT in E1, E2.
  pose proof (StrictOrder_Transitive (R := String_as_OT.lt) a b c E1 E2) as H.
  unfold String_as_OT.lt in H. rewrite <- string_compare_OT in H. now rewrite H.
Qed.

Lemma str_ltb_total (a b : string) :
  Str.ltb a b = true \/ a = b \/ Str.ltb b a = true.
Proof.
  unfold Str.ltb, String.ltb.
  rewrite (String.compare_antisym b a).
  destruct (String.compare a b) eqn:E; simpl; auto.
  right; left. now apply String.compare_eq_iff.
Qed.

Lemma str_leb_not_ltb (a b : string) : Str.leb a b = negb (Str.ltb b a).
Proof.
  unfold Str.leb, Str.ltb, String.leb, String.ltb.
  rewrite (String.compare_antisym b a).
  destruct (String.compare a b); reflexivity.
Qed.

Lemma tuple_lt_asym (k1 k2 : bool * string) :
  Builtins.tuple_lt k1 k2 = true -> Builtins.tuple_lt k2 k1 = false.
Proof.
  destruct k1 as [b1 s1], k2 as [b2 s2]; unfold Builtins.tuple_lt.
  destruct b1, b2; simpl; try discriminate; try reflexivity;
    intros H; destruct (Str.ltb s2 s1) eqn:E; try reflexivity;
    pose proof (str_ltb_trans _ _ _ H E) as T;
    rewrite str_ltb_irrefl in T; discriminate.
Qed.

(** If [k3 < k1] then any [k2] is above [k3] or below [k1]. *)
Lemma tuple_lt_negtrans (k1 k2 k3 : bool * string) :
  Builtins.tuple_lt k2 k1 = false -> Builtins.tuple_lt k3 k2 = false ->
  Builtins.tuple_lt k3 k1 = false.
Proof.
  destruct k1 as [b1 s1], k2 as [b2 s2], k3 as [b3 s3]; unfold Builtins.tuple_lt.
  destruct b1, b2, b3; simpl; try discriminate; try reflexivity;
    intros H21 H32; destruct (Str.ltb s3 s1) eqn:E; try reflexivity;
    destruct (str_ltb_total s2 s3) as [L | [-> | L]]; try congruence;
    pose proof (str_ltb_trans _ _ _ L E); congruence.
Qed.

(** ** [sorted] sorts, permutes and is stable under the key order *)

Section SortedFacts.
Context {A K : Type} (key : A -> K) (lt : K -> K -> bool).
Hypothesis lt_asym : forall k1 k2, lt k1 k2 = true -> lt k2 k1 = false.
Hypothesis lt_negtrans :
  forall k1 k2 k3, lt k2 k1 = false -> lt k3 k2 = false -> lt k3 k1 = false.

Lemma insert_perm (x : A) (l : list A) :
  Permutation (Builtins.insert key lt x l) (x :: l).
Proof.
  induction l as [|y r IH]; simpl; auto.
  destruct (lt (key y) (key x)); auto.
  rewrite IH. apply perm_swap.
Qed.

Lemma sorted_perm (l : list A) : Permutation (Builtins.sorted key lt l) l.
Proof.
  induction l as [|x r IH]; simpl; auto.
  rewrite insert_perm. now constructor.
Qed.

Lemma insert_sorted (x : A) (l : list A) :
  StronglySorted (not_after key lt) l ->
  StronglySorted (not_after key lt) (Builtins.insert key lt x l).
Proof.
  induction 1 as [|y r Hs IH Hall]; simpl.
  - repeat constructor.
  - destruct (lt (key y) (key x)) eqn:E.
    + constructor; auto.
      eapply Permutation_Forall; [symmetry; apply insert_perm|].
      constructor; auto. unfold not_after. now apply lt_asym.
    + constructor.
      * constructor; auto.
      * constructor; [exact E|].
        eapply Forall_impl; [|exact Hall].
        intros z Hz. unfold not_after in *. eapply lt_negtrans; eauto.
Qed.

Lemma sorted_sorted (l : list A) :
  StronglySorted (not_after key lt) (Builtins.sorted key lt l).
Proof.
  induction l; simpl; [constructor | now apply insert_sorted].
Qed.
End SortedFacts.

Lemma not_after_precedes (a b : file_info) :
  not_after listing_key Builtins.tuple_lt a b -> precedes a b.
Proof.
  unfold not_after, precedes, listing_key, Builtins.tuple_lt.
  rewrite str_leb_not_ltb.
  destruct (fi_is_directory a), (fi_is_directory b); simpl; intros H;
    try discriminate; auto; right; split; auto; now rewrite H.
Qed.

Lemma sort_listing_perm (l : list file_info) : Permutation (sort_listing l) l.
Proof. apply sorted_perm. Qed.

Lemma StronglySorted_impl {A} (R S : A -> A -> Prop) (l : list A) :
  (forall a b, R a b -> S a b) -> StronglySorted R l -> StronglySorted S l.
Proof.
  intros HRS; induction 1 as [|a l Hs IH Hall]; constructor; auto.
  eapply Forall_impl; [|exact Hall]. auto.
Qed.

Lemma sort_listing_sorted (l : list file_info) :
  StronglySorted precedes (sort_listing l).
Proof.
  eapply StronglySorted_impl; [exact not_after_precedes|].
  apply sorted_sorted; [exact tuple_lt_asym | exact tuple_lt_negtrans].
Qed.

(** ** Running computations *)

Section Running.
Context {W : Type}.

Lemma bind_Ok {A B} (m : M W A) (k : A -> M W B) (w : W) (b : B) :
  res (bind m k w) = Ok b ->
  exists a, res (m w) = Ok a /\ res (k a (final (m w))) = Ok b.
Proof.
  unfold bind. destruct (res (m w)) as [a|e] eqn:E; simpl; intros H.
  - exists a. split; [reflexivity | exact H].
  - discriminate.
Qed.

Lemma bind_run_Ok {A B} (m : M W A) (k : A -> M W B) (w : W) (a : A) :
  res (m w) = Ok a ->
  bind m k w =
  Outcome (res (k a (final (m w)))) (final (k a (final (m w))))
          (trace (m w) ++ trace (k a (final (m w)))).
Proof. unfold bind. intros ->. reflexivity. Qed.

Lemma bind_run_Raise {A B} (m : M W A) (k : A -> M W B) (w : W) (e : exn) :
  res (m w) = Raise e ->
  bind m k w = Outcome (Raise e) (final (m w)) (trace (m w)).
Proof. unfold bind. intros ->. reflexivity. Qed.

(** A handler that only raises lets no failure through as a success. *)
Lemma try_except_Ok {A} (m : M W A) (h : exn -> M W A) (w : W) (a : A) :
  (forall e w', res (h e w') <> Ok a) ->
  res (try_except m h w) = Ok a -> res (m w) = Ok a.
Proof.
  unfold try_except. destruct (res (m w)) as [a'|e] eqn:E; simpl; intros Hh H.
  - now rewrite <- E.
  - exfalso. exact (Hh _ _ H).
Qed.

Lemma try_except_reraise {A} (m : M W A) (w : W) :
  try_except m (fun e => raise e) w
  = Outcome (res (m w)) (final (m w)) (trace (m w)).
Proof.
  unfold try_except, raise. destruct (res (m w)) eqn:E; simpl.
  - destruct (m w); simpl in *; now subst.
  - now rewrite app_nil_r.
Qed.

Lemma bind_lookup_result {A B} (ev : event) (f : W -> result A)
    (k : A -> M W B) (w : W) :
  bind (lookup_result ev f) k w
  = match f w with
    | Ok a => Outcome (res (k a w)) (final (k a w)) (ev :: trace (k a w))
    | Raise e => Outcome (Raise e) w [ev]
    end.
Proof. unfold bind, lookup_result. cbn. destruct (f w); reflexivity. Qed.

Lemma bind_lookup {A B} (ev : event) (f : W -> A) (k : A -> M W B) (w : W) :
  bind (lookup ev f) k w
  = Outcome (res (k (f w) w)) (final (k (f w) w)) (ev :: trace (k (f w) w)).
Proof. reflexivity. Qed.

Lemma bind_ext_l {A B} (m1 m2 : M W A) (k : A -> M W B) (w : W) :
  m1 w = m2 w -> bind m1 k w = bind m2 k w.
Proof. unfold bind. now intros ->. Qed.

Lemma try_except_ext_l {A} (m1 m2 : M W A) (h : exn -> M W A) (w : W) :
  m1 w = m2 w -> try_except m1 h w = try_except m2 h w.
Proof. unfold try_except. now intros ->. Qed.

Lemma bind_lookup_ext {A B} (ev : event) (f : W -> A) (k1 k2 : A -> M W B)
    (w : W) :
  (forall a, k1 a w = k2 a w) ->
  bind (lookup ev f) k1 w = bind (lookup ev f) k2 w.
Proof. intros H. rewrite !bind_lookup. now rewrite H. Qed.

Lemma outcome_eta {A} (o : outcome W A) :
  Outcome (res o) (final o) (trace o) = o.
Proof. now destruct o. Qed.
End Running.

Ltac run_step :=
  unfold try_except, bind, ret, raise, lookup, lookup_result, perform, ask; simpl.

(** ** Transfers: the serial number comes first *)

(** C8.  A transfer request whose device serial is absent or empty
    fails with "Device serial is required" (status 400) in both
    directions, and the endpoint has made no call to the disk or to the
    device bridge at that point: its trace is empty and the world is
    untouched. *)
Theorem transfer_requires_device_serial
    {W Dev : Type} (host : Host W Dev) (request : TransferRequest) (w : W) :
  falsy (device_serial request) = true ->
  Api.transfer_mac_to_android host request w
    = Outcome (Raise Api.missing_device_serial) w []
  /\ Api.transfer_android_to_mac host request w
    = Outcome (Raise Api.missing_device_serial) w [].
Proof.
  intros H.
  unfold Api.transfer_mac_to_android, Api.transfer_android_to_mac.
  rewrite H. split; reflexivity.
Qed.

Lemma transfer_requires_device_serial_witness :
  let request := {| source_path := "/home/u/notes.txt";
                    destination_path := "/sdcard/notes.txt";
                    device_serial := Some "" |} in
  Api.transfer_mac_to_android Toy.host request Toy.w0
    = Outcome (Raise (HTTPException 400 "Device serial is required")) Toy.w0 []
  /\ Api.transfer_android_to_mac Toy.host request Toy.w0
    = Outcome (Raise (HTTPException 400 "Device serial is required")) Toy.w0 [].
Proof.
  exact (transfer_requires_device_serial Toy.host
           {| source_path := "/home/u/notes.txt";
              destination_path := "/sdcard/notes.txt";
              device_serial := Some "" |} Toy.w0 eq_refl).
Defined.

(** ** Transfers to the device: directories *)

(** C7, as stated, fails: the source is an existing local directory,
    but the request carries an empty serial and the endpoint answers
    "Device serial is required". *)
Lemma directory_source_without_serial :
  let request := {| source_path := "/home/u/Music";
                    destination_path := "/sdcard/Music";
                    device_serial := Some "" |} in
  os_exists Toy.host Toy.w0 (source_path request) = true
  /\ os_isdir Toy.host Toy.w0 (source_path request) = true
  /\ res (Api.transfer_mac_to_android Toy.host request Toy.w0)
     = Raise Api.missing_device_serial
  /\ res (Api.transfer_mac_to_android Toy.host request Toy.w0)
     <> Raise Api.directory_not_supported.
Proof. repeat split; try reflexivity. discriminate. Qed.

(** C7, amended.  A transfer to the device whose request carries a
    non-empty serial and whose source is an existing local directory
    fails with "Directory transfer not supported yet" (status 400).  The
    endpoint has asked the disk whether the source exists and whether it
    is a directory, and nothing else: no call on the sync channel, and
    the world is untouched. *)
Theorem directory_transfer_not_supported
    {W Dev : Type} (host : Host W Dev) (request : TransferRequest) (w : W) :
  falsy (device_serial request) = false ->
  os_exists host w (source_path request) = true ->
  os_isdir host w (source_path request) = true ->
  let o := Api.transfer_mac_to_android host request w in
  res o = Raise Api.directory_not_supported
  /\ final o = w
  /\ trace o = [EOsExists (source_path request); EOsIsdir (source_path request)]
  /\ Forall (fun ev => is_transport ev = false) (trace o).
Proof.
  intros Hs He Hd.
  unfold Api.transfer_mac_to_android. rewrite Hs.
  unfold os.path_exists, os.path_isdir. run_step.
  rewrite He. simpl. rewrite Hd. simpl.
  repeat split; repeat constructor.
Qed.

Lemma directory_transfer_not_supported_witness :
  let request := {| source_path := "/home/u/Music";
                    destination_path := "/sdcard/Music";
                    device_serial := Some "S1" |} in
  let o := Api.transfer_mac_to_android Toy.host request Toy.w0 in
  res o = Raise (HTTPException 400 "Directory transfer not supported yet")
  /\ final o = Toy.w0
  /\ trace o = [EOsExists "/home/u/Music"; EOsIsdir "/home/u/Music"]
  /\ Forall (fun ev => is_transport ev = false) (trace o).
Proof.
  exact (directory_transfer_not_supported Toy.host
           {| source_path := "/home/u/Music";
              destination_path := "/sdcard/Music";
              device_serial := Some "S1" |} Toy.w0 eq_refl eq_refl eq_refl).
Defined.

(** ** Path validation *)

Lemma validate_path_final
    {W Dev : Type} (host : Host W Dev) (self : FileService.Self)
    (path : string) (w : W) :
  final (FileService.validate_path host self path w) = w.
Proof.
  unfold FileService.validate_path, os.abspath_expanduser, os.path_exists.
  run_step.
  destruct (Str.is_empty path || String.eqb path "/"); simpl; [reflexivity|].
  destruct (os_exists host w _); reflexivity.
Qed.

(** C6.  [validate_path('')] and [validate_path('/')] return the home
    directory of the service.  For any other path, with [abs] its
    user-home-expanded absolute form: when [abs] does not exist on disk
    the call raises "Path does not exist", and when it exists the call
    returns [abs]. *)
Theorem validate_path_spec
    {W Dev : Type} (host : Host W Dev) (self : FileService.Self) (w : W) :
  res (FileService.validate_path host self "" w) = Ok (FileService.home_dir self)
  /\ res (FileService.validate_path host self "/" w) = Ok (FileService.home_dir self)
  /\ forall path : string,
       path <> "" -> path <> "/" ->
       let abs := os_abspath host w (os_expanduser host w path) in
       (os_exists host w abs = false ->
          res (FileService.validate_path host self path w)
          = Raise (FileService.path_not_found path))
       /\ (os_exists host w abs = true ->
          res (FileService.validate_path host self path w) = Ok abs).
Proof.
  split; [reflexivity|]. split; [reflexivity|].
  intros path Hne Hnr abs.
  assert (Hsel : Str.is_empty path || String.eqb path "/" = false).
  { apply orb_false_iff. split.
    - destruct path; [congruence | reflexivity].
    - now apply String.eqb_neq. }
  unfold FileService.validate_path, os.abspath_expanduser, os.path_exists.
  run_step. rewrite Hsel. simpl. fold abs.
  split; intros ->; reflexivity.
Qed.

Lemma validate_path_spec_witness :
  res (FileService.validate_path Toy.host Toy.self "" Toy.w0) = Ok "/home/u"
  /\ res (FileService.validate_path Toy.host Toy.self "/" Toy.w0) = Ok "/home/u"
  /\ res (FileService.validate_path Toy.host Toy.self "~/nothing" Toy.w0)
     = Raise (ValueError "Path does not exist: ~/nothing")
  /\ res (FileService.validate_path Toy.host Toy.self "~/Music" Toy.w0)
     = Ok "/home/u/Music"
  /\ res (FileService.validate_path Toy.host Toy.self "notes.txt" Toy.w0)
     = Ok "/home/u/notes.txt".
Proof.
  destruct (validate_path_spec Toy.host Toy.self Toy.w0) as (H0 & H1 & H).
  split; [exact H0|]. split; [exact H1|].
  split; [|split].
  - apply (H "~/nothing"); [discriminate | discriminate | reflexivity].
  - apply (H "~/Music"); [discriminate | discriminate | reflexivity].
  - apply (H "notes.txt"); [discriminate | discriminate | reflexivity].
Defined.

(** ** The remote existence test *)

(** C3, at the failing input.  When the device can be resolved and the
    shell answers the existence test with [not_exists] (the path is
    absent), [file_exists] still returns [True]: the word [exists]
    occurs inside [not_exists]. *)
Theorem file_exists_true_on_not_exists
    {W Dev : Type} (host : Host W Dev) (serial path : string) (d : Dev) (w w' : W) :
  adb_device host w serial = Ok d ->
  dev_shell host d (ADBService.test_command path) w
    = (Ok ("not_exists" ++ Str.nl)%string, w') ->
  res (ADBService.file_exists host serial path w) = Ok true.
Proof.
  intros Hd Hs.
  unfold ADBService.file_exists, ADBService.get_device, ADBService.shell.
  run_step. rewrite Hd. simpl. rewrite Hs. reflexivity.
Qed.

Lemma file_exists_true_on_not_exists_witness :
  res (ADBService.file_exists Toy.host "S1" "/sdcard/missing.txt" Toy.w0) = Ok true.
Proof.
  exact (file_exists_true_on_not_exists Toy.host "S1" "/sdcard/missing.txt"
           "S1" Toy.w0 Toy.w0 eq_refl eq_refl).
Defined.

(** The whole endpoint at that input: the source is absent from the
    device, the existence test is passed all the same, the destination
    directory is created and the pull is attempted; its failure comes
    back as status 500, not as "Source file not found on device". *)
Example transfer_of_missing_remote_source :
  let request := {| source_path := "/sdcard/missing.txt";
                    destination_path := "/home/u/new/x.txt";
                    device_serial := Some "S1" |} in
  let o := Api.transfer_android_to_mac Toy.host request Toy.w0 in
  Toy.find "/sdcard/missing.txt" (Toy.files Toy.pixel) = None
  /\ res o = Raise (HTTPException 500
                      "Error transferring file: remote object does not exist")
  /\ In (EAdbPull "S1" "/sdcard/missing.txt" "/home/u/new/x.txt") (trace o)
  /\ Toy.isdir (final o) "/home/u/new" = true
  /\ Toy.isdir Toy.w0 "/home/u/new" = false.
Proof. vm_compute. repeat split; auto 10. Qed.

(** ** What a successful transfer returns *)

Lemma transfer_errors_not_Ok
    {W Dev : Type} (host : Host W Dev) {A} (a : A) (e : exn) (w : W) :
  res (@Api.transfer_errors W A e w) <> Ok a.
Proof.
  unfold Api.transfer_errors. destruct (is_HTTPException e); discriminate.
Qed.

(** C9, as stated, fails: a pull that succeeds returns a dictionary
    with the keys [success] and [message]; no field of it holds the
    destination path. *)
Lemma successful_transfer_has_no_destination_field :
  let request := {| source_path := "/sdcard/a.txt";
                    destination_path := "/home/u/new/a.txt";
                    device_serial := Some "S1" |} in
  exists d,
    res (Api.transfer_android_to_mac Toy.host request Toy.w0) = Ok d
    /\ map fst d = ["success"; "message"]
    /\ ~ has_field_holding d (destination_path request).
Proof.
  eexists. split; [vm_compute; reflexivity|]. split; [reflexivity|].
  intros [k [H | [H | []]]]; discriminate H.
Qed.

(** C9, amended.  Whenever a transfer, in either direction, succeeds,
    the endpoint returns the dictionary with [success] set to [True] and
    [message] set to "File transferred successfully to " followed by the
    destination path exactly as the request gave it. *)
Theorem successful_transfer_result
    {W Dev : Type} (host : Host W Dev) (request : TransferRequest) (w : W)
    (d : pydict) :
  res (Api.transfer_mac_to_android host request w) = Ok d
  \/ res (Api.transfer_android_to_mac host request w) = Ok d ->
  d = [("success", PBool true);
       ("message",
        PStr ("File transferred successfully to " ++ destination_path request))].
Proof.
  intros [H | H].
  - unfold Api.transfer_mac_to_android in H.
    apply try_except_Ok in H; [|intros; apply (transfer_errors_not_Ok host)].
    destruct (falsy (device_serial request)); [discriminate H|].
    apply bind_Ok in H. destruct H as (present & _ & H).
    destruct present; [|discriminate H]. cbn [negb] in H.
    apply bind_Ok in H. destruct H as (isd & _ & H).
    destruct isd; [discriminate H|].
    apply bind_Ok in H. destruct H as (_ & _ & H).
    injection H as <-. reflexivity.
  - unfold Api.transfer_android_to_mac in H.
    apply try_except_Ok in H; [|intros; apply (transfer_errors_not_Ok host)].
    destruct (falsy (device_serial request)); [discriminate H|].
    apply bind_Ok in H. destruct H as (present & _ & H).
    destruct present; [|discriminate H]. cbn [negb] in H.
    apply bind_Ok in H. destruct H as (_ & _ & H).
    injection H as <-. reflexivity.
Qed.

Lemma successful_transfer_result_witness :
  res (Api.transfer_mac_to_android Toy.host
         {| source_path := "/home/u/notes.txt";
            destination_path := "/sdcard/notes.txt";
            device_serial := Some "S1" |} Toy.w0)
  = Ok [("success", PBool true);
        ("message", PStr "File transferred successfully to /sdcard/notes.txt")]
  /\ res (Api.transfer_android_to_mac Toy.host
         {| source_path := "/sdcard/a.txt";
            destination_path := "/home/u/new/a.txt";
            device_serial := Some "S1" |} Toy.w0)
  = Ok [("success", PBool true);
        ("message", PStr "File transferred successfully to /home/u/new/a.txt")].
Proof.
  split.
  - destruct (res (Api.transfer_mac_to_android Toy.host
         {| source_path := "/home/u/notes.txt";
            destination_path := "/sdcard/notes.txt";
            device_serial := Some "S1" |} Toy.w0)) as [d|e] eqn:E.
    + f_equal.
      exact (successful_transfer_result Toy.host _ Toy.w0 d (or_introl E)).
    + vm_compute in E. discriminate E.
  - destruct (res (Api.transfer_android_to_mac Toy.host
         {| source_path := "/sdcard/a.txt";
            destination_path := "/home/u/new/a.txt";
            device_serial := Some "S1" |} Toy.w0)) as [d|e] eqn:E.
    + f_equal.
      exact (successful_transfer_result Toy.host _ Toy.w0 d (or_intror E)).
    + vm_compute in E. discriminate E.
Defined.

(** ** Writing a local file *)

Lemma cut_last_sep_bare (name : string) :
  bare name = true -> posixpath.cut_last_sep name = ("", name).
Proof.
  unfold bare. induction name as [|c r IH]; simpl; [reflexivity|].
  intros H. apply andb_true_iff in H. destruct H as [Hc Hr].
  rewrite (IH Hr). simpl. unfold posixpath.is_sep in Hc.
  destruct (Ascii.eqb c "/"); [discriminate Hc | reflexivity].
Qed.

Lemma dirname_bare (name : string) :
  bare name = true -> posixpath.dirname name = "".
Proof.
  intros H. unfold posixpath.dirname. now rewrite (cut_last_sep_bare _ H).
Qed.

(** C10, at the failing input.  On a host where the empty path names
    nothing ([mkdir('')] fails with ENOENT and [isdir('')] is false, as
    POSIX has it), [write_file] given a bare file name raises that
    [FileNotFoundError]: [os.makedirs] is called on the empty
    [dirname], and the file is never opened. *)
Theorem write_file_bare_name_fails
    {W Dev : Type} (host : Host W Dev) (name : string) (content : list byte)
    (msg : string) (w : W) :
  bare name = true ->
  os_mkdir host "" w = (Raise (OSError ENOENT msg), w) ->
  os_isdir host w "" = false ->
  FileService.write_file host name content w
  = Outcome (Raise (OSError ENOENT msg)) w [EOsMkdir ""; EOsIsdir ""].
Proof.
  intros Hb Hm Hd.
  unfold FileService.write_file. rewrite (dirname_bare _ Hb).
  unfold os.makedirs, os.makedirs_fuel, os.mkdir, os.path_isdir. simpl.
  run_step. rewrite Hm. simpl. rewrite Hd. reflexivity.
Qed.

Lemma write_file_bare_name_fails_witness :
  FileService.write_file Toy.host "photo.jpg" ["x"%byte] Toy.w0
  = Outcome (Raise (OSError ENOENT "[Errno 2] No such file or directory"))
      Toy.w0 [EOsMkdir ""; EOsIsdir ""].
Proof.
  exact (write_file_bare_name_fails Toy.host "photo.jpg" ["x"%byte] _ Toy.w0
           eq_refl eq_refl eq_refl).
Defined.

(** With a directory component the same call creates the missing
    directories and writes the file, replacing what was there. *)
Example write_file_with_directories :
  let o := FileService.write_file Toy.host "/home/u/x/y/photo.jpg" ["x"%byte] Toy.w0 in
  res o = Ok true
  /\ Toy.isdir (final o) "/home/u/x" = true
  /\ Toy.isdir (final o) "/home/u/x/y" = true
  /\ Toy.node_at (final o) "/home/u/x/y/photo.jpg" = Some (Toy.File ["x"%byte] 0)
  /\ res (FileService.write_file Toy.host "/home/u/notes.txt" ["x"%byte] Toy.w0)
     = Ok true
  /\ Toy.node_at
       (final (FileService.write_file Toy.host "/home/u/notes.txt" ["x"%byte] Toy.w0))
       "/home/u/notes.txt" = Some (Toy.File ["x"%byte] 0).
Proof. vm_compute. repeat split. Qed.

(** ** Device enumeration *)

Lemma device_entry {W Dev} (host : Host W Dev) (w : W) (d : Dev)
    (devices : list device_info) :
  exists info tr,
    try_except
      (info <- ADBService.read_device_info host d ;; ret (devices ++ [info]))
      (fun _ => ret (devices ++ [ADBService.unknown_device (dev_serial host d)])) w
    = Outcome (Ok (devices ++ [info])) w tr
    /\ describes host w d info.
Proof.
  unfold ADBService.read_device_info, ADBService.prop_model, ADBService.prop_get,
    describes, props_fail.
  run_step.
  destruct (dev_prop_model host d w) as [m|e1] eqn:E1; simpl.
  - destruct (dev_prop_get host d "ro.product.manufacturer" "Unknown" w)
      as [f|e2] eqn:E2; simpl.
    + destruct (dev_prop_get host d "ro.build.version.release" "Unknown" w)
        as [r|e3] eqn:E3; simpl.
      * eexists; eexists; split; [reflexivity|]. simpl. split; [reflexivity|].
        split.
        -- intros [[e H] | [[e H] | [e H]]]; discriminate H.
        -- intros m' f' r' Hm Hf Hr.
           injection Hm as <-. injection Hf as <-. injection Hr as <-. reflexivity.
      * eexists; eexists; split; [reflexivity|]. simpl. split; [reflexivity|].
        split; [reflexivity|]. intros m' f' r' _ _ Hr. discriminate Hr.
    + eexists; eexists; split; [reflexivity|]. simpl. split; [reflexivity|].
      split; [reflexivity|]. intros m' f' r' _ Hf _. discriminate Hf.
  - eexists; eexists; split; [reflexivity|]. simpl. split; [reflexivity|].
    split; [reflexivity|]. intros m' f' r' Hm _ _. discriminate Hm.
Qed.

Lemma device_loop {W Dev} (host : Host W Dev) (w : W) (ds : list Dev) :
  forall devices,
  exists l tr,
    for_each ds
      (fun devices d =>
         try_except
           (info <- ADBService.read_device_info host d ;; ret (devices ++ [info]))
           (fun _ => ret (devices ++ [ADBService.unknown_device (dev_serial host d)])))
      devices w
    = Outcome (Ok (devices ++ l)) w tr
    /\ Forall2 (describes host w) ds l.
Proof.
  induction ds as [|d ds IH]; intros devices.
  - exists [], []. split; [|constructor]. simpl. unfold ret. now rewrite app_nil_r.
  - destruct (device_entry host w d devices) as (info & tr1 & E1 & H1).
    destruct (IH (devices ++ [info])) as (l & tr2 & E2 & H2).
    exists (info :: l), (tr1 ++ tr2). split; [|now constructor].
    cbn [for_each]. unfold bind at 1. rewrite E1. cbn [res final trace].
    rewrite E2. cbn [res final trace]. now rewrite <- app_assoc.
Qed.

(** C5.  [get_devices] never raises.  When the enumeration of the
    devices itself fails the result is the empty list.  Otherwise the
    result has one entry per enumerated device, in order, carrying its
    serial; the entry of a device for which reading a property fails is
    the placeholder with model, manufacturer and Android version all
    "Unknown", and the entry of a device whose properties can be read
    carries them. *)
Theorem get_devices_never_raises
    {W Dev : Type} (host : Host W Dev) (w : W) :
  exists l,
    res (ADBService.get_devices host w) = Ok l
    /\ match adb_device_list host w with
       | Raise _ => l = []
       | Ok ds => Forall2 (describes host w) ds l
       end.
Proof.
  unfold ADBService.get_devices. unfold try_except at 1. cbv beta zeta.
  rewrite bind_lookup_result.
  destruct (adb_device_list host w) as [ds|e] eqn:E; cbn [res final trace].
  - destruct (device_loop host w ds []) as (l & tr & Hrun & Hall).
    rewrite Hrun. cbn. exists l. split; [reflexivity | exact Hall].
  - exists []. split; reflexivity.
Qed.

Lemma get_devices_never_raises_witness :
  (exists l,
     res (ADBService.get_devices Toy.host Toy.w0) = Ok l
     /\ exists first second,
          l = [first; second]
          /\ first = {| di_serial := "S1"; di_model := "Pixel 8";
                        di_manufacturer := "Google"; di_android_version := "14";
                        di_state := "device" |}
          /\ second = {| di_serial := "S2"; di_model := "Unknown";
                         di_manufacturer := "Unknown";
                         di_android_version := "Unknown";
                         di_state := "device" |})
  /\ (exists l,
     res (ADBService.get_devices Toy.host Toy.w_down) = Ok l /\ l = []).
Proof.
  split.
  - destruct (get_devices_never_raises Toy.host Toy.w0) as (l & Hres & HF).
    exists l. split; [exact Hres|].
    change (Forall2 (describes Toy.host Toy.w0) ["S1"; "S2"] l) in HF.
    inversion HF as [|d1 first ds1 l1 H1 HF1]; subst.
    inversion HF1 as [|d2 second ds2 l2 H2 HF2]; subst.
    inversion HF2; subst.
    exists first, second. split; [reflexivity|]. split.
    + destruct H1 as (_ & _ & Hok).
      exact (Hok "Pixel 8" "Google" "14" eq_refl eq_refl eq_refl).
    + destruct H2 as (_ & Hfail & _).
      apply Hfail. left. eexists. reflexivity.
  - exact (get_devices_never_raises Toy.host Toy.w_down).
Defined.

(** The two worlds of the witness, evaluated: the device whose
    properties cannot be read is listed with the placeholders. *)
Example get_devices_runs :
  res (ADBService.get_devices Toy.host Toy.w0)
  = Ok [{| di_serial := "S1"; di_model := "Pixel 8"; di_manufacturer := "Google";
           di_android_version := "14"; di_state := "device" |};
        {| di_serial := "S2"; di_model := "Unknown"; di_manufacturer := "Unknown";
           di_android_version := "Unknown"; di_state := "device" |}]
  /\ res (ADBService.get_devices Toy.host Toy.w_down) = Ok [].
Proof. split; reflexivity. Qed.

(** ** Which calls go through [validate_path] *)

Section Quiet.
Context {W : Type}.








Lemma trace_bind_prefix {A B} (m : M W A) (k : A -> M W B) (w : W) :
  exists rest, trace (bind m k w) = trace (m w) ++ rest.
Proof.
  unfold bind. destruct (res (m w)); cbn; eauto.
  exists []. now rewrite app_nil_r.
Qed.


End Quiet.








(** The destination of a transfer from the device, written as given:
    the directory [/home/u/new] is created and the file is written
    without any validation of the destination. *)
Example unvalidated_destination_is_written :
  let request := {| source_path := "/sdcard/a.txt";
                    destination_path := "/home/u/new/a.txt";
                    device_serial := Some "S1" |} in
  let o := Api.transfer_android_to_mac Toy.host request Toy.w0 in
  trace o
  = [EAdbDevice "S1";
     EAdbShell "S1" "test -e '/sdcard/a.txt' && echo 'exists' || echo 'not_exists'";
     EAdbDevice "S1"; EOsExists "/home/u"; EOsMkdir "/home/u/new";
     EAdbPull "S1" "/sdcard/a.txt" "/home/u/new/a.txt"]
  /\ Toy.isdir (final o) "/home/u/new" = true
  /\ Toy.node_at (final o) "/home/u/new/a.txt"
     = Some (Toy.File ["h"%byte; "i"%byte] 0).
Proof. vm_compute. repeat split. Qed.

(** The same trace for [write_file]. *)
Example write_file_trace :
  trace (FileService.write_file Toy.host "/home/u/x/photo.jpg" [] Toy.w0)
  = [EOsExists "/home/u"; EOsMkdir "/home/u/x"; EOsWrite "/home/u/x/photo.jpg"].
Proof. reflexivity. Qed.

(** The operations of [FileService] that read the disk call
    [validate_path] before anything else. *)
Lemma list_files_validates_first
    {W Dev : Type} (host : Host W Dev) (self : FileService.Self)
    (path : string) (w : W) :
  exists rest,
    trace (FileService.list_files host self (Some path) w) = EValidate path :: rest.
Proof.
  unfold FileService.list_files. rewrite try_except_reraise. cbn [trace].
  match goal with |- context [trace (bind ?m ?k w)] =>
    destruct (trace_bind_prefix m k w) as [rest ->] end.
  unfold FileService.validate_path. rewrite bind_lookup. cbn [trace app]. eauto.
Qed.

(** ** Listings *)

Lemma list_item_run {W Dev} (host : Host W Dev) (w : W) (dir item : string)
    (files : list file_info) :
  (forall e, os_stat host w (posixpath.join dir item) = Raise e -> is_OSError e = true) ->
  exists tr,
    FileService.list_item host dir files item w
    = Outcome (Ok (files ++ if visible host w dir item
                            then [local_entry host w dir item] else []))
        w tr.
Proof.
  intros Hstat.
  unfold FileService.list_item, visible, stat_ok, local_entry, os.stat, os.path_isdir.
  destruct (Str.startswith item ".") eqn:Eh; cbn [negb andb].
  - eexists. unfold ret. now rewrite app_nil_r.
  - run_step.
    destruct (os_stat host w (posixpath.join dir item)) as [s|e] eqn:Es; simpl.
    + eexists. reflexivity.
    + rewrite (Hstat e eq_refl). simpl. eexists. now rewrite app_nil_r.
Qed.

Lemma list_loop_run {W Dev} (host : Host W Dev) (w : W) (dir : string)
    (items : list string) :
  stat_raises_OSError host w dir items ->
  forall files,
  exists tr,
    for_each items (FileService.list_item host dir) files w
    = Outcome (Ok (files ++ map (local_entry host w dir)
                              (filter (visible host w dir) items)))
        w tr.
Proof.
  induction items as [|item items IH]; intros Hstat files.
  - exists []. cbn. unfold ret. now rewrite app_nil_r.
  - destruct (list_item_run host w dir item files) as [tr1 E1].
    { intros e. apply Hstat. now left. }
    destruct (IH (fun i e Hi => Hstat i e (or_intror Hi))
                 (files ++ if visible host w dir item
                           then [local_entry host w dir item] else []))
      as [tr2 E2].
    exists (tr1 ++ tr2).
    cbn [for_each]. unfold bind at 1. rewrite E1. cbn [res final trace].
    rewrite E2. cbn [res final trace filter].
    destruct (visible host w dir item); cbn [map]; now rewrite <- app_assoc.
Qed.

Lemma parse_listing_sorted (path output : string) (l : list file_info) :
  ADBService.parse_listing path output = Ok l -> StronglySorted precedes l.
Proof.
  unfold ADBService.parse_listing.
  destruct (ADBService.collect _ _ _); intros H; [|discriminate H].
  injection H as <-. apply sort_listing_sorted.
Qed.

Lemma remote_list_files_parsed
    {W Dev : Type} (host : Host W Dev) (serial path : string) (w : W)
    (l : list file_info) :
  res (ADBService.list_files host serial path w) = Ok l ->
  exists output, ADBService.parse_listing path output = Ok l.
Proof.
  unfold ADBService.list_files. intros H.
  apply bind_Ok in H. destruct H as (device & _ & H).
  destruct device as [d|]; [|discriminate H].
  rewrite try_except_reraise in H. cbn [res] in H.
  apply bind_Ok in H. destruct H as (output & _ & H).
  exists output.
  destruct (ADBService.parse_listing path output); [|discriminate H].
  exact H.
Qed.

(** C4, as stated, fails: [/home/u] has the child [stale], a dangling
    link whose name is not hidden; [os.stat] fails on it and the listing
    leaves it out. *)
Lemma listing_omits_unreadable_child :
  exists items l,
    res (FileService.validate_path Toy.host Toy.self "/home/u" Toy.w0) = Ok "/home/u"
    /\ os_listdir Toy.host Toy.w0 "/home/u" = Ok items
    /\ res (FileService.list_files Toy.host Toy.self (Some "/home/u") Toy.w0) = Ok l
    /\ In "stale" items
    /\ hidden "stale" = false
    /\ ~ In "stale" (map fi_name l)
    /\ ~ Permutation (map fi_name l) (filter (fun i => negb (hidden i)) items).
Proof.
  eexists. eexists.
  split; [reflexivity|]. split; [reflexivity|]. split; [reflexivity|].
  split; [vm_compute; auto 10|]. split; [reflexivity|].
  assert (Hnot : ~ In "stale"
            (map fi_name
               (sort_listing
                  (map (local_entry Toy.host Toy.w0 "/home/u")
                     (filter (visible Toy.host Toy.w0 "/home/u")
                        ["notes.txt"; "Music"; ".profile"; "stale"; "apps";
                         "Budget.xls"]))))).
  { vm_compute. intros [H|[H|[H|[H|[]]]]]; discriminate H. }
  split.
  - exact Hnot.
  - intros HP. apply Hnot.
    eapply Permutation_in; [symmetry; exact HP|]. vm_compute. auto 10.
Qed.

(** C4, amended.  For a path [D] that [validate_path] accepts, with
    [dir] the directory it validates to (the absolute form of [D], and
    the home directory when [D] is [''] or ['/']), when [os.listdir] can
    read [dir], on a host whose [os.stat] fails with [OSError] only:
    [list_files] of [D] returns the entries of exactly those direct
    children of [dir] that are not hidden and on which [os.stat]
    succeeds.  The result is ordered: every entry may stand before
    every later one, that is, directories come before files and within
    each kind the lower-cased names ascend.  No returned name starts
    with a dot.  Every result of a remote listing is ordered in the
    same way.  In particular the listing of [''] and of ['/'] is the
    listing of the home directory. *)
Theorem listings_are_ordered
    {W Dev : Type} (host : Host W Dev) (self : FileService.Self) (w : W) :
  (forall (D dir : string) (items : list string),
     res (FileService.validate_path host self D w) = Ok dir ->
     os_listdir host w dir = Ok items ->
     stat_raises_OSError host w dir items ->
     exists l,
       res (FileService.list_files host self (Some D) w) = Ok l
       /\ Permutation l (map (local_entry host w dir)
                           (filter (visible host w dir) items))
       /\ Permutation (map fi_name l) (filter (visible host w dir) items)
       /\ StronglySorted precedes l
       /\ Forall (fun x => hidden (fi_name x) = false) l)
  /\ (forall (serial path : string) (l : list file_info),
     res (ADBService.list_files host serial path w) = Ok l ->
     StronglySorted precedes l)
  /\ (forall (D : string) (items : list string),
     D = "" \/ D = "/" ->
     os_listdir host w (FileService.home_dir self) = Ok items ->
     stat_raises_OSError host w (FileService.home_dir self) items ->
     exists l,
       res (FileService.list_files host self (Some D) w) = Ok l
       /\ Permutation (map fi_name l)
            (filter (visible host w (FileService.home_dir self)) items)).
Proof.
  assert (Hlocal : forall (D dir : string) (items : list string),
     res (FileService.validate_path host self D w) = Ok dir ->
     os_listdir host w dir = Ok items ->
     stat_raises_OSError host w dir items ->
     exists l,
       res (FileService.list_files host self (Some D) w) = Ok l
       /\ Permutation l (map (local_entry host w dir)
                           (filter (visible host w dir) items))
       /\ Permutation (map fi_name l) (filter (visible host w dir) items)
       /\ StronglySorted precedes l
       /\ Forall (fun x => hidden (fi_name x) = false) l).
  2: { split; [exact Hlocal|]. split.
       - intros serial path l H.
         destruct (remote_list_files_parsed host serial path w l H) as [output Hp].
         exact (parse_listing_sorted _ _ _ Hp).
       - intros D items HD Hl Hstat.
         destruct (Hlocal D (FileService.home_dir self) items) as (l & Hres & _ & Hn & _);
           [destruct HD as [-> | ->]; reflexivity | exact Hl | exact Hstat |].
         exists l. split; assumption. }
  intros D dir items Hv Hl Hstat.
  destruct (list_loop_run host w dir items Hstat []) as [tr Hloop].
  exists (sort_listing (map (local_entry host w dir)
                          (filter (visible host w dir) items))).
  assert (Hperm := sort_listing_perm
                     (map (local_entry host w dir)
                        (filter (visible host w dir) items))).
  split; [|split; [|split; [|split]]].
  + unfold FileService.list_files. rewrite try_except_reraise. cbn [res].
    rewrite (bind_run_Ok _ _ _ _ Hv). cbn [res].
    rewrite validate_path_final.
    unfold os.listdir. rewrite bind_lookup_result, Hl. cbn [res].
    unfold bind at 1. rewrite Hloop. reflexivity.
  + exact Hperm.
  + rewrite (Permutation_map fi_name Hperm), map_map. cbn [local_entry fi_name].
    now rewrite map_id.
  + apply sort_listing_sorted.
  + eapply Permutation_Forall; [symmetry; exact Hperm|].
    apply Forall_forall. intros x Hx.
    apply in_map_iff in Hx. destruct Hx as (item & <- & Hi).
    apply filter_In in Hi. destruct Hi as [_ Hvis].
    unfold visible in Hvis. apply andb_true_iff in Hvis.
    destruct Hvis as [Hh _]. cbn [local_entry fi_name]. unfold hidden.
    now destruct (Str.startswith item ".").
Qed.

Lemma listings_are_ordered_witness :
  (exists l,
     res (FileService.list_files Toy.host Toy.self (Some "~") Toy.w0) = Ok l
     /\ Permutation (map fi_name l) ["notes.txt"; "Music"; "apps"; "Budget.xls"]
     /\ StronglySorted precedes l
     /\ Forall (fun x => hidden (fi_name x) = false) l)
  /\ (exists l,
     res (ADBService.list_files Toy.host "S1" "/sdcard" Toy.w0) = Ok l
     /\ StronglySorted precedes l).
Proof.
  destruct (listings_are_ordered Toy.host Toy.self Toy.w0)
    as (Hlocal & Hremote & _).
  split.
  - destruct (Hlocal "~" "/home/u"
                ["notes.txt"; "Music"; ".profile"; "stale"; "apps"; "Budget.xls"]
                eq_refl eq_refl) as (l & Hl & _ & Hn & Hs & Hh).
    + intros item e Hin.
      repeat (destruct Hin as [<- | Hin]; [vm_compute; intros H; inversion H; reflexivity|]).
      destruct Hin.
    + exists l. repeat split; assumption.
  - eexists. split; [reflexivity|]. apply (Hremote "S1" "/sdcard"). reflexivity.
Defined.

(** The two listings of the witness, evaluated. *)
Example listings_run :
  option_map (map fi_name)
    (match res (FileService.list_files Toy.host Toy.self (Some "~") Toy.w0) with
     | Ok l => Some l | Raise _ => None end)
  = Some ["apps"; "Music"; "Budget.xls"; "notes.txt"]
  /\ option_map (map fi_name)
    (match res (ADBService.list_files Toy.host "S1" "/sdcard" Toy.w0) with
     | Ok l => Some l | Raise _ => None end)
  = Some ["DCIM"; "Pictures"; "a.txt"].
Proof. split; reflexivity. Qed.

(** ** Lines of a remote listing *)

Lemma entry_of_line_not_dot (path line : string) (fi : file_info) :
  ADBService.entry_of_line path line = Ok (Some fi) -> not_dot fi.
Proof.
  unfold ADBService.entry_of_line.
  destruct (Str.is_empty line || Str.startswith line "total"); [discriminate|].
  destruct (List.length (Str.split line) <? 8)%nat; [discriminate|].
  destruct (String.eqb (Str.join " " (skipn 7 (Str.split line))) "."
            || String.eqb (Str.join " " (skipn 7 (Str.split line))) "..") eqn:E;
    [discriminate|].
  apply orb_false_iff in E. destruct E as [E1 E2].
  apply String.eqb_neq in E1, E2.
  destruct (if negb (Str.startswith (nth 0 (Str.split line) "") "d")
            then Builtins.int _ else Ok 0%Z); [|discriminate].
  intros H. injection H as <-. split; assumption.
Qed.

Lemma collect_not_dot (path : string) (lines : list string) :
  forall files l,
    Forall not_dot files ->
    ADBService.collect path lines files = Ok l -> Forall not_dot l.
Proof.
  induction lines as [|line lines IH]; intros files l Hf; cbn [ADBService.collect].
  - intros H. injection H as <-. exact Hf.
  - destruct (ADBService.entry_of_line path line) as [[fi|]|e] eqn:E.
    + apply IH. apply Forall_app. split; [exact Hf|].
      constructor; [|constructor]. exact (entry_of_line_not_dot _ _ _ E).
    + apply IH. exact Hf.
    + discriminate.
Qed.

Lemma list_files_of_output
    {W Dev : Type} (host : Host W Dev) (serial path output : string)
    (d : Dev) (w w' : W) :
  adb_device host w serial = Ok d ->
  dev_shell host d (ADBService.ls_command path) w = (Ok output, w') ->
  res (ADBService.list_files host serial path w)
  = ADBService.parse_listing path output.
Proof.
  intros Hd Hs.
  unfold ADBService.list_files, ADBService.get_device, ADBService.shell.
  run_step. rewrite Hd. simpl. rewrite Hs. simpl.
  destruct (ADBService.parse_listing path output); reflexivity.
Qed.

(** C1, as stated, fails: in the line of the specification the date
    takes three tokens, the name is joined from the eighth token on,
    and the entry is named "00:00 Pictures". *)
Lemma spec_line_name_keeps_the_time :
  exists x,
    ADBService.parse_listing "/sdcard"
      "drwxr-xr-x 2 root root 4096 Jan 1 00:00 Pictures" = Ok [x]
    /\ fi_is_directory x = true
    /\ fi_size x = 0%Z
    /\ fi_name x = "00:00 Pictures"
    /\ fi_name x <> "Pictures".
Proof.
  eexists. split; [reflexivity|]. repeat split. discriminate.
Qed.

(** C1, amended.  [list_files] returns what [parse_listing] makes of
    the text the shell prints.  The line
    "drwxr-xr-x 2 root root 4096 Jan 1 00:00 Pictures" yields one entry,
    a directory of size 0 named "00:00 Pictures", and
    "-rw-r--r-- 1 root root 1234 Jan 1 00:00 photo.jpg" yields one
    entry, a file of size 1234 named "00:00 photo.jpg": the name is
    joined from the eighth token on.  With a date of two tokens the
    same lines yield the names "Pictures" and "photo.jpg".  A line
    starting with "total" yields no entry, the text "total 48" yields
    the empty list, and no entry of a returned list is named "." or
    "..". *)
Theorem remote_listing_lines :
  (forall {W Dev : Type} (host : Host W Dev) (serial path output : string)
          (d : Dev) (w w' : W),
     adb_device host w serial = Ok d ->
     dev_shell host d (ADBService.ls_command path) w = (Ok output, w') ->
     res (ADBService.list_files host serial path w)
     = ADBService.parse_listing path output)
  /\ (forall path,
     ADBService.parse_listing path
       "drwxr-xr-x 2 root root 4096 Jan 1 00:00 Pictures"
     = Ok [remote_entry path "00:00 Pictures" "drwxr-xr-x" true 0]
     /\ ADBService.parse_listing path
       "-rw-r--r-- 1 root root 1234 Jan 1 00:00 photo.jpg"
     = Ok [remote_entry path "00:00 photo.jpg" "-rw-r--r--" false 1234]
     /\ ADBService.parse_listing path
       "drwxr-xr-x 2 root root 4096 2024-01-01 00:00 Pictures"
     = Ok [remote_entry path "Pictures" "drwxr-xr-x" true 0]
     /\ ADBService.parse_listing path
       "-rw-r--r-- 1 root root 1234 2024-01-01 00:00 photo.jpg"
     = Ok [remote_entry path "photo.jpg" "-rw-r--r--" false 1234]
     /\ ADBService.parse_listing path "total 48" = Ok [])
  /\ (forall path line,
     Str.startswith line "total" = true ->
     ADBService.entry_of_line path line = Ok None)
  /\ (forall path output l,
     ADBService.parse_listing path output = Ok l -> Forall not_dot l).
Proof.
  split; [|split; [|split]].
  - intros W Dev host serial path output d w w'. apply list_files_of_output.
  - intros path. repeat split; reflexivity.
  - intros path line H. unfold ADBService.entry_of_line. rewrite H.
    now rewrite orb_true_r.
  - intros path output l. unfold ADBService.parse_listing.
    destruct (ADBService.collect _ _ _) as [files|e] eqn:E; intros H;
      [|discriminate H].
    injection H as <-.
    eapply Permutation_Forall; [symmetry; apply sort_listing_perm|].
    eapply collect_not_dot; [|exact E]. constructor.
Qed.

Lemma remote_listing_lines_witness :
  res (ADBService.list_files Toy.host "S1" "/sdcard" Toy.w0)
  = ADBService.parse_listing "/sdcard" (Toy.ls_output Toy.pixel)
  /\ ADBService.entry_of_line "/sdcard" "total 48" = Ok None
  /\ Forall not_dot
       [remote_entry "/sdcard" "DCIM" "drwxrwx--x" true 0;
        remote_entry "/sdcard" "Pictures" "drwxrwx--x" true 0;
        remote_entry "/sdcard" "a.txt" "-rw-rw----" false 2].
Proof.
  destruct remote_listing_lines as (Hrun & _ & Htotal & Hdot).
  split; [|split].
  - exact (Hrun _ _ Toy.host "S1" "/sdcard" (Toy.ls_output Toy.pixel)
             "S1" Toy.w0 Toy.w0 eq_refl eq_refl).
  - exact (Htotal "/sdcard" "total 48" eq_refl).
  - exact (Hdot "/sdcard" (Toy.ls_output Toy.pixel) _ eq_refl).
Defined.

(** With the three-token date of the specification's lines the entry
    of the directory itself is listed too, under the name "00:00 .". *)
Example dot_line_with_three_token_date :
  ADBService.parse_listing "/sdcard" "drwxr-xr-x 2 root root 4096 Jan 1 00:00 ."
  = Ok [remote_entry "/sdcard" "00:00 ." "drwxr-xr-x" true 0].
Proof. reflexivity. Qed.

Example split_example :
  Str.split "drwxr-xr-x 2 root root 4096 Jan 1 00:00 Pictures"
  = ["drwxr-xr-x"; "2"; "root"; "root"; "4096"; "Jan"; "1"; "00:00"; "Pictures"].
Proof. reflexivity. Qed.

Example dirname_examples :
  posixpath.dirname "/home/u/a/b.txt" = "/home/u/a"
  /\ posixpath.dirname "photo.jpg" = ""
  /\ posixpath.dirname "/x" = "/"
  /\ posixpath.dirname "a//b" = "a"
  /\ posixpath.split "/home/u/" = ("/home/u", "")
  /\ posixpath.join "/sdcard" "DCIM" = "/sdcard/DCIM"
  /\ posixpath.join "/" "DCIM" = "/DCIM".
Proof. repeat split; reflexivity. Qed.

(** ** The fuel of [makedirs] is enough *)

Lemma cut_last_sep_length (p h t : string) :
  posixpath.cut_last_sep p = (h, t) ->
  String.length h + String.length t = String.length p.
Proof.
  revert h t. induction p as [|c r IH]; intros h t; cbn [posixpath.cut_last_sep].
  - intros H. injection H as <- <-. reflexivity.
  - destruct (posixpath.cut_last_sep r) as [h' t'].
    specialize (IH h' t' eq_refl).
    destruct h' as [|a h'']; cbn [Str.is_empty negb].
    + destruct (Ascii.eqb c "/"); intros H; injection H as <- <-; cbn in *; lia.
    + intros H. injection H as <- <-. cbn in *. lia.
Qed.

Lemma rstrip_sep_length (s : string) :
  String.length (posixpath.rstrip_sep s) <= String.length s.
Proof.
  induction s as [|c r IH]; cbn [posixpath.rstrip_sep]; [reflexivity|].
  destruct (posixpath.is_sep c && Str.is_empty (posixpath.rstrip_sep r));
    cbn; lia.
Qed.

Lemma split_length (p h t : string) :
  posixpath.split p = (h, t) ->
  String.length h + String.length t <= String.length p.
Proof.
  unfold posixpath.split, posixpath.trim_head.
  destruct (posixpath.cut_last_sep p) as [h0 t0] eqn:E.
  apply cut_last_sep_length in E.
  intros H. injection H as <- <-.
  destruct (negb (Str.is_empty h0) && negb (Str.all_chars posixpath.is_sep h0));
    [pose proof (rstrip_sep_length h0)|]; lia.
Qed.

Lemma nonempty_length (s : string) :
  Str.is_empty s = false -> 1 <= String.length s.
Proof. destruct s; [discriminate | cbn; lia]. Qed.

(** Any two amounts of fuel above the length of the path give the same
    run: [makedirs] never reaches the end of its fuel. *)
Lemma makedirs_fuel_enough {W Dev} (host : Host W Dev) (n : nat) :
  forall (m : nat) (name : string) (w : W),
    String.length name < n -> String.length name < m ->
    os.makedirs_fuel host n name w = os.makedirs_fuel host m name w.
Proof.
  induction n as [|n IH]; intros m name w Hn Hm; [lia|].
  destruct m as [|m]; [lia|].
  cbn [os.makedirs_fuel].
  destruct (posixpath.split name) as [head0 tail0] eqn:E0.
  apply split_length in E0.
  destruct (if Str.is_empty tail0 then posixpath.split head0 else (head0, tail0))
    as [head tail] eqn:E1.
  destruct (negb (Str.is_empty head) && negb (Str.is_empty tail)) eqn:Ec;
    [|reflexivity].
  apply andb_true_iff in Ec. destruct Ec as [_ Et].
  apply negb_true_iff, nonempty_length in Et.
  assert (Hh : String.length head + String.length tail <= String.length name).
  { destruct (Str.is_empty tail0).
    - apply split_length in E1. lia.
    - injection E1 as <- <-. lia. }
  apply bind_ext_l. unfold os.path_exists. apply bind_lookup_ext.
  intros present. destruct present; cbn [negb]; [reflexivity|].
  apply bind_ext_l, try_except_ext_l, IH; lia.
Qed.

(** In particular [makedirs] does not depend on the fuel it is given
    beyond the length of its argument. *)
Lemma makedirs_any_fuel {W Dev} (host : Host W Dev) (extra : nat)
    (name : string) (w : W) :
  os.makedirs_fuel host (S (String.length name) + extra) name w
  = os.makedirs host name w.
Proof. unfold os.makedirs. apply makedirs_fuel_enough; lia. Qed.

(** * Further properties of the services and endpoints *)

(** ** Kinds of calls *)

Section Emits.
Context {W : Type} (P : event -> bool).

Lemma emits_ret {A} (a : A) : emits P (@ret W A a).
Proof. intros w. constructor. Qed.

Lemma emits_raise {A} (e : exn) : emits P (@raise W A e).
Proof. intros w. constructor. Qed.

Lemma emits_lookup {A} (ev : event) (f : W -> A) :
  P ev = true -> emits P (lookup ev f).
Proof. intros H w. repeat constructor. exact H. Qed.

Lemma emits_lookup_result {A} (ev : event) (f : W -> result A) :
  P ev = true -> emits P (lookup_result ev f).
Proof. intros H w. repeat constructor. exact H. Qed.

Lemma emits_perform {A} (ev : event) (f : W -> result A * W) :
  P ev = true -> emits P (perform ev f).
Proof.
  intros H w. unfold perform. destruct (f w). repeat constructor. exact H.
Qed.

Lemma emits_bind {A B} (m : M W A) (k : A -> M W B) :
  emits P m -> (forall a, emits P (k a)) -> emits P (bind m k).
Proof.
  intros Hm Hk w. unfold bind. destruct (res (m w)); cbn.
  - apply Forall_app. split; [apply Hm | apply Hk].
  - apply Hm.
Qed.

Lemma emits_try_except {A} (m : M W A) (h : exn -> M W A) :
  emits P m -> (forall e, emits P (h e)) -> emits P (try_except m h).
Proof.
  intros Hm Hh w. unfold try_except. destruct (res (m w)); cbn.
  - apply Hm.
  - apply Forall_app. split; [apply Hm | apply Hh].
Qed.
End Emits.

Ltac emits_step :=
  match goal with
  | |- emits _ (bind _ _) => apply emits_bind; [|intros ?]
  | |- emits _ (try_except _ _) => apply emits_try_except; [|intros ?]
  | |- emits _ (ret _) => apply emits_ret
  | |- emits _ (raise _) => apply emits_raise
  | |- emits _ (lookup _ _) => apply emits_lookup; reflexivity
  | |- emits _ (lookup_result _ _) => apply emits_lookup_result; reflexivity
  | |- emits _ (perform _ _) => apply emits_perform; reflexivity
  | |- emits _ (if ?b then _ else _) => destruct b
  | |- emits _ (match ?x with _ => _ end) => destruct x
  end.

Lemma makedirs_fuel_emits {W Dev} (host : Host W Dev) (fuel : nat) :
  forall name, emits is_makedirs_call (os.makedirs_fuel host fuel name).
Proof.
  induction fuel as [|fuel IH]; intros name; cbn [os.makedirs_fuel].
  - apply emits_raise.
  - destruct (posixpath.split name) as [head0 tail0].
    destruct (if Str.is_empty tail0 then posixpath.split head0 else (head0, tail0))
      as [head tail].
    unfold os.path_exists, os.mkdir, os.path_isdir.
    repeat (emits_step || apply IH).
Qed.

Lemma get_device_run {W Dev} (host : Host W Dev) (serial : string) (w : W) :
  ADBService.get_device host serial w
  = Outcome (Ok (match adb_device host w serial with
                 | Ok d => Some d
                 | Raise _ => None
                 end)) w [EAdbDevice serial].
Proof.
  unfold ADBService.get_device. run_step.
  destruct (adb_device host w serial); reflexivity.
Qed.

Lemma bind_get_device {W Dev B} (host : Host W Dev) (serial : string)
    (k : option Dev -> M W B) (w : W) :
  bind (ADBService.get_device host serial) k w
  = let o := k (match adb_device host w serial with
                | Ok d => Some d
                | Raise _ => None
                end) w in
    Outcome (res o) (final o) (EAdbDevice serial :: trace o).
Proof. unfold bind. rewrite get_device_run. reflexivity. Qed.

Lemma file_exists_unresolved {W Dev} (host : Host W Dev) (serial path : string)
    (e : exn) (w : W) :
  adb_device host w serial = Raise e ->
  ADBService.file_exists host serial path w
  = Outcome (Ok false) w [EAdbDevice serial].
Proof.
  intros H. unfold ADBService.file_exists. now rewrite bind_get_device, H.
Qed.

Lemma list_files_unresolved {W Dev} (host : Host W Dev) (serial path : string)
    (e : exn) (w : W) :
  adb_device host w serial = Raise e ->
  ADBService.list_files host serial path w
  = Outcome (Raise (ValueError ("Device " ++ serial ++ " not found"))) w
      [EAdbDevice serial].
Proof.
  intros H. unfold ADBService.list_files. now rewrite bind_get_device, H.
Qed.

Lemma push_file_unresolved {W Dev} (host : Host W Dev)
    (serial local_ remote : string) (e : exn) (w : W) :
  adb_device host w serial = Raise e ->
  ADBService.push_file host serial local_ remote w
  = Outcome (Raise (ValueError ("Device " ++ serial ++ " not found"))) w
      [EAdbDevice serial].
Proof.
  intros H. unfold ADBService.push_file. now rewrite bind_get_device, H.
Qed.

(** ** The services when the device cannot be resolved or the shell fails *)

(** X1.  [file_exists] never raises.  When the device cannot be
    resolved it answers [False] after the lookup alone, without sending
    a shell command; when the shell command raises it answers [False]
    as well; otherwise it answers whether the word [exists] occurs in
    the stripped output. *)
Theorem file_exists_never_raises
    {W Dev : Type} (host : Host W Dev) (serial path : string) (w : W) :
  (exists b, res (ADBService.file_exists host serial path w) = Ok b)
  /\ (forall e, adb_device host w serial = Raise e ->
        ADBService.file_exists host serial path w
        = Outcome (Ok false) w [EAdbDevice serial])
  /\ (forall d e w', adb_device host w serial = Ok d ->
        dev_shell host d (ADBService.test_command path) w = (Raise e, w') ->
        res (ADBService.file_exists host serial path w) = Ok false)
  /\ (forall d out w', adb_device host w serial = Ok d ->
        dev_shell host d (ADBService.test_command path) w = (Ok out, w') ->
        res (ADBService.file_exists host serial path w)
        = Ok (Str.contains "exists" (Str.strip out))).
Proof.
  unfold ADBService.file_exists.
  rewrite bind_get_device. cbv zeta.
  unfold ADBService.shell.
  split; [|split; [|split]].
  - destruct (adb_device host w serial) as [d|e]; [|eexists; reflexivity].
    run_step. destruct (dev_shell host d (ADBService.test_command path) w) as [[out|e] w'];
      eexists; reflexivity.
  - intros e ->. reflexivity.
  - intros d e w' -> Hs. run_step. rewrite Hs. reflexivity.
  - intros d out w' -> Hs. run_step. rewrite Hs. reflexivity.
Qed.

Lemma file_exists_never_raises_witness :
  ADBService.file_exists Toy.host "S9" "/sdcard/a.txt" Toy.w0
    = Outcome (Ok false) Toy.w0 [EAdbDevice "S9"]
  /\ res (ADBService.file_exists Toy.host "S1" "/sdcard/a.txt" Toy.w0) = Ok true.
Proof.
  destruct (file_exists_never_raises Toy.host "S9" "/sdcard/a.txt" Toy.w0)
    as (_ & H1 & _).
  destruct (file_exists_never_raises Toy.host "S1" "/sdcard/a.txt" Toy.w0)
    as (_ & _ & _ & H2).
  split.
  - exact (H1 _ eq_refl).
  - exact (H2 "S1" _ Toy.w0 eq_refl eq_refl).
Defined.

(** X2.  When the device cannot be resolved, [list_files], [pull_file]
    and [push_file] raise [ValueError] "Device <serial> not found" after
    the lookup alone: no shell command is sent, nothing is pulled or
    pushed, no directory is created, and the world is as before. *)
Theorem unresolved_device_is_value_error
    {W Dev : Type} (host : Host W Dev) (serial a b : string) (e : exn) (w : W) :
  adb_device host w serial = Raise e ->
  ADBService.list_files host serial a w
    = Outcome (Raise (ValueError ("Device " ++ serial ++ " not found"))) w
        [EAdbDevice serial]
  /\ ADBService.pull_file host serial a b w
    = Outcome (Raise (ValueError ("Device " ++ serial ++ " not found"))) w
        [EAdbDevice serial]
  /\ ADBService.push_file host serial a b w
    = Outcome (Raise (ValueError ("Device " ++ serial ++ " not found"))) w
        [EAdbDevice serial].
Proof.
  intros H.
  unfold ADBService.list_files, ADBService.pull_file, ADBService.push_file.
  rewrite !bind_get_device, H.
  repeat split; reflexivity.
Qed.

Lemma unresolved_device_is_value_error_witness :
  ADBService.list_files Toy.host "S9" "/sdcard" Toy.w0
    = Outcome (Raise (ValueError "Device S9 not found")) Toy.w0 [EAdbDevice "S9"]
  /\ ADBService.pull_file Toy.host "S9" "/sdcard/a.txt" "/home/u/new/a.txt" Toy.w0
    = Outcome (Raise (ValueError "Device S9 not found")) Toy.w0 [EAdbDevice "S9"]
  /\ ADBService.push_file Toy.host "S9" "/home/u/notes.txt" "/sdcard/n.txt" Toy.w0
    = Outcome (Raise (ValueError "Device S9 not found")) Toy.w0 [EAdbDevice "S9"].
Proof.
  destruct (unresolved_device_is_value_error Toy.host "S9" "/sdcard" "x"
              (AdbError "device 'S9' not found") Toy.w0 eq_refl) as (H1 & _ & _).
  destruct (unresolved_device_is_value_error Toy.host "S9" "/sdcard/a.txt"
              "/home/u/new/a.txt" (AdbError "device 'S9' not found") Toy.w0 eq_refl)
    as (_ & H2 & _).
  destruct (unresolved_device_is_value_error Toy.host "S9" "/home/u/notes.txt"
              "/sdcard/n.txt" (AdbError "device 'S9' not found") Toy.w0 eq_refl)
    as (_ & _ & H3).
  repeat split; assumption.
Defined.

(** ** The transfer endpoints: failures *)

Lemma transfer_errors_http {W A} (e : exn) (w : W) :
  exists status detail,
    @Api.transfer_errors W A e w = Outcome (Raise (HTTPException status detail)) w []
    /\ (is_HTTPException e = true -> e = HTTPException status detail)
    /\ (is_HTTPException e = false ->
        status = 500%Z /\ detail = ("Error transferring file: " ++ exn_str e)%string).
Proof.
  unfold Api.transfer_errors. destruct e; cbn; eexists; eexists;
    (split; [reflexivity|]); split; intros H; try discriminate H; auto.
Qed.

Lemma try_except_transfer_errors {W A} (m : M W A) (w : W) (e : exn) :
  res (try_except m Api.transfer_errors w) = Raise e ->
  exists e0,
    res (m w) = Raise e0
    /\ (is_HTTPException e0 = true -> e = e0)
    /\ (is_HTTPException e0 = false ->
        e = HTTPException 500 ("Error transferring file: " ++ exn_str e0)).
Proof.
  unfold try_except. destruct (res (m w)) as [a|e0] eqn:E; cbn.
  - rewrite E. discriminate.
  - destruct (@transfer_errors_http W A e0 (final (m w)))
      as (status & detail & -> & Hh & Hn). cbn.
    intros H. injection H as <-. exists e0. split; [reflexivity|]. split.
    + intros T. symmetry. exact (Hh T).
    + intros T. destruct (Hn T) as [-> ->]. reflexivity.
Qed.

(** X3.  Whatever goes wrong, in either direction, a transfer endpoint
    raises an [HTTPException] and nothing else. *)
Theorem transfers_raise_http_only
    {W Dev : Type} (host : Host W Dev) (request : TransferRequest) (w : W)
    (e : exn) :
  res (Api.transfer_mac_to_android host request w) = Raise e
  \/ res (Api.transfer_android_to_mac host request w) = Raise e ->
  is_HTTPException e = true.
Proof.
  intros [H | H]; apply try_except_transfer_errors in H;
    destruct H as (e0 & _ & Hh & Hn);
    destruct (is_HTTPException e0) eqn:T.
  - now rewrite (Hh eq_refl).
  - now rewrite (Hn eq_refl).
  - now rewrite (Hh eq_refl).
  - now rewrite (Hn eq_refl).
Qed.

Lemma transfers_raise_http_only_witness :
  is_HTTPException
    (HTTPException 500 "Error transferring file: Device S9 not found") = true.
Proof.
  apply (transfers_raise_http_only Toy.host
           {| source_path := "/home/u/notes.txt";
              destination_path := "/sdcard/n.txt";
              device_serial := Some "S9" |} Toy.w0).
  left. reflexivity.
Defined.

(** X4.  A transfer to the device whose source does not exist on the
    local disk fails with status 404 "Source file not found: <source>".
    The endpoint has asked the disk whether the source exists and made
    no other call: the device is not looked up. *)
Theorem missing_local_source
    {W Dev : Type} (host : Host W Dev) (request : TransferRequest) (w : W) :
  falsy (device_serial request) = false ->
  os_exists host w (source_path request) = false ->
  Api.transfer_mac_to_android host request w
  = Outcome (Raise (HTTPException 404
                      ("Source file not found: " ++ source_path request)))
      w [EOsExists (source_path request)].
Proof.
  intros Hs He. unfold Api.transfer_mac_to_android. rewrite Hs.
  unfold os.path_exists. run_step. rewrite He. reflexivity.
Qed.

Lemma missing_local_source_witness :
  Api.transfer_mac_to_android Toy.host
    {| source_path := "/home/u/nothing.txt";
       destination_path := "/sdcard/n.txt";
       device_serial := Some "S1" |} Toy.w0
  = Outcome (Raise (HTTPException 404 "Source file not found: /home/u/nothing.txt"))
      Toy.w0 [EOsExists "/home/u/nothing.txt"].
Proof.
  exact (missing_local_source Toy.host
           {| source_path := "/home/u/nothing.txt";
              destination_path := "/sdcard/n.txt";
              device_serial := Some "S1" |} Toy.w0 eq_refl eq_refl).
Defined.

(** X5.  When the device of the request cannot be resolved, the two
    directions answer differently.  The transfer from the device
    answers 404 "Source file not found on device: <source>", because
    the existence test answers [False]; nothing is created on the local
    disk.  The transfer to the device, for a source that exists and is
    no directory, answers 500 "Error transferring file: Device <serial>
    not found". *)
Theorem transfer_with_unresolved_device
    {W Dev : Type} (host : Host W Dev) (request : TransferRequest) (w : W)
    (e : exn) :
  falsy (device_serial request) = false ->
  adb_device host w (Api.serial_of request) = Raise e ->
  Api.transfer_android_to_mac host request w
  = Outcome (Raise (HTTPException 404
                      ("Source file not found on device: " ++ source_path request)))
      w [EAdbDevice (Api.serial_of request)]
  /\ (os_exists host w (source_path request) = true ->
      os_isdir host w (source_path request) = false ->
      Api.transfer_mac_to_android host request w
      = Outcome (Raise (HTTPException 500
                          ("Error transferring file: Device "
                           ++ Api.serial_of request ++ " not found")))
          w [EOsExists (source_path request); EOsIsdir (source_path request);
             EAdbDevice (Api.serial_of request)]).
Proof.
  intros Hs Hd. split.
  - unfold Api.transfer_android_to_mac. rewrite Hs.
    unfold try_except, bind.
    rewrite (file_exists_unresolved host _ (source_path request) e w Hd).
    reflexivity.
  - intros He Hi. unfold Api.transfer_mac_to_android. rewrite Hs.
    pose proof (push_file_unresolved host (Api.serial_of request)
                  (source_path request) (destination_path request) e w Hd) as Hp.
    unfold os.path_exists, os.path_isdir.
    unfold try_except. rewrite !bind_lookup, He. cbn [negb res final trace].
    rewrite bind_lookup, Hi. cbn [res final trace].
    unfold bind. rewrite Hp. reflexivity.
Qed.

Lemma transfer_with_unresolved_device_witness :
  let request := {| source_path := "/home/u/notes.txt";
                    destination_path := "/home/u/new/n.txt";
                    device_serial := Some "S9" |} in
  Api.transfer_android_to_mac Toy.host request Toy.w0
  = Outcome (Raise (HTTPException 404
                      "Source file not found on device: /home/u/notes.txt"))
      Toy.w0 [EAdbDevice "S9"]
  /\ Api.transfer_mac_to_android Toy.host request Toy.w0
  = Outcome (Raise (HTTPException 500
                      "Error transferring file: Device S9 not found"))
      Toy.w0 [EOsExists "/home/u/notes.txt"; EOsIsdir "/home/u/notes.txt";
              EAdbDevice "S9"].
Proof.
  destruct (transfer_with_unresolved_device Toy.host
              {| source_path := "/home/u/notes.txt";
                 destination_path := "/home/u/new/n.txt";
                 device_serial := Some "S9" |} Toy.w0
              (AdbError "device 'S9' not found") eq_refl eq_refl) as [H1 H2].
  split; [exact H1 | exact (H2 eq_refl eq_refl)].
Defined.

(** ** The transfer endpoints: a push that succeeds *)

Lemma push_file_run {W Dev} (host : Host W Dev) (serial local_ remote : string)
    (d : Dev) (r : result unit) (w w' : W) :
  adb_device host w serial = Ok d ->
  dev_sync_push host d local_ remote w = (r, w') ->
  ADBService.push_file host serial local_ remote w
  = Outcome (match r with Ok _ => Ok true | Raise e => Raise e end) w'
      [EAdbDevice serial; EAdbPush (dev_serial host d) local_ remote].
Proof.
  intros Hd Hp. unfold ADBService.push_file.
  rewrite bind_get_device, Hd. cbv zeta.
  rewrite try_except_reraise. unfold ADBService.sync_push, bind, perform.
  rewrite Hp. destruct r; reflexivity.
Qed.

(** X6.  For a request with a serial that resolves, whose source exists
    on the local disk and is no directory, when the push itself
    succeeds the endpoint succeeds.  It has checked the source, looked
    the device up and pushed once, from the source to the destination
    exactly as the request names them, and the world is the one the
    push left. *)
Theorem transfer_mac_to_android_run
    {W Dev : Type} (host : Host W Dev) (request : TransferRequest)
    (d : Dev) (w w' : W) :
  falsy (device_serial request) = false ->
  os_exists host w (source_path request) = true ->
  os_isdir host w (source_path request) = false ->
  adb_device host w (Api.serial_of request) = Ok d ->
  dev_sync_push host d (source_path request) (destination_path request) w
  = (Ok tt, w') ->
  Api.transfer_mac_to_android host request w
  = Outcome (Ok (Api.transferred (destination_path request))) w'
      [EOsExists (source_path request); EOsIsdir (source_path request);
       EAdbDevice (Api.serial_of request);
       EAdbPush (dev_serial host d) (source_path request)
         (destination_path request)].
Proof.
  intros Hs He Hi Hd Hp. unfold Api.transfer_mac_to_android. rewrite Hs.
  unfold os.path_exists, os.path_isdir.
  unfold try_except. rewrite !bind_lookup, He. cbn [negb res final trace].
  rewrite bind_lookup, Hi. cbn [res final trace].
  unfold bind. rewrite (push_file_run host _ _ _ d (Ok tt) w w' Hd Hp).
  reflexivity.
Qed.

Lemma transfer_mac_to_android_run_witness :
  let request := {| source_path := "/home/u/notes.txt";
                    destination_path := "/sdcard/n.txt";
                    device_serial := Some "S1" |} in
  exists w',
    Api.transfer_mac_to_android Toy.host request Toy.w0
    = Outcome (Ok (Api.transferred "/sdcard/n.txt")) w'
        [EOsExists "/home/u/notes.txt"; EOsIsdir "/home/u/notes.txt";
         EAdbDevice "S1"; EAdbPush "S1" "/home/u/notes.txt" "/sdcard/n.txt"]
    /\ option_map (fun ds => map (fun d => Toy.find "/sdcard/n.txt" (Toy.files d)) ds)
         (Toy.devices w')
       = Some [Some ["n"%byte]; None].
Proof.
  eexists. split.
  - exact (transfer_mac_to_android_run Toy.host
             {| source_path := "/home/u/notes.txt";
                destination_path := "/sdcard/n.txt";
                device_serial := Some "S1" |} "S1" Toy.w0 _
             eq_refl eq_refl eq_refl eq_refl eq_refl).
  - reflexivity.
Defined.

(** ** Pulling a file *)

Lemma makedirs_no_transport {W Dev} (host : Host W Dev) (name : string) (w : W) :
  Forall (fun ev => is_transport ev = false) (trace (os.makedirs host name w)).
Proof.
  eapply Forall_impl; [|apply (makedirs_fuel_emits host)].
  intros ev H. destruct ev; try discriminate H; reflexivity.
Qed.

(** X7.  [pull_file], for a device that resolves, first creates the
    directories of the local path and only then pulls.  When creating
    them fails, the exception is raised as it is and the sync channel is
    never used.  When it succeeds, there is exactly one pull, the last
    call, from the remote path to the local path as given, and its
    outcome is the outcome of [pull_file]. *)
Theorem pull_file_run
    {W Dev : Type} (host : Host W Dev) (serial remote local_ : string)
    (d : Dev) (w : W) :
  adb_device host w serial = Ok d ->
  let mk := os.makedirs host (posixpath.dirname local_) w in
  (forall e, res mk = Raise e ->
     ADBService.pull_file host serial remote local_ w
     = Outcome (Raise e) (final mk) (EAdbDevice serial :: trace mk)
     /\ Forall (fun ev => is_transport ev = false)
          (trace (ADBService.pull_file host serial remote local_ w)))
  /\ (forall u r w2, res mk = Ok u ->
     dev_sync_pull host d remote local_ (final mk) = (r, w2) ->
     ADBService.pull_file host serial remote local_ w
     = Outcome (match r with Ok _ => Ok true | Raise e => Raise e end) w2
         (EAdbDevice serial :: trace mk
          ++ [EAdbPull (dev_serial host d) remote local_])).
Proof.
  intros Hd mk.
  assert (Hrun : ADBService.pull_file host serial remote local_ w
                 = let o := bind (os.makedirs host (posixpath.dirname local_))
                              (fun _ => bind (ADBService.sync_pull host d remote local_)
                                          (fun _ => ret true)) w in
                   Outcome (res o) (final o) (EAdbDevice serial :: trace o)).
  { unfold ADBService.pull_file. rewrite bind_get_device, Hd. cbv zeta.
    rewrite try_except_reraise. reflexivity. }
  split.
  - intros e He. rewrite Hrun. cbv zeta.
    rewrite (bind_run_Raise _ _ _ _ He). cbn [res final trace]. fold mk.
    split; [reflexivity|].
    constructor; [reflexivity|]. apply makedirs_no_transport.
  - intros u r w2 Hu Hp. rewrite Hrun. cbv zeta.
    rewrite (bind_run_Ok _ _ _ _ Hu). cbn [res final trace]. fold mk.
    unfold ADBService.sync_pull, bind, perform. rewrite Hp.
    destruct r; cbn; rewrite ?app_nil_r; reflexivity.
Qed.

Lemma pull_file_run_witness :
  ADBService.pull_file Toy.host "S1" "/sdcard/a.txt" "a.txt" Toy.w0
  = Outcome (Raise (OSError ENOENT "[Errno 2] No such file or directory")) Toy.w0
      [EAdbDevice "S1"; EOsMkdir ""; EOsIsdir ""]
  /\ res (ADBService.pull_file Toy.host "S1" "/sdcard/a.txt" "/home/u/new/a.txt" Toy.w0)
     = Ok true
  /\ trace (ADBService.pull_file Toy.host "S1" "/sdcard/a.txt" "/home/u/new/a.txt" Toy.w0)
     = [EAdbDevice "S1"; EOsExists "/home/u"; EOsMkdir "/home/u/new";
        EAdbPull "S1" "/sdcard/a.txt" "/home/u/new/a.txt"].
Proof.
  destruct (pull_file_run Toy.host "S1" "/sdcard/a.txt" "a.txt" "S1" Toy.w0 eq_refl)
    as [H1 _].
  destruct (pull_file_run Toy.host "S1" "/sdcard/a.txt" "/home/u/new/a.txt" "S1"
              Toy.w0 eq_refl) as [_ H2].
  split; [|split].
  - exact (proj1 (H1 _ eq_refl)).
  - rewrite (H2 tt (Ok tt) _ eq_refl eq_refl). reflexivity.
  - rewrite (H2 tt (Ok tt) _ eq_refl eq_refl). reflexivity.
Defined.

(** ** Paths of listed entries *)

Lemma string_app_assoc (a b c : string) :
  ((a ++ b) ++ c = a ++ (b ++ c))%string.
Proof. induction a as [|x a IH]; cbn; [reflexivity | now rewrite IH]. Qed.

Lemma is_empty_app_sep (a : string) : Str.is_empty (a ++ "/") = false.
Proof. destruct a; reflexivity. Qed.

Lemma cut_last_sep_app_sep (a item : string) :
  bare item = true ->
  posixpath.cut_last_sep (a ++ "/" ++ item) = ((a ++ "/")%string, item).
Proof.
  intros Hb. induction a as [|c a IH]; cbn [append posixpath.cut_last_sep].
  - rewrite (cut_last_sep_bare _ Hb). reflexivity.
  - change (a ++ String "/" item)%string with (a ++ "/" ++ item)%string.
    rewrite IH. rewrite is_empty_app_sep. reflexivity.
Qed.

Lemma endswith_sep_split (dir : string) :
  Str.endswith_char dir "/" = true -> exists a, dir = (a ++ "/")%string.
Proof.
  induction dir as [|c r IH]; cbn [Str.endswith_char]; [discriminate|].
  destruct r as [|c' r'].
  - intros H. apply Ascii.eqb_eq in H. subst c. now exists "".
  - intros H. destruct (IH H) as [a Ha]. exists (String c a). cbn. now rewrite <- Ha.
Qed.

Lemma all_sep_endswith (dir : string) :
  Str.is_empty dir = false -> Str.all_chars posixpath.is_sep dir = true ->
  Str.endswith_char dir "/" = true.
Proof.
  induction dir as [|c r IH]; [discriminate|].
  intros _ H. cbn [Str.all_chars] in H. apply andb_true_iff in H.
  destruct H as [Hc Hr]. cbn [Str.endswith_char].
  destruct r as [|c' r']; [exact Hc|]. now apply IH.
Qed.

Lemma all_sep_app_sep (dir : string) :
  Str.all_chars posixpath.is_sep (dir ++ "/")
  = Str.all_chars posixpath.is_sep dir.
Proof.
  induction dir as [|c r IH]; cbn [append Str.all_chars]; [reflexivity|].
  now rewrite IH.
Qed.

Lemma rstrip_sep_app_sep (dir : string) :
  Str.endswith_char dir "/" = false ->
  posixpath.rstrip_sep (dir ++ "/") = dir.
Proof.
  induction dir as [|c r IH]; [reflexivity|].
  cbn [Str.endswith_char append posixpath.rstrip_sep].
  destruct r as [|c' r'].
  - intros H. cbn. unfold posixpath.is_sep. now rewrite H.
  - intros H. rewrite (IH H). cbn [Str.is_empty]. now rewrite andb_false_r.
Qed.

Lemma plain_name_facts (item : string) :
  plain_name item = true ->
  Str.is_empty item = false /\ bare item = true /\ Str.startswith item "/" = false.
Proof.
  unfold plain_name. intros H. apply andb_true_iff in H. destruct H as [Hn Hb].
  apply negb_true_iff in Hn. repeat split; auto.
  destruct item as [|c r]; [discriminate|].
  unfold bare in Hb. cbn [Str.all_chars] in Hb. apply andb_true_iff in Hb.
  destruct Hb as [Hc _]. unfold posixpath.is_sep in Hc.
  unfold Str.startswith. cbn [String.prefix].
  destruct (ascii_dec "/" c) as [<-|]; [discriminate Hc | reflexivity].
Qed.

(** [os.path.split] undoes [os.path.join] of a directory and a name. *)
Lemma split_join (dir item : string) :
  tidy_dir dir = true -> plain_name item = true ->
  posixpath.split (posixpath.join dir item) = (dir, item).
Proof.
  intros Hd Hi. destruct (plain_name_facts _ Hi) as (Hn & Hb & Hs).
  unfold tidy_dir in Hd. apply andb_true_iff in Hd. destruct Hd as [Hne Hd].
  apply negb_true_iff in Hne.
  unfold posixpath.join. rewrite Hs, Hne. cbn [orb].
  unfold posixpath.split, posixpath.trim_head.
  destruct (Str.endswith_char dir "/") eqn:E.
  - destruct (endswith_sep_split _ E) as [a ->].
    rewrite string_app_assoc. rewrite (cut_last_sep_app_sep a item Hb).
    cbn [negb orb] in Hd. rewrite orb_false_r in Hd. rewrite Hd.
    now rewrite andb_false_r.
  - rewrite (cut_last_sep_app_sep dir item Hb).
    rewrite is_empty_app_sep, all_sep_app_sep. cbn [negb andb].
    destruct (Str.all_chars posixpath.is_sep dir) eqn:A.
    + rewrite (all_sep_endswith _ Hne A) in E. discriminate E.
    + cbn [negb]. now rewrite (rstrip_sep_app_sep _ E).
Qed.

Lemma dirname_join (dir item : string) :
  tidy_dir dir = true -> plain_name item = true ->
  posixpath.dirname (posixpath.join dir item) = dir
  /\ posixpath.basename (posixpath.join dir item) = item.
Proof.
  intros Hd Hi. pose proof (split_join dir item Hd Hi) as H.
  unfold posixpath.split in H. unfold posixpath.dirname, posixpath.basename.
  destruct (posixpath.cut_last_sep (posixpath.join dir item)) as [h t].
  injection H as H1 H2. now subst.
Qed.

Lemma local_list_files_run
    {W Dev : Type} (host : Host W Dev) (self : FileService.Self) (w : W)
    (D dir : string) (items : list string) :
  res (FileService.validate_path host self D w) = Ok dir ->
  os_listdir host w dir = Ok items ->
  stat_raises_OSError host w dir items ->
  res (FileService.list_files host self (Some D) w)
  = Ok (sort_listing (map (local_entry host w dir)
                        (filter (visible host w dir) items)))
  /\ final (FileService.list_files host self (Some D) w) = w.
Proof.
  intros Hv Hl Hstat.
  destruct (list_loop_run host w dir items Hstat []) as [tr Hloop].
  unfold FileService.list_files. rewrite try_except_reraise. cbn [res final].
  rewrite (bind_run_Ok _ _ _ _ Hv). cbn [res final].
  rewrite validate_path_final.
  unfold os.listdir. rewrite bind_lookup_result, Hl. cbn [res final].
  unfold bind at 1 2. rewrite Hloop. split; reflexivity.
Qed.

Lemma list_item_Ok
    {W Dev : Type} (host : Host W Dev) (w : W) (dir item : string)
    (files files' : list file_info) :
  res (FileService.list_item host dir files item w) = Ok files' ->
  final (FileService.list_item host dir files item w) = w
  /\ (files' = files \/ files' = files ++ [local_entry host w dir item]).
Proof.
  unfold FileService.list_item, local_entry, os.stat, os.path_isdir.
  destruct (Str.startswith item ".").
  - intros H. injection H as <-. auto.
  - run_step.
    destruct (os_stat host w (posixpath.join dir item)) as [s|e]; simpl.
    + intros H. injection H as <-. auto.
    + destruct (is_OSError e); simpl; intros H; [|discriminate H].
      injection H as <-. auto.
Qed.

Lemma list_loop_Ok
    {W Dev : Type} (host : Host W Dev) (w : W) (dir : string)
    (P : file_info -> Prop) (items : list string) :
  (forall item, In item items -> P (local_entry host w dir item)) ->
  forall files l,
    Forall P files ->
    res (for_each items (FileService.list_item host dir) files w) = Ok l ->
    Forall P l.
Proof.
  induction items as [|item items IH]; intros HP files l Hf Hrun.
  - cbn in Hrun. injection Hrun as <-. exact Hf.
  - cbn [for_each] in Hrun. unfold bind in Hrun.
    destruct (res (FileService.list_item host dir files item w)) as [files'|e] eqn:E;
      [|discriminate Hrun].
    cbn [res] in Hrun.
    destruct (list_item_Ok host w dir item files files' E) as [Hw Hfiles].
    rewrite Hw in Hrun.
    apply (IH (fun i Hi => HP i (or_intror Hi)) files' l); [|exact Hrun].
    destruct Hfiles as [-> | ->]; [exact Hf|].
    apply Forall_app. split; [exact Hf|].
    constructor; [|constructor]. apply HP. now left.
Qed.

(** X8.  In the listing of a valid local directory, every entry is a
    direct child of the listed directory under its own name: the
    directory part of its [path] is the validated directory and the base
    name of its [path] is its [name].  The directory is taken as
    [validate_path] returns it (not empty, no trailing separator unless
    it is the root) and the names as [os.listdir] returns them (not
    empty, no separator). *)
Theorem listed_paths_are_children
    {W Dev : Type} (host : Host W Dev) (self : FileService.Self) (w : W)
    (D dir : string) (items : list string) (l : list file_info) :
  res (FileService.validate_path host self D w) = Ok dir ->
  os_listdir host w dir = Ok items ->
  tidy_dir dir = true ->
  Forall (fun item => plain_name item = true) items ->
  res (FileService.list_files host self (Some D) w) = Ok l ->
  Forall (fun x => posixpath.dirname (fi_path x) = dir
                   /\ posixpath.basename (fi_path x) = fi_name x
                   /\ In (fi_name x) items) l.
Proof.
  intros Hv Hl Hd Hitems Hres.
  unfold FileService.list_files in Hres. rewrite try_except_reraise in Hres.
  cbn [res] in Hres.
  rewrite (bind_run_Ok _ _ _ _ Hv) in Hres. cbn [res] in Hres.
  rewrite validate_path_final in Hres.
  unfold os.listdir in Hres. rewrite bind_lookup_result, Hl in Hres.
  cbn [res] in Hres.
  apply bind_Ok in Hres. destruct Hres as (files & Hloop & Hret).
  cbn in Hret. injection Hret as <-.
  eapply Permutation_Forall; [symmetry; apply sort_listing_perm|].
  eapply (list_loop_Ok host w dir); [|constructor|exact Hloop].
  intros item Hin. cbn [local_entry fi_path fi_name].
  rewrite Forall_forall in Hitems.
  destruct (dirname_join dir item Hd (Hitems item Hin)) as [H1 H2]. auto.
Qed.

Lemma listed_paths_are_children_witness :
  exists l,
    res (FileService.list_files Toy.host Toy.self (Some "/home/u") Toy.w0) = Ok l
    /\ Forall (fun x => posixpath.dirname (fi_path x) = "/home/u"
                        /\ posixpath.basename (fi_path x) = fi_name x
                        /\ In (fi_name x)
                             ["notes.txt"; "Music"; ".profile"; "stale"; "apps";
                              "Budget.xls"]) l.
Proof.
  eexists. split; [reflexivity|].
  apply (listed_paths_are_children Toy.host Toy.self Toy.w0 "/home/u" "/home/u"
           ["notes.txt"; "Music"; ".profile"; "stale"; "apps"; "Budget.xls"]);
    try reflexivity.
  repeat constructor.
Defined.

(** ** Information about one path *)

Lemma join_not_special (dir item : string) :
  tidy_dir dir = true -> plain_name item = true ->
  Str.is_empty (posixpath.join dir item) || String.eqb (posixpath.join dir item) "/"
  = false.
Proof.
  intros Hd Hi. pose proof (split_join dir item Hd Hi) as H.
  destruct (plain_name_facts _ Hi) as (Hn & _ & _).
  destruct (posixpath.join dir item) as [|c r] eqn:E.
  - cbn in H. injection H as _ <-. discriminate Hn.
  - cbn [Str.is_empty orb]. destruct (String.eqb (String c r) "/") eqn:Q; [|reflexivity].
    apply String.eqb_eq in Q. rewrite Q in H. cbn in H.
    injection H as _ <-. discriminate Hn.
Qed.

(** X9.  [get_file_info] on the path of a listed entry gives that
    entry again.  For a child [item] of the directory [dir] whose joined
    path is its own absolute form, exists, and can be read by [os.stat],
    the dictionary returned for the joined path equals the entry that
    the listing of [dir] builds for [item]: same name, path, kind, size
    and modification time. *)
Theorem get_file_info_agrees_with_listing
    {W Dev : Type} (host : Host W Dev) (self : FileService.Self) (w : W)
    (dir item : string) (s : stat_result) :
  tidy_dir dir = true ->
  plain_name item = true ->
  let p := posixpath.join dir item in
  os_abspath host w (os_expanduser host w p) = p ->
  os_exists host w p = true ->
  os_stat host w p = Ok s ->
  res (FileService.get_file_info host self p w) = Ok (local_entry host w dir item).
Proof.
  intros Hd Hi p Ha He Hs. subst p.
  destruct (dirname_join dir item Hd Hi) as [_ Hb].
  unfold FileService.get_file_info, FileService.validate_path,
    os.abspath_expanduser, os.path_exists, os.stat, os.path_isdir, local_entry.
  run_step. rewrite (join_not_special dir item Hd Hi). simpl.
  rewrite Ha, He. simpl. rewrite Hs. simpl.
  rewrite Hb. reflexivity.
Qed.

Lemma get_file_info_agrees_with_listing_witness :
  res (FileService.get_file_info Toy.host Toy.self "/home/u/Budget.xls" Toy.w0)
  = Ok (local_entry Toy.host Toy.w0 "/home/u" "Budget.xls")
  /\ In (local_entry Toy.host Toy.w0 "/home/u" "Budget.xls")
       (match res (FileService.list_files Toy.host Toy.self (Some "/home/u") Toy.w0)
        with Ok l => l | Raise _ => [] end).
Proof.
  split.
  - exact (get_file_info_agrees_with_listing Toy.host Toy.self Toy.w0
             "/home/u" "Budget.xls" {| st_size := 3; st_mtime := 9 |}
             eq_refl eq_refl eq_refl eq_refl eq_refl).
  - vm_compute. auto 10.
Defined.

(** ** The parent directory *)

Lemma cut_last_sep_app (p : string) :
  p = (fst (posixpath.cut_last_sep p) ++ snd (posixpath.cut_last_sep p))%string.
Proof.
  induction p as [|c r IH]; [reflexivity|].
  cbn [posixpath.cut_last_sep].
  destruct (posixpath.cut_last_sep r) as [h t]. cbn [fst snd] in IH.
  destruct h as [|a h']; cbn [Str.is_empty negb].
  - cbn in IH. subst t. destruct (Ascii.eqb c "/") eqn:E; cbn; [|reflexivity].
    apply Ascii.eqb_eq in E. now subst c.
  - cbn [fst snd]. rewrite IH at 1. reflexivity.
Qed.

Lemma rstrip_sep_prefix (h : string) : is_prefix (posixpath.rstrip_sep h) h.
Proof.
  induction h as [|c r IH]; [now exists ""|].
  cbn [posixpath.rstrip_sep].
  destruct (posixpath.is_sep c && Str.is_empty (posixpath.rstrip_sep r)).
  - now exists (String c r).
  - destruct IH as [rest IH]. exists rest. cbn. now rewrite <- IH.
Qed.

Lemma dirname_prefix (p : string) : is_prefix (posixpath.dirname p) p.
Proof.
  unfold posixpath.dirname, posixpath.trim_head.
  set (h := fst (posixpath.cut_last_sep p)).
  assert (Hp : is_prefix h p)
    by (exists (snd (posixpath.cut_last_sep p)); apply cut_last_sep_app).
  destruct (negb (Str.is_empty h) && negb (Str.all_chars posixpath.is_sep h));
    [|exact Hp].
  destruct (rstrip_sep_prefix h) as [r1 H1]. destruct Hp as [r2 H2].
  exists (r1 ++ r2)%string. rewrite H2 at 1. rewrite H1 at 1.
  apply string_app_assoc.
Qed.

(** X10.  [get_parent_directory] fails exactly when [validate_path]
    fails, with the same exception, and otherwise returns the directory
    part of the validated path, which is an initial segment of it.  For
    the inputs [''] and ['/'] the validated path is the home directory,
    so the parent returned for ['/'] is the parent of the home
    directory. *)
Theorem get_parent_directory_spec
    {W Dev : Type} (host : Host W Dev) (self : FileService.Self)
    (path : string) (w : W) :
  (forall e, res (FileService.validate_path host self path w) = Raise e ->
     res (FileService.get_parent_directory host self path w) = Raise e)
  /\ (forall v, res (FileService.validate_path host self path w) = Ok v ->
     res (FileService.get_parent_directory host self path w)
     = Ok (posixpath.dirname v)
     /\ is_prefix (posixpath.dirname v) v)
  /\ res (FileService.get_parent_directory host self "/" w)
     = Ok (posixpath.dirname (FileService.home_dir self)).
Proof.
  split; [|split].
  - intros e He. unfold FileService.get_parent_directory.
    now rewrite (bind_run_Raise _ _ _ _ He).
  - intros v Hv. split; [|apply dirname_prefix].
    unfold FileService.get_parent_directory.
    rewrite (bind_run_Ok _ _ _ _ Hv). cbn [res ret].
    destruct (String.eqb (posixpath.dirname v) v) eqn:E; cbn [negb]; [|reflexivity].
    apply String.eqb_eq in E. now rewrite E.
  - unfold FileService.get_parent_directory, FileService.validate_path.
    run_step.
    destruct (String.eqb (posixpath.dirname (FileService.home_dir self))
                (FileService.home_dir self)) eqn:E; cbn [negb]; [|reflexivity].
    apply String.eqb_eq in E. now rewrite E.
Qed.

Lemma get_parent_directory_spec_witness :
  res (FileService.get_parent_directory Toy.host Toy.self "~/nothing" Toy.w0)
    = Raise (ValueError "Path does not exist: ~/nothing")
  /\ res (FileService.get_parent_directory Toy.host Toy.self "~/Music" Toy.w0)
    = Ok "/home/u"
  /\ res (FileService.get_parent_directory Toy.host Toy.self "/" Toy.w0)
    = Ok "/home".
Proof.
  destruct (get_parent_directory_spec Toy.host Toy.self "~/nothing" Toy.w0)
    as (H1 & _ & H3).
  destruct (get_parent_directory_spec Toy.host Toy.self "~/Music" Toy.w0)
    as (_ & H2 & _).
  split; [exact (H1 _ eq_refl)|]. split; [|exact H3].
  exact (proj1 (H2 "/home/u/Music" eq_refl)).
Defined.

(** ** Uploading a file *)

Lemma browse_errors_run {W A} (http_str : Z -> string -> string)
    (status : Z) (prefix : string) (e : exn) (w : W) :
  @Api.browse_errors W http_str A status prefix e w
  = Outcome (Raise (if Api.is_ValueError e
                    then HTTPException status (Api.str http_str e)
                    else HTTPException 500 (prefix ++ Api.str http_str e))) w [].
Proof. unfold Api.browse_errors. destruct (Api.is_ValueError e); reflexivity. Qed.

Lemma try_except_browse_errors {W A} (http_str : Z -> string -> string)
    (status : Z) (prefix : string) (m : M W A) (w : W) :
  try_except m (Api.browse_errors http_str status prefix) w
  = match res (m w) with
    | Ok _ => m w
    | Raise e =>
        Outcome (Raise (if Api.is_ValueError e
                        then HTTPException status (Api.str http_str e)
                        else HTTPException 500 (prefix ++ Api.str http_str e)))
          (final (m w)) (trace (m w))
    end.
Proof.
  unfold try_except. destruct (res (m w)) eqn:E; [reflexivity|].
  rewrite browse_errors_run. cbn. now rewrite app_nil_r.
Qed.

Lemma validate_path_missing
    {W Dev : Type} (host : Host W Dev) (self : FileService.Self)
    (path : string) (w : W) :
  path <> "" -> path <> "/" ->
  os_exists host w (os_abspath host w (os_expanduser host w path)) = false ->
  FileService.validate_path host self path w
  = Outcome (Raise (FileService.path_not_found path)) w
      [EValidate path;
       EOsExists (os_abspath host w (os_expanduser host w path))].
Proof.
  intros Hne Hnr He.
  assert (Hsel : Str.is_empty path || String.eqb path "/" = false).
  { apply orb_false_iff. split.
    - destruct path; [congruence | reflexivity].
    - now apply String.eqb_neq. }
  unfold FileService.validate_path, os.abspath_expanduser, os.path_exists.
  run_step. rewrite Hsel. simpl. rewrite He. reflexivity.
Qed.

(** X11.  An upload whose destination does not exist is answered with
    status 400 and the detail "Path does not exist: <destination>".
    The endpoint has validated the destination and done nothing else:
    no directory is created and nothing is written. *)
Theorem upload_to_missing_destination
    {W Dev : Type} (host : Host W Dev) (self : FileService.Self)
    (http_str : Z -> string -> string)
    (filename : string) (content : list byte) (destination : string) (w : W) :
  destination <> "" -> destination <> "/" ->
  os_exists host w (os_abspath host w (os_expanduser host w destination)) = false ->
  Api.upload_to_mac host self http_str filename content destination w
  = Outcome (Raise (HTTPException 400 ("Path does not exist: " ++ destination))) w
      [EValidate destination;
       EOsExists (os_abspath host w (os_expanduser host w destination))].
Proof.
  intros Hne Hnr He. unfold Api.upload_to_mac.
  rewrite try_except_browse_errors.
  pose proof (validate_path_missing host self destination w Hne Hnr He) as Hv.
  assert (Hr : res (FileService.validate_path host self destination w)
               = Raise (FileService.path_not_found destination))
    by now rewrite Hv.
  rewrite (bind_run_Raise _ _ _ _ Hr). rewrite Hv. reflexivity.
Qed.

Lemma upload_to_missing_destination_witness :
  Api.upload_to_mac Toy.host Toy.self (fun _ d => d) "a.txt" ["x"%byte]
    "/home/u/nothing" Toy.w0
  = Outcome (Raise (HTTPException 400 "Path does not exist: /home/u/nothing"))
      Toy.w0 [EValidate "/home/u/nothing"; EOsExists "/home/u/nothing"].
Proof.
  refine (upload_to_missing_destination Toy.host Toy.self (fun _ d => d)
            "a.txt" ["x"%byte] "/home/u/nothing" Toy.w0 _ _ eq_refl);
    discriminate.
Defined.

(** X12.  An upload whose destination exists but is not a directory is
    answered with status 500, not 400: the exception with status 400
    "Destination must be a directory" is raised inside the [try] and the
    handler for any exception wraps it.  Nothing is created or written,
    and the world is as before. *)
Theorem upload_to_a_file_is_500
    {W Dev : Type} (host : Host W Dev) (self : FileService.Self)
    (http_str : Z -> string -> string)
    (filename : string) (content : list byte) (destination v : string) (w : W) :
  res (FileService.validate_path host self destination w) = Ok v ->
  os_isdir host w v = false ->
  let o := Api.upload_to_mac host self http_str filename content destination w in
  res o = Raise (HTTPException 500
                   ("Error uploading file: "
                    ++ http_str 400%Z "Destination must be a directory"))
  /\ final o = w
  /\ Forall (fun ev => is_write ev = false) (trace o).
Proof.
  intros Hv Hi o. subst o. unfold Api.upload_to_mac.
  rewrite try_except_browse_errors.
  rewrite (bind_run_Ok _ _ _ _ Hv). cbn [res final trace].
  rewrite validate_path_final.
  unfold os.path_isdir. rewrite bind_lookup, Hi. cbn [negb raise res final trace].
  cbn [Api.is_ValueError Api.destination_not_directory Api.str].
  split; [reflexivity|]. split; [reflexivity|].
  apply Forall_app. split; [|repeat constructor].
  assert (He : emits (fun ev => negb (is_write ev))
                 (FileService.validate_path host self destination)).
  { unfold FileService.validate_path, os.abspath_expanduser, os.path_exists, ask.
    repeat emits_step. intros w0. constructor. }
  eapply Forall_impl; [|apply He].
  intros ev H. now apply negb_true_iff in H.
Qed.

Lemma upload_to_a_file_is_500_witness :
  let o := Api.upload_to_mac Toy.host Toy.self
             (fun c d => if (c =? 400)%Z then "400: " ++ d else d)%string
             "a.txt" ["x"%byte] "/home/u/notes.txt" Toy.w0 in
  res o = Raise (HTTPException 500
                   "Error uploading file: 400: Destination must be a directory")
  /\ final o = Toy.w0
  /\ Forall (fun ev => is_write ev = false) (trace o).
Proof.
  exact (upload_to_a_file_is_500 Toy.host Toy.self
           (fun c d => if (c =? 400)%Z then "400: " ++ d else d)%string
           "a.txt" ["x"%byte] "/home/u/notes.txt" "/home/u/notes.txt" Toy.w0
           eq_refl eq_refl).
Defined.

Lemma upload_body_run
    {W Dev : Type} (host : Host W Dev) (self : FileService.Self)
    (http_str : Z -> string -> string)
    (filename : string) (content : list byte) (destination v : string) (w : W) :
  res (FileService.validate_path host self destination w) = Ok v ->
  os_isdir host w v = true ->
  let wr := FileService.write_file host (posixpath.join v filename) content w in
  Api.upload_to_mac host self http_str filename content destination w
  = Outcome
      (match res wr with
       | Ok _ => Ok (Api.uploaded (posixpath.join v filename))
       | Raise e =>
           Raise (if Api.is_ValueError e
                  then HTTPException 400 (Api.str http_str e)
                  else HTTPException 500
                         ("Error uploading file: " ++ Api.str http_str e))
       end)
      (final wr)
      (trace (FileService.validate_path host self destination w)
       ++ EOsIsdir v :: trace wr).
Proof.
  intros Hv Hi wr. unfold Api.upload_to_mac.
  rewrite try_except_browse_errors.
  rewrite (bind_run_Ok _ _ _ _ Hv). cbn [res final trace].
  rewrite validate_path_final.
  unfold os.path_isdir. rewrite bind_lookup, Hi. cbn [negb res final trace].
  destruct (res wr) as [b|e] eqn:E; subst wr.
  - rewrite (bind_run_Ok _ _ _ _ E). cbn [ret res final trace].
    now rewrite app_nil_r.
  - rewrite (bind_run_Raise _ _ _ _ E). reflexivity.
Qed.

(** X13.  An upload into an existing directory writes the content at
    the join of the validated directory and the file name, through
    [write_file], and when that succeeds returns [success], the message
    "File uploaded successfully" and that joined path; the world is the
    one [write_file] left.  When the file name is absolute the joined
    path is the file name itself: the file is written there, whatever
    the destination directory is. *)
Theorem upload_to_mac_run
    {W Dev : Type} (host : Host W Dev) (self : FileService.Self)
    (http_str : Z -> string -> string)
    (filename : string) (content : list byte) (destination v : string) (w : W) :
  res (FileService.validate_path host self destination w) = Ok v ->
  os_isdir host w v = true ->
  let o := Api.upload_to_mac host self http_str filename content destination w in
  (forall b,
     res (FileService.write_file host (posixpath.join v filename) content w) = Ok b ->
     res o = Ok [("success", PBool true);
                 ("message", PStr "File uploaded successfully");
                 ("path", PStr (posixpath.join v filename))]
     /\ final o
        = final (FileService.write_file host (posixpath.join v filename) content w))
  /\ (Str.startswith filename "/" = true ->
      posixpath.join v filename = filename
      /\ final o = final (FileService.write_file host filename content w)).
Proof.
  intros Hv Hi o. subst o.
  rewrite (upload_body_run host self http_str filename content destination v w Hv Hi).
  cbv zeta. split.
  - intros b Hb. rewrite Hb. split; reflexivity.
  - intros Hs. unfold posixpath.join. rewrite Hs. split; reflexivity.
Qed.

Lemma upload_to_mac_run_witness :
  res (Api.upload_to_mac Toy.host Toy.self (fun _ d => d) "a.txt" ["x"%byte]
         "~/Music" Toy.w0)
  = Ok [("success", PBool true);
        ("message", PStr "File uploaded successfully");
        ("path", PStr "/home/u/Music/a.txt")]
  /\ Toy.node_at
       (final (Api.upload_to_mac Toy.host Toy.self (fun _ d => d) "/home/notes.txt"
                 ["x"%byte] "~/Music" Toy.w0))
       "/home/notes.txt"
     = Some (Toy.File ["x"%byte] 0).
Proof.
  destruct (upload_to_mac_run Toy.host Toy.self (fun _ d => d) "a.txt" ["x"%byte]
              "~/Music" "/home/u/Music" Toy.w0 eq_refl eq_refl) as [H1 _].
  destruct (upload_to_mac_run Toy.host Toy.self (fun _ d => d) "/home/notes.txt"
              ["x"%byte] "~/Music" "/home/u/Music" Toy.w0 eq_refl eq_refl)
    as [_ H2].
  split.
  - exact (proj1 (H1 true eq_refl)).
  - rewrite (proj2 (H2 eq_refl)). reflexivity.
Defined.

(** ** The device endpoints *)

Lemma get_devices_outcome {W Dev : Type} (host : Host W Dev) (w : W) :
  exists l tr,
    ADBService.get_devices host w = Outcome (Ok l) w tr
    /\ match adb_device_list host w with
       | Raise _ => l = []
       | Ok ds => Forall2 (describes host w) ds l
       end.
Proof.
  unfold ADBService.get_devices. unfold try_except at 1. cbv beta zeta.
  rewrite bind_lookup_result.
  destruct (adb_device_list host w) as [ds|e] eqn:E; cbn [res final trace].
  - destruct (device_loop host w ds []) as (l & tr & Hrun & Hall).
    rewrite Hrun. cbn. exists l. eexists. split; [reflexivity | exact Hall].
  - exists []. eexists. split; reflexivity.
Qed.

Lemma describes_serials {W Dev : Type} (host : Host W Dev) (w : W)
    (ds : list Dev) (l : list device_info) :
  Forall2 (describes host w) ds l -> map di_serial l = map (dev_serial host) ds.
Proof.
  induction 1 as [|d info ds l H _ IH]; [reflexivity|].
  cbn. destruct H as [-> _]. now rewrite IH.
Qed.

Lemma first_with_serial_spec (serial : string) (l : list device_info) :
  match DevicesApi.first_with_serial serial l with
  | Some info => di_serial info = serial /\ In info l
  | None => ~ In serial (map di_serial l)
  end.
Proof.
  unfold DevicesApi.first_with_serial.
  destruct (find _ l) as [info|] eqn:E.
  - apply find_some in E. destruct E as [Hin Heq].
    apply String.eqb_eq in Heq. auto.
  - intros Hin. apply in_map_iff in Hin. destruct Hin as (info & Hs & Hin).
    pose proof (find_none _ _ E info Hin) as H. cbn in H.
    rewrite Hs, String.eqb_refl in H. discriminate H.
Qed.

Lemma first_with_serial_split (serial : string) (l : list device_info)
    (info : device_info) :
  DevicesApi.first_with_serial serial l = Some info ->
  exists pre post,
    l = pre ++ info :: post
    /\ di_serial info = serial
    /\ Forall (fun x => di_serial x <> serial) pre.
Proof.
  unfold DevicesApi.first_with_serial.
  induction l as [|x l IH]; cbn [find]; [discriminate|].
  destruct (String.eqb (di_serial x) serial) eqn:E.
  - intros H. injection H as <-. exists [], l.
    split; [reflexivity|]. split; [now apply String.eqb_eq | constructor].
  - intros H. destruct (IH H) as (pre & post & -> & Hs & Hpre).
    exists (x :: pre), post. split; [reflexivity|]. split; [exact Hs|].
    constructor; [now apply String.eqb_neq | exact Hpre].
Qed.

(** X14.  With [l] the list [get_devices] returns (it always returns
    one, and [list_devices] answers with exactly that list):
    [get_device_info] answers with the first entry of [l] that carries
    the serial, that is, an entry of [l] with that serial before which
    no entry of [l] has it; and it answers with status 404 "Device
    <serial> not found" exactly when no entry of [l] carries the serial,
    which includes the case where the enumeration itself fails.  It
    never answers with status 500. *)
Theorem get_device_info_spec
    {W Dev : Type} (host : Host W Dev) (http_str : Z -> string -> string)
    (serial : string) (w : W) :
  let r := res (DevicesApi.get_device_info host http_str serial w) in
  exists l,
    res (ADBService.get_devices host w) = Ok l
    /\ res (DevicesApi.list_devices host http_str w) = Ok l
    /\ (forall info, r = Ok info ->
          exists pre post,
            l = pre ++ info :: post
            /\ di_serial info = serial
            /\ Forall (fun x => di_serial x <> serial) pre)
    /\ (In serial (map di_serial l) -> exists info, r = Ok info)
    /\ (forall e, r = Raise e ->
          e = HTTPException 404 ("Device " ++ serial ++ " not found")
          /\ ~ In serial (map di_serial l))
    /\ match adb_device_list host w with
       | Raise _ =>
           r = Raise (HTTPException 404 ("Device " ++ serial ++ " not found"))
       | Ok ds =>
           (In serial (map (dev_serial host) ds) -> exists info, r = Ok info)
           /\ (~ In serial (map (dev_serial host) ds) ->
               r = Raise (HTTPException 404 ("Device " ++ serial ++ " not found")))
       end.
Proof.
  intros r. subst r.
  destruct (get_devices_outcome host w) as (l & tr & Hrun & Hl).
  assert (Hr : res (DevicesApi.get_device_info host http_str serial w)
               = match DevicesApi.first_with_serial serial l with
                 | Some info => Ok info
                 | None => Raise (DevicesApi.device_not_found serial)
                 end).
  { unfold DevicesApi.get_device_info, try_except, bind. rewrite Hrun.
    cbn [res final trace].
    destruct (DevicesApi.first_with_serial serial l); reflexivity. }
  rewrite Hr. pose proof (first_with_serial_spec serial l) as Hf.
  exists l. split; [now rewrite Hrun|].
  split; [unfold DevicesApi.list_devices, try_except, bind; now rewrite Hrun|].
  split; [|split; [|split]].
  - intros info.
    destruct (DevicesApi.first_with_serial serial l) as [found|] eqn:E; intros H;
      [|discriminate H].
    injection H as <-. exact (first_with_serial_split serial l found E).
  - destruct (DevicesApi.first_with_serial serial l) as [info|].
    + intros _. now exists info.
    + intros Hi. contradiction.
  - intros e. destruct (DevicesApi.first_with_serial serial l); intros H;
      [discriminate H|]. injection H as <-. split; [reflexivity | exact Hf].
  - destruct (adb_device_list host w) as [ds|e].
    + rewrite <- (describes_serials host w ds l Hl).
      destruct (DevicesApi.first_with_serial serial l) as [info|]; split.
      * intros _. now exists info.
      * intros Hn. exfalso. apply Hn. apply in_map_iff. exists info. tauto.
      * intros Hi. contradiction.
      * reflexivity.
    + subst l. reflexivity.
Qed.

Lemma get_device_info_spec_witness :
  res (DevicesApi.get_device_info Toy.host (fun _ d => d) "S2" Toy.w0)
    = Ok {| di_serial := "S2"; di_model := "Unknown"; di_manufacturer := "Unknown";
            di_android_version := "Unknown"; di_state := "device" |}
  /\ res (DevicesApi.get_device_info Toy.host (fun _ d => d) "S9" Toy.w0)
    = Raise (HTTPException 404 "Device S9 not found")
  /\ res (DevicesApi.get_device_info Toy.host (fun _ d => d) "S1" Toy.w_down)
    = Raise (HTTPException 404 "Device S1 not found").
Proof.
  destruct (get_device_info_spec Toy.host (fun _ d => d) "S2" Toy.w0)
    as (l2 & Hl2 & _ & _ & H2 & _).
  destruct (get_device_info_spec Toy.host (fun _ d => d) "S9" Toy.w0)
    as (l9 & _ & _ & _ & _ & _ & H9).
  destruct (get_device_info_spec Toy.host (fun _ d => d) "S1" Toy.w_down)
    as (l1 & _ & _ & _ & _ & _ & H1).
  split; [|split].
  - vm_compute in Hl2. injection Hl2 as <-.
    destruct H2 as [info Hi]; [vm_compute; auto|].
    rewrite Hi. vm_compute in Hi. injection Hi as <-. reflexivity.
  - apply (proj2 H9). vm_compute. intros [H|[H|[]]]; discriminate H.
  - exact H1.
Defined.

(** A serial carried by two entries: the first one is returned. *)
Example first_with_serial_takes_the_first :
  DevicesApi.first_with_serial "S1"
    [ADBService.unknown_device "S0";
     {| di_serial := "S1"; di_model := "Pixel 8"; di_manufacturer := "Google";
        di_android_version := "14"; di_state := "device" |};
     ADBService.unknown_device "S1"]
  = Some {| di_serial := "S1"; di_model := "Pixel 8"; di_manufacturer := "Google";
            di_android_version := "14"; di_state := "device" |}.
Proof. reflexivity. Qed.

(** ** The listing endpoints *)

Lemma remote_list_files_run {W Dev} (host : Host W Dev) (serial path : string)
    (d : Dev) (r : result string) (w w' : W) :
  adb_device host w serial = Ok d ->
  dev_shell host d (ADBService.ls_command path) w = (r, w') ->
  ADBService.list_files host serial path w
  = Outcome (match r with
             | Ok output => ADBService.parse_listing path output
             | Raise e => Raise e
             end) w'
      [EAdbDevice serial; EAdbShell (dev_serial host d) (ADBService.ls_command path)].
Proof.
  intros Hd Hs. unfold ADBService.list_files.
  rewrite bind_get_device, Hd. cbv zeta.
  rewrite try_except_reraise. unfold ADBService.shell, bind, perform.
  rewrite Hs. destruct r as [output|e]; cbn; [|reflexivity].
  destruct (ADBService.parse_listing path output); reflexivity.
Qed.

Lemma entry_of_line_raises_ValueError (path line : string) (e : exn) :
  ADBService.entry_of_line path line = Raise e -> Api.is_ValueError e = true.
Proof.
  unfold ADBService.entry_of_line.
  destruct (Str.is_empty line || Str.startswith line "total"); [discriminate|].
  destruct (List.length (Str.split line) <? 8)%nat; [discriminate|].
  destruct (String.eqb _ "." || String.eqb _ ".."); [discriminate|].
  destruct (negb (Str.startswith (nth 0 (Str.split line) "") "d")); [|discriminate].
  unfold Builtins.int.
  destruct (negb (Str.is_empty _) && Str.all_chars Str.is_decimal_char _);
    [destruct (N.of_nat _ <=? Builtins.int_max_str_digits)%N; [discriminate|]|];
    intros H; injection H as <-; reflexivity.
Qed.

Lemma parse_listing_raises_ValueError (path output : string) (e : exn) :
  ADBService.parse_listing path output = Raise e -> Api.is_ValueError e = true.
Proof.
  unfold ADBService.parse_listing.
  generalize (@nil file_info) as files.
  induction (Str.split_sep "010" (Str.strip output)) as [|line lines IH];
    intros files; cbn [ADBService.collect]; [discriminate|].
  destruct (ADBService.entry_of_line path line) as [[fi|]|e'] eqn:E.
  - apply IH.
  - apply IH.
  - intros H. injection H as <-. exact (entry_of_line_raises_ValueError _ _ _ E).
Qed.

(** X15.  [list_android_files]: when the device cannot be resolved the
    answer is status 404 "Device <serial> not found" and no shell
    command is sent.  When the shell prints a listing, a listing that
    cannot be parsed is answered with status 404 as well, and otherwise
    the answer carries the path as given, the sorted entries, and as
    parent the directory part of the path, the parent of ["/"] being
    ["/"] itself. *)
Theorem list_android_files_spec
    {W Dev : Type} (host : Host W Dev)
    (http_str : Z -> string -> string) (serial path : string) (w : W) :
  (forall e, adb_device host w serial = Raise e ->
     Api.list_android_files host http_str serial path w
     = Outcome (Raise (HTTPException 404 ("Device " ++ serial ++ " not found"))) w
         [EAdbDevice serial])
  /\ (forall d output w',
     adb_device host w serial = Ok d ->
     dev_shell host d (ADBService.ls_command path) w = (Ok output, w') ->
     match ADBService.parse_listing path output with
     | Ok files =>
         res (Api.list_android_files host http_str serial path w)
         = Ok {| Api.current_path := path;
                 Api.parent_path :=
                   if String.eqb path "/" then "/" else posixpath.dirname path;
                 Api.files := files |}
         /\ StronglySorted precedes files
     | Raise e =>
         exists detail,
           res (Api.list_android_files host http_str serial path w)
           = Raise (HTTPException 404 detail)
     end).
Proof.
  split.
  - intros e He. unfold Api.list_android_files.
    rewrite try_except_browse_errors.
    unfold bind. rewrite (list_files_unresolved host serial path e w He).
    reflexivity.
  - intros d output w' Hd Hs. unfold Api.list_android_files.
    rewrite try_except_browse_errors.
    unfold bind. rewrite (remote_list_files_run host serial path d (Ok output) w w' Hd Hs).
    cbn [res final trace].
    destruct (ADBService.parse_listing path output) as [files|e] eqn:E.
    + cbn [res ret]. split; [|exact (parse_listing_sorted _ _ _ E)].
      destruct (String.eqb path "/"); reflexivity.
    + cbn [res]. rewrite (parse_listing_raises_ValueError _ _ _ E).
      eexists. reflexivity.
Qed.

Lemma list_android_files_spec_witness :
  Api.list_android_files Toy.host (fun _ d => d) "S9" "/sdcard" Toy.w0
    = Outcome (Raise (HTTPException 404 "Device S9 not found")) Toy.w0
        [EAdbDevice "S9"]
  /\ option_map (fun r => (Api.current_path r, Api.parent_path r,
                           map fi_name (Api.files r)))
       (match res (Api.list_android_files Toy.host (fun _ d => d) "S1" "/sdcard"
                     Toy.w0)
        with Ok r => Some r | Raise _ => None end)
     = Some ("/sdcard", "/", ["DCIM"; "Pictures"; "a.txt"]).
Proof.
  destruct (list_android_files_spec Toy.host (fun _ d => d) "S9" "/sdcard" Toy.w0)
    as [H1 _].
  destruct (list_android_files_spec Toy.host (fun _ d => d) "S1" "/sdcard" Toy.w0)
    as [_ H2].
  split.
  - exact (H1 _ eq_refl).
  - specialize (H2 "S1" (Toy.ls_output Toy.pixel) Toy.w0 eq_refl eq_refl).
    cbv beta iota in H2.
    destruct (ADBService.parse_listing "/sdcard" (Toy.ls_output Toy.pixel))
      as [files|e] eqn:E; [|vm_compute in E; discriminate E].
    destruct H2 as [H2 _]. rewrite H2. vm_compute in E. injection E as <-.
    reflexivity.
Defined.

Lemma local_list_files_raises
    {W Dev : Type} (host : Host W Dev) (self : FileService.Self) (w : W)
    (D : string) (e : exn) :
  res (FileService.validate_path host self D w) = Raise e ->
  FileService.list_files host self (Some D) w
  = Outcome (Raise e) w (trace (FileService.validate_path host self D w)).
Proof.
  intros He. unfold FileService.list_files. rewrite try_except_reraise.
  rewrite (bind_run_Raise _ _ _ _ He). cbn [res final trace].
  now rewrite validate_path_final.
Qed.

Lemma local_list_files_listdir_raises
    {W Dev : Type} (host : Host W Dev) (self : FileService.Self) (w : W)
    (D dir : string) (e : exn) :
  res (FileService.validate_path host self D w) = Ok dir ->
  os_listdir host w dir = Raise e ->
  res (FileService.list_files host self (Some D) w) = Raise e.
Proof.
  intros Hv Hl. unfold FileService.list_files. rewrite try_except_reraise.
  cbn [res]. rewrite (bind_run_Ok _ _ _ _ Hv). cbn [res].
  rewrite validate_path_final. unfold os.listdir.
  now rewrite bind_lookup_result, Hl.
Qed.

(** X16.  [list_mac_files] for a path that is given and not empty.  A
    path that does not exist is answered with status 400 "Path does not
    exist: <path>".  A path that validates but that [os.listdir] cannot
    read (a regular file, say) is answered with status 500.  For a
    directory that can be listed and whose validated path validates to
    itself, the answer carries the validated path, its directory part as
    parent, and the sorted entries of the children that are not hidden
    and can be read. *)
Theorem list_mac_files_spec
    {W Dev : Type} (host : Host W Dev) (self : FileService.Self)
    (http_str : Z -> string -> string) (D : string) (w : W) :
  D <> "" ->
  (D <> "/" ->
   os_exists host w (os_abspath host w (os_expanduser host w D)) = false ->
   res (Api.list_mac_files host self http_str (Some D) w)
   = Raise (HTTPException 400 ("Path does not exist: " ++ D)))
  /\ (forall dir e,
      res (FileService.validate_path host self D w) = Ok dir ->
      os_listdir host w dir = Raise e ->
      Api.is_ValueError e = false ->
      res (Api.list_mac_files host self http_str (Some D) w)
      = Raise (HTTPException 500
                 ("Error listing Mac files: " ++ Api.str http_str e)))
  /\ (forall dir items,
      res (FileService.validate_path host self D w) = Ok dir ->
      res (FileService.validate_path host self dir w) = Ok dir ->
      os_listdir host w dir = Ok items ->
      stat_raises_OSError host w dir items ->
      res (Api.list_mac_files host self http_str (Some D) w)
      = Ok {| Api.current_path := dir;
              Api.parent_path := posixpath.dirname dir;
              Api.files :=
                sort_listing (map (local_entry host w dir)
                                (filter (visible host w dir) items)) |}).
Proof.
  intros Hne.
  assert (Ht : Api.truthy (Some D) = true)
    by (destruct D; [congruence | reflexivity]).
  split; [|split].
  - intros Hnr He. unfold Api.list_mac_files. rewrite try_except_browse_errors.
    pose proof (validate_path_missing host self D w Hne Hnr He) as Hv.
    assert (Hr : res (FileService.validate_path host self D w)
                 = Raise (FileService.path_not_found D)) by now rewrite Hv.
    unfold bind at 1. rewrite (local_list_files_raises host self w D _ Hr).
    reflexivity.
  - intros dir e Hv Hl Hnv. unfold Api.list_mac_files.
    rewrite try_except_browse_errors.
    unfold bind at 1.
    rewrite (local_list_files_listdir_raises host self w D dir e Hv Hl).
    cbn [res]. now rewrite Hnv.
  - intros dir items Hv Hvv Hl Hstat. unfold Api.list_mac_files.
    rewrite try_except_browse_errors.
    destruct (local_list_files_run host self w D dir items Hv Hl Hstat)
      as [Hrun Hfin].
    rewrite (bind_run_Ok _ _ _ _ Hrun). cbn [res final trace]. rewrite Hfin.
    rewrite Ht.
    rewrite (bind_run_Ok _ _ _ _ Hv). cbn [res final trace].
    rewrite validate_path_final.
    assert (Hp : res (FileService.get_parent_directory host self dir w)
                 = Ok (posixpath.dirname dir)).
    { unfold FileService.get_parent_directory.
      rewrite (bind_run_Ok _ _ _ _ Hvv). cbn [res ret].
      destruct (String.eqb (posixpath.dirname dir) dir) eqn:E; cbn [negb];
        [|reflexivity].
      apply String.eqb_eq in E. now rewrite E. }
    rewrite (bind_run_Ok _ _ _ _ Hp). reflexivity.
Qed.

Lemma list_mac_files_spec_witness :
  res (Api.list_mac_files Toy.host Toy.self (fun _ d => d) (Some "~/nothing") Toy.w0)
    = Raise (HTTPException 400 "Path does not exist: ~/nothing")
  /\ res (Api.list_mac_files Toy.host Toy.self (fun _ d => d)
            (Some "~/notes.txt") Toy.w0)
    = Raise (HTTPException 500
               "Error listing Mac files: [Errno 20] Not a directory")
  /\ option_map (fun r => (Api.current_path r, Api.parent_path r,
                           map fi_name (Api.files r)))
       (match res (Api.list_mac_files Toy.host Toy.self (fun _ d => d)
                     (Some "~") Toy.w0)
        with Ok r => Some r | Raise _ => None end)
     = Some ("/home/u", "/home", ["apps"; "Music"; "Budget.xls"; "notes.txt"]).
Proof.
  split; [|split].
  - destruct (list_mac_files_spec Toy.host Toy.self (fun _ d => d) "~/nothing"
                Toy.w0) as [H _]; [discriminate|].
    apply H; [discriminate | reflexivity].
  - destruct (list_mac_files_spec Toy.host Toy.self (fun _ d => d) "~/notes.txt"
                Toy.w0) as (_ & H & _); [discriminate|].
    exact (H "/home/u/notes.txt" _ eq_refl eq_refl eq_refl).
  - destruct (list_mac_files_spec Toy.host Toy.self (fun _ d => d) "~" Toy.w0)
      as (_ & _ & H); [discriminate|].
    rewrite (H "/home/u"
               ["notes.txt"; "Music"; ".profile"; "stale"; "apps"; "Budget.xls"]
               eq_refl eq_refl eq_refl).
    + reflexivity.
    + intros item e Hin.
      repeat (destruct Hin as [<- | Hin];
              [vm_compute; intros H0; inversion H0; reflexivity|]).
      destruct Hin.
Defined.

(** ** The connection manager *)

Lemma list_remove_app_last (ws : ConnectionManager.WebSocket)
    (conns : list ConnectionManager.WebSocket) :
  exists l,
    ConnectionManager.list_remove ws (conns ++ [ws]) = Some l
    /\ List.length l = List.length conns
    /\ (~ In ws conns -> l = conns).
Proof.
  induction conns as [|c conns IH]; cbn [app ConnectionManager.list_remove].
  - rewrite Nat.eqb_refl. exists []. auto.
  - destruct (Nat.eqb c ws) eqn:E.
    + apply Nat.eqb_eq in E. subst c. exists (conns ++ [ws]). split; [reflexivity|].
      split; [rewrite length_app; cbn; lia|].
      intros H. exfalso. apply H. now left.
    + destruct IH as (l & -> & Hlen & Hfresh). exists (c :: l).
      split; [reflexivity|]. split; [cbn; now rewrite Hlen|].
      intros H. f_equal. apply Hfresh. intros Hin. apply H. now right.
Qed.

Lemma list_remove_absent (ws : ConnectionManager.WebSocket)
    (conns : list ConnectionManager.WebSocket) :
  ~ In ws conns -> ConnectionManager.list_remove ws conns = None.
Proof.
  induction conns as [|c conns IH]; intros H; [reflexivity|].
  cbn [ConnectionManager.list_remove].
  destruct (Nat.eqb c ws) eqn:E.
  - apply Nat.eqb_eq in E. exfalso. apply H. now left.
  - rewrite IH; [reflexivity|]. intros Hin. apply H. now right.
Qed.

(** X17.  After a [connect] that went through, [disconnect] of the same
    websocket does not raise and leaves as many connections as there
    were before; when the websocket was not registered before, the list
    is exactly the one before.  A [connect] whose [accept] raises
    registers nothing, and [disconnect] of a websocket that is not
    registered raises [ValueError]. *)
Theorem connect_then_disconnect
    (ws : ConnectionManager.WebSocket) (conns : ConnectionManager.Self) :
  (exists registered l,
     ConnectionManager.connect (Ok tt) ws conns = Ok registered
     /\ In ws registered
     /\ ConnectionManager.disconnect ws registered = Ok l
     /\ List.length l = List.length conns
     /\ (~ In ws conns -> l = conns))
  /\ (forall e, ConnectionManager.connect (Raise e) ws conns = Raise e)
  /\ (~ In ws conns ->
      ConnectionManager.disconnect ws conns
      = Raise (ValueError "list.remove(x): x not in list")).
Proof.
  split; [|split].
  - destruct (list_remove_app_last ws conns) as (l & Hl & Hlen & Hfresh).
    exists (conns ++ [ws]), l. split; [reflexivity|].
    split; [apply in_or_app; right; now left|].
    unfold ConnectionManager.disconnect. rewrite Hl. auto.
  - reflexivity.
  - intros H. unfold ConnectionManager.disconnect.
    now rewrite (list_remove_absent ws conns H).
Qed.

Lemma connect_then_disconnect_witness :
  ConnectionManager.disconnect 7 [3; 5]
  = Raise (ValueError "list.remove(x): x not in list")
  /\ ConnectionManager.disconnect 7 [3; 5; 7] = Ok [3; 5].
Proof.
  destruct (connect_then_disconnect 7 [3; 5]) as ((r & l & Hc & _ & Hd & _ & Hf) & _ & H).
  split.
  - apply H. intros [E|[E|[]]]; discriminate E.
  - cbn in Hc. injection Hc as <-.
    rewrite Hf in Hd; [exact Hd|].
    intros [E|[E|[]]]; discriminate E.
Defined.

(** ** ASCII listings always parse *)

Section AllChars.
Variable p : ascii -> bool.

Lemma all_chars_app (a b : string) :
  Str.all_chars p (a ++ b) = Str.all_chars p a && Str.all_chars p b.
Proof.
  induction a as [|c a IH]; cbn [append Str.all_chars]; [reflexivity|].
  now rewrite IH, andb_assoc.
Qed.

Lemma all_chars_lstrip (s : string) :
  Str.all_chars p s = true -> Str.all_chars p (Str.lstrip s) = true.
Proof.
  induction s as [|c r IH]; [reflexivity|]. cbn [Str.lstrip].
  destruct (Str.isspace c); [|auto].
  cbn [Str.all_chars]. intros H. apply andb_true_iff in H. now apply IH.
Qed.

Lemma all_chars_rstrip (s : string) :
  Str.all_chars p s = true -> Str.all_chars p (Str.rstrip s) = true.
Proof.
  induction s as [|c r IH]; [reflexivity|]. cbn [Str.rstrip Str.all_chars].
  intros H. apply andb_true_iff in H. destruct H as [Hc Hr].
  destruct (Str.isspace c && Str.is_empty (Str.rstrip r)); [reflexivity|].
  cbn [Str.all_chars]. now rewrite Hc, IH.
Qed.

Lemma all_chars_split_go (s : string) :
  forall tok,
    Str.all_chars p tok = true -> Str.all_chars p s = true ->
    Forall (fun t => Str.all_chars p t = true) (Str.split_go tok s).
Proof.
  induction s as [|c r IH]; intros tok Ht Hs; cbn [Str.split_go].
  - destruct (Str.is_empty tok); repeat constructor. exact Ht.
  - cbn [Str.all_chars] in Hs. apply andb_true_iff in Hs. destruct Hs as [Hc Hr].
    destruct (Str.isspace c).
    + destruct (Str.is_empty tok); [|constructor; [exact Ht|]]; now apply IH.
    + apply IH; [|exact Hr]. rewrite all_chars_app, Ht. cbn. now rewrite Hc.
Qed.

Lemma all_chars_split_sep_go (sep : ascii) (s : string) :
  forall cur,
    Str.all_chars p cur = true -> Str.all_chars p s = true ->
    Forall (fun t => Str.all_chars p t = true) (Str.split_sep_go sep cur s).
Proof.
  induction s as [|c r IH]; intros cur Ht Hs; cbn [Str.split_sep_go].
  - repeat constructor. exact Ht.
  - cbn [Str.all_chars] in Hs. apply andb_true_iff in Hs. destruct Hs as [Hc Hr].
    destruct (Ascii.eqb c sep).
    + constructor; [exact Ht|]. now apply IH.
    + apply IH; [|exact Hr]. rewrite all_chars_app, Ht. cbn. now rewrite Hc.
Qed.
End AllChars.

Lemma ascii_digits_are_decimal (s : string) :
  ascii_only s = true -> Str.isdigit s = true ->
  negb (Str.is_empty s) && Str.all_chars Str.is_decimal_char s = true.
Proof.
  unfold ascii_only, Str.isdigit. intros Ha Hd.
  apply andb_true_iff in Hd. destruct Hd as [Hn Hd]. rewrite Hn. cbn [andb].
  clear Hn. induction s as [|c r IH]; [reflexivity|].
  cbn [Str.all_chars] in *.
  apply andb_true_iff in Ha. destruct Ha as [Hac Har].
  apply andb_true_iff in Hd. destruct Hd as [Hdc Hdr].
  rewrite (IH Har Hdr), andb_true_r.
  unfold Str.isdigit_char in Hdc.
  destruct (Str.is_decimal_char c); [reflexivity|]. cbn [orb] in Hdc.
  apply N.ltb_lt in Hac.
  repeat (apply orb_true_iff in Hdc; destruct Hdc as [Hdc|Hdc]);
    apply N.eqb_eq in Hdc; lia.
Qed.

Lemma nth_Forall {A} (P : A -> Prop) (l : list A) (n : nat) (d : A) :
  Forall P l -> P d -> P (nth n l d).
Proof.
  intros Hl Hd. revert n. induction Hl; intros [|n]; cbn; auto.
Qed.

Lemma entry_of_line_ascii (path line : string) :
  ascii_only line = true ->
  size_field_short line = true ->
  exists r, ADBService.entry_of_line path line = Ok r.
Proof.
  intros Ha Hshort. unfold ADBService.entry_of_line.
  destruct (Str.is_empty line || Str.startswith line "total"); [eauto|].
  destruct (List.length (Str.split line) <? 8)%nat; [eauto|].
  destruct (String.eqb _ "." || String.eqb _ ".."); [eauto|].
  destruct (negb (Str.startswith (nth 0 (Str.split line) "") "d")); [|eauto].
  assert (Htok : ascii_only (nth 4 (Str.split line) "") = true).
  { apply (nth_Forall (fun t => ascii_only t = true)); [|reflexivity].
    apply all_chars_split_go; [reflexivity | exact Ha]. }
  unfold Builtins.int. unfold size_field_short in Hshort.
  destruct (Str.isdigit (nth 4 (Str.split line) "")) eqn:D.
  - rewrite (ascii_digits_are_decimal _ Htok D), Hshort. eauto.
  - cbn. eauto.
Qed.

Lemma collect_ascii (path : string) (lines : list string) :
  Forall (fun l => ascii_only l = true) lines ->
  forallb size_field_short lines = true ->
  forall files, exists l, ADBService.collect path lines files = Ok l.
Proof.
  induction 1 as [|line lines Hl _ IH]; intros Hshort files;
    cbn [ADBService.collect].
  - eauto.
  - cbn [forallb] in Hshort. apply andb_true_iff in Hshort.
    destruct Hshort as [Hs Hrest].
    destruct (entry_of_line_ascii path line Hl Hs) as [[fi|] ->]; now apply IH.
Qed.

(** X18.  A listing made of ASCII characters only, none of whose lines
    has a fifth field of more than 4300 characters, is never rejected:
    whatever its lines look like, the parser returns a list, skipping
    the lines it cannot use; and [list_files], for a device that
    resolves and whose shell prints such a listing, returns that list. *)
Theorem ascii_listing_always_parses
    {W Dev : Type} (host : Host W Dev) (serial path output : string)
    (d : Dev) (w w' : W) :
  ascii_only output = true ->
  forallb size_field_short (listing_lines output) = true ->
  (exists l, ADBService.parse_listing path output = Ok l)
  /\ (adb_device host w serial = Ok d ->
      dev_shell host d (ADBService.ls_command path) w = (Ok output, w') ->
      exists l, res (ADBService.list_files host serial path w) = Ok l).
Proof.
  intros Ha Hshort.
  assert (Hp : exists l, ADBService.parse_listing path output = Ok l).
  { unfold ADBService.parse_listing. unfold listing_lines in Hshort.
    destruct (collect_ascii path (Str.split_sep "010" (Str.strip output))) with
      (files := @nil file_info) as [l ->]; [|exact Hshort|eauto].
    apply all_chars_split_sep_go; [reflexivity|].
    unfold Str.strip. apply all_chars_rstrip, all_chars_lstrip. exact Ha. }
  split; [exact Hp|].
  intros Hd Hs. destruct Hp as [l Hl]. exists l.
  rewrite (remote_list_files_run host serial path d (Ok output) w w' Hd Hs).
  exact Hl.
Qed.

Lemma ascii_listing_always_parses_witness :
  (exists l,
     ADBService.parse_listing "/sdcard"
       "lrwxrwxrwx 1 root root 2024-01-01 00:00 sdcard -> /storage/self/primary"
     = Ok l)
  /\ (exists l, res (ADBService.list_files Toy.host "S1" "/sdcard" Toy.w0) = Ok l).
Proof.
  split.
  - exact (proj1 (ascii_listing_always_parses Toy.host "S1" "/sdcard"
                    "lrwxrwxrwx 1 root root 2024-01-01 00:00 sdcard -> /storage/self/primary"
                    "S1" Toy.w0 Toy.w0 eq_refl eq_refl)).
  - exact (proj2 (ascii_listing_always_parses Toy.host "S1" "/sdcard"
                    (Toy.ls_output Toy.pixel) "S1" Toy.w0 Toy.w0 eq_refl eq_refl)
             eq_refl eq_refl).
Defined.

(** A size field written with a superscript digit passes [isdigit] and
    makes [int] raise. *)
Example superscript_size_is_rejected :
  exists msg,
    ADBService.parse_listing "/sdcard"
      ("-rw-r--r-- 1 root root " ++ String (ascii_of_N 178) ""
       ++ " 2024-01-01 00:00 a.txt")
    = Raise (ValueError msg).
Proof. eexists. vm_compute. reflexivity. Qed.

(** So does a size field of 4301 decimal digits, while one of 4300
    digits is converted. *)
Example long_size_is_rejected :
  (exists msg,
     ADBService.parse_listing "/sdcard"
       ("-rw-r--r-- 1 root root " ++ String.concat "" (List.repeat "7" 4301)
        ++ " 2024-01-01 00:00 a.txt")
     = Raise (ValueError msg))
  /\ (exists x,
     ADBService.parse_listing "/sdcard"
       ("-rw-r--r-- 1 root root " ++ String.concat "" (List.repeat "7" 4300)
        ++ " 2024-01-01 00:00 a.txt")
     = Ok [x]).
Proof. split; eexists; vm_compute; reflexivity. Qed.

(** ** The order of a listing does not depend on the order of its input *)

Lemma tuple_lt_connected (k1 k2 : bool * string) :
  Builtins.tuple_lt k1 k2 = false -> Builtins.tuple_lt k2 k1 = false -> k1 = k2.
Proof.
  destruct k1 as [b1 s1], k2 as [b2 s2]; unfold Builtins.tuple_lt.
  destruct b1, b2; cbn; try discriminate; intros H1 H2;
    destruct (str_ltb_total s1 s2) as [L | [-> | L]]; congruence.
Qed.

Lemma NoDup_map_injective {A B} (f : A -> B) (l : list A) (a b : A) :
  NoDup (map f l) -> In a l -> In b l -> f a = f b -> a = b.
Proof.
  induction l as [|x l IH]; cbn; intros Hn Ha Hb Hf; [contradiction|].
  inversion Hn as [|y ys Hnot Hn']; subst.
  destruct Ha as [<- | Ha], Hb as [<- | Hb]; auto.
  - exfalso. apply Hnot. rewrite Hf. now apply in_map.
  - exfalso. apply Hnot. rewrite <- Hf. now apply in_map.
Qed.

Lemma sorted_unique {A} (R : A -> A -> Prop) (l1 : list A) :
  forall l2,
    StronglySorted R l1 -> StronglySorted R l2 -> Permutation l1 l2 ->
    (forall a b, In a l1 -> In b l1 -> R a b -> R b a -> a = b) ->
    l1 = l2.
Proof.
  induction l1 as [|a t1 IH]; intros l2 H1 H2 HP Hanti.
  - apply Permutation_nil in HP. now subst.
  - destruct l2 as [|b t2];
      [apply Permutation_sym, Permutation_nil in HP; discriminate HP|].
    inversion H1 as [|? ? Hs1 Hall1]; subst.
    inversion H2 as [|? ? Hs2 Hall2]; subst.
    assert (Hab : a = b).
    { assert (Ha : In a (b :: t2)) by (eapply Permutation_in; [exact HP | now left]).
      assert (Hb : In b (a :: t1))
        by (eapply Permutation_in; [symmetry; exact HP | now left]).
      destruct Ha as [-> | Ha]; [reflexivity|].
      destruct Hb as [<- | Hb]; [reflexivity|].
      rewrite Forall_forall in Hall1, Hall2.
      apply Hanti; [now left | now right | now apply Hall1 | now apply Hall2]. }
    subst b. f_equal. apply Permutation_cons_inv in HP.
    apply IH; auto. intros x y Hx Hy. apply Hanti; now right.
Qed.

(** X19.  The order of a listing is fixed by its entries alone: two
    lists holding the same entries in different orders are sorted into
    the same list, provided no two entries agree on both their kind and
    their lower-cased name.  So the answer of a listing does not depend
    on the order in which the directory or the device enumerates the
    entries. *)
Theorem listing_order_is_canonical (l1 l2 : list file_info) :
  Permutation l1 l2 ->
  NoDup (map listing_key l1) ->
  sort_listing l1 = sort_listing l2.
Proof.
  intros HP Hn.
  apply (sorted_unique (not_after listing_key Builtins.tuple_lt)).
  - apply sorted_sorted; [exact tuple_lt_asym | exact tuple_lt_negtrans].
  - apply sorted_sorted; [exact tuple_lt_asym | exact tuple_lt_negtrans].
  - rewrite (sort_listing_perm l1), (sort_listing_perm l2). exact HP.
  - intros a b Ha Hb Rab Rba.
    apply (NoDup_map_injective listing_key l1); auto.
    + eapply Permutation_in; [apply sort_listing_perm | exact Ha].
    + eapply Permutation_in; [apply sort_listing_perm | exact Hb].
    + apply tuple_lt_connected; assumption.
Qed.

Lemma listing_order_is_canonical_witness :
  sort_listing [remote_entry "/sdcard" "b.txt" "-rw-rw----" false 1;
                remote_entry "/sdcard" "Zoo" "drwxrwx--x" true 0;
                remote_entry "/sdcard" "a.txt" "-rw-rw----" false 2]
  = sort_listing [remote_entry "/sdcard" "a.txt" "-rw-rw----" false 2;
                  remote_entry "/sdcard" "b.txt" "-rw-rw----" false 1;
                  remote_entry "/sdcard" "Zoo" "drwxrwx--x" true 0].
Proof.
  apply listing_order_is_canonical.
  - eapply perm_trans; [apply perm_swap|].
    eapply perm_trans; [apply perm_skip, perm_swap|].
    eapply perm_trans; [apply perm_swap|].
    eapply perm_trans; [apply perm_skip, perm_swap|]. apply Permutation_refl.
  - vm_compute. repeat constructor; cbn; intuition discriminate.
Defined.

(** Names that differ by case only share a key, and such entries stay
    in the order they came in. *)
Example same_name_up_to_case_keeps_input_order :
  map fi_name
    (sort_listing [remote_entry "/sdcard" "a.txt" "-rw-rw----" false 1;
                   remote_entry "/sdcard" "A.txt" "-rw-rw----" false 2])
  = ["a.txt"; "A.txt"]
  /\ map fi_name
    (sort_listing [remote_entry "/sdcard" "A.txt" "-rw-rw----" false 2;
                   remote_entry "/sdcard" "a.txt" "-rw-rw----" false 1])
  = ["A.txt"; "a.txt"].
Proof. split; reflexivity. Qed.

(** ** Writing into a directory that exists *)

Lemma makedirs_existing {W Dev} (host : Host W Dev) (dir msg : string) (w : W) :
  (Str.is_empty (fst (makedirs_split dir)) || Str.is_empty (snd (makedirs_split dir))
   = true
   \/ os_exists host w (fst (makedirs_split dir)) = true) ->
  os_mkdir host dir w = (Raise (OSError EEXIST msg), w) ->
  os_isdir host w dir = true ->
  exists pre,
    os.makedirs host dir w = Outcome (Ok tt) w (pre ++ [EOsMkdir dir; EOsIsdir dir])
    /\ (pre = [] \/ pre = [EOsExists (fst (makedirs_split dir))]).
Proof.
  intros Hhead Hm Hi. unfold os.makedirs. cbn [os.makedirs_fuel].
  unfold makedirs_split in *.
  destruct (posixpath.split dir) as [head0 tail0].
  destruct (if Str.is_empty tail0 then posixpath.split head0 else (head0, tail0))
    as [head tail].
  cbn [fst snd] in *.
  assert (Hlast : try_except (os.mkdir host dir)
            (fun e => if is_OSError e
                      then isd <- os.path_isdir host dir ;;
                           (if negb isd then raise e else ret tt)
                      else raise e) w
          = Outcome (Ok tt) w [EOsMkdir dir; EOsIsdir dir]).
  { unfold os.mkdir, os.path_isdir. run_step. rewrite Hm. simpl. now rewrite Hi. }
  destruct (negb (Str.is_empty head) && negb (Str.is_empty tail)) eqn:C.
  - destruct Hhead as [Hhead | Hhead].
    + apply andb_true_iff in C. destruct C as [C1 C2].
      apply negb_true_iff in C1, C2. rewrite C1, C2 in Hhead. discriminate Hhead.
    + exists [EOsExists head]. split; [|now right].
      unfold os.path_exists. unfold bind at 1. rewrite bind_lookup, Hhead.
      cbn [negb ret res final trace]. rewrite Hlast. reflexivity.
  - exists []. split; [|now left].
    unfold bind at 1. cbn [ret res final trace]. rewrite Hlast. reflexivity.
Qed.

(** X20.  [write_file] into a directory that exists already: when the
    parent that [os.makedirs] looks at exists (or there is none), and
    [mkdir] of the directory fails because the directory is there, the
    failure is dropped, the file is written once with the content
    given, at the path given, and [write_file] returns [True] in the
    world the write left.  Nothing else is created. *)
Theorem write_file_in_existing_directory
    {W Dev : Type} (host : Host W Dev) (path : string) (content : list byte)
    (msg : string) (w w' : W) :
  let dir := posixpath.dirname path in
  (Str.is_empty (fst (makedirs_split dir)) || Str.is_empty (snd (makedirs_split dir))
   = true
   \/ os_exists host w (fst (makedirs_split dir)) = true) ->
  os_mkdir host dir w = (Raise (OSError EEXIST msg), w) ->
  os_isdir host w dir = true ->
  os_write host path content w = (Ok tt, w') ->
  exists pre,
    FileService.write_file host path content w
    = Outcome (Ok true) w' (pre ++ [EOsMkdir dir; EOsIsdir dir; EOsWrite path])
    /\ (pre = [] \/ pre = [EOsExists (fst (makedirs_split dir))]).
Proof.
  intros dir Hhead Hm Hi Hw. subst dir.
  destruct (makedirs_existing host _ msg w Hhead Hm Hi) as (pre & Hmk & Hpre).
  exists pre. split; [|exact Hpre].
  assert (Hr : res (os.makedirs host (posixpath.dirname path) w) = Ok tt)
    by now rewrite Hmk.
  unfold FileService.write_file. rewrite try_except_reraise.
  rewrite (bind_run_Ok _ _ _ _ Hr). rewrite Hmk. cbn [res final trace].
  unfold os.write_binary, bind, perform. rewrite Hw.
  cbn [res final trace ret]. rewrite app_nil_r, <- app_assoc. reflexivity.
Qed.

Lemma write_file_in_existing_directory_witness :
  exists w',
    FileService.write_file Toy.host "/home/u/notes.txt" ["x"%byte] Toy.w0
    = Outcome (Ok true) w'
        [EOsExists "/home"; EOsMkdir "/home/u"; EOsIsdir "/home/u";
         EOsWrite "/home/u/notes.txt"]
    /\ Toy.node_at Toy.w0 "/home/u/notes.txt" = Some (Toy.File ["n"%byte] 7)
    /\ Toy.node_at w' "/home/u/notes.txt" = Some (Toy.File ["x"%byte] 0).
Proof.
  destruct (write_file_in_existing_directory Toy.host "/home/u/notes.txt"
              ["x"%byte] "[Errno 17] File exists" Toy.w0
              (snd (Toy.write "/home/u/notes.txt" ["x"%byte] Toy.w0)))
    as (pre & Hrun & Hpre).
  - right. reflexivity.
  - reflexivity.
  - reflexivity.
  - reflexivity.
  - exists (snd (Toy.write "/home/u/notes.txt" ["x"%byte] Toy.w0)).
    split; [|split; reflexivity].
    rewrite Hrun. destruct Hpre as [-> | ->].
    + exfalso. vm_compute in Hrun. discriminate Hrun.
    + reflexivity.
Defined.


(** The listing of [''] and of ['/'] is the listing of the home
    directory. *)
Example listing_of_root_is_listing_of_home :
  res (FileService.list_files Toy.host Toy.self (Some "/") Toy.w0)
  = res (FileService.list_files Toy.host Toy.self (Some "/home/u") Toy.w0)
  /\ res (FileService.list_files Toy.host Toy.self (Some "") Toy.w0)
  = res (FileService.list_files Toy.host Toy.self (Some "/home/u") Toy.w0).
Proof. split; reflexivity. Qed.

(** ** Which operations validate the path they are given *)









